(** * Todo AI chatbot backend: tool layer, chat service and agent orchestrator

    Shallow embedding of [src/backend/src/mcp/tools/*.py],
    [src/backend/src/services/chat_service.py], [src/backend/src/agent/agent.py],
    [src/backend/src/api/chat.py] and the task routes of
    [src/backend/src/api/tasks.py].

    Python exceptions are the [Raise] branch of a small error/state monad whose
    state is the database together with a log of the accesses made to it.
    JSON values decoded from the language model (and the dicts the tools
    produce with [json.dumps]) are [value]; a Python [dict] is an association
    list updated with Python's insertion-order semantics. *)

From Stdlib Require Import String Ascii List ZArith NArith Bool Lia.
From Stdlib Require Import Sorting.Permutation Sorting.Sorted Sorting.Mergesort Orders.
Import ListNotations.
Open Scope string_scope.
Open Scope list_scope.

#[local] Set Warnings "-abstract-large-number".

Notation "a ^^ b" := (String.append a b) (at level 60, right associativity).

(** ** Python string helpers *)

Fixpoint str_eqb (a b : string) : bool :=
  match a, b with
  | EmptyString, EmptyString => true
  | String c a', String d b' => Ascii.eqb c d && str_eqb a' b'
  | _, _ => false
  end.

(** [s.startswith(p)] *)
Fixpoint starts_with (p s : string) : bool :=
  match p, s with
  | EmptyString, _ => true
  | String c p', String d s' => Ascii.eqb c d && starts_with p' s'
  | _, _ => false
  end.

(** Python's [needle in hay] for strings. *)
Fixpoint contains (needle hay : string) : bool :=
  match hay with
  | EmptyString => starts_with needle hay
  | String _ hay' => starts_with needle hay || contains needle hay'
  end.

(** [s.replace(pat, rep)] for a non-empty [pat] (every call site of the code
    replaces a non-empty literal). *)
Fixpoint replace_all_fuel (fuel : nat) (pat rep s : string) : string :=
  match fuel with
  | O => s
  | S fuel' =>
    match s with
    | EmptyString => EmptyString
    | String c s' =>
      if starts_with pat s
      then rep ^^ replace_all_fuel fuel' pat rep (substring (String.length pat) (String.length s) s)
      else String c (replace_all_fuel fuel' pat rep s')
    end
  end.

Definition py_replace (pat rep s : string) : string :=
  replace_all_fuel (S (String.length s)) pat rep s.

(** Characters for which [str.isspace()] holds, restricted to ASCII:
    tab, newline, vertical tab, form feed, carriage return, the four
    separators 0x1c..0x1f and space. *)
Definition is_space (c : ascii) : bool :=
  let n := nat_of_ascii c in
  ((9 <=? n) && (n <=? 13))%nat || ((28 <=? n) && (n <=? 32))%nat.

Fixpoint lstrip_by (p : ascii -> bool) (s : string) : string :=
  match s with
  | EmptyString => EmptyString
  | String c s' => if p c then lstrip_by p s' else s
  end.

Fixpoint rev_str (s : string) (acc : string) : string :=
  match s with
  | EmptyString => acc
  | String c s' => rev_str s' (String c acc)
  end.

Definition strip_by (p : ascii -> bool) (s : string) : string :=
  rev_str (lstrip_by p (rev_str (lstrip_by p s) EmptyString)) EmptyString.

(** [s.strip()] *)
Definition py_strip (s : string) : string := strip_by is_space s.

(** [s.strip(chars)] *)
Fixpoint in_chars (c : ascii) (chars : string) : bool :=
  match chars with
  | EmptyString => false
  | String d cs => Ascii.eqb c d || in_chars c cs
  end.

Definition py_strip_chars (chars s : string) : string :=
  strip_by (fun c => in_chars c chars) s.

(** [not s or not s.strip()] for a string [s]. *)
Definition is_blank (s : string) : bool := str_eqb (py_strip s) "".

(** Decimal rendering of a natural number ([str(n)]). *)
Fixpoint digits_fuel (fuel : nat) (n : nat) (acc : string) : string :=
  match fuel with
  | O => acc
  | S f =>
    let d := String (ascii_of_nat (48 + Nat.modulo n 10)) acc in
    if (n <? 10)%nat then d else digits_fuel f (Nat.div n 10) d
  end.

Definition nat_str (n : nat) : string := digits_fuel (S n) n EmptyString.

Definition Z_str (z : Z) : string :=
  match z with
  | Zneg p => "-" ^^ nat_str (Pos.to_nat p)
  | _ => nat_str (Z.to_nat z)
  end.

(** Python's [repr] of a list of strings, e.g. [['title']]. *)
Definition py_str_list_repr (l : list string) : string :=
  "[" ^^ String.concat ", " (map (fun s => "'" ^^ s ^^ "'") l) ^^ "]".

(** ** UUIDs ([uuid.UUID]) *)

Definition hex_val (c : ascii) : option N :=
  let n := nat_of_ascii c in
  if ((48 <=? n) && (n <=? 57))%nat then Some (N.of_nat (n - 48))
  else if ((97 <=? n) && (n <=? 102))%nat then Some (N.of_nat (n - 87))
  else if ((65 <=? n) && (n <=? 70))%nat then Some (N.of_nat (n - 55))
  else None.

Fixpoint hex_to_N (s : string) (acc : N) : option N :=
  match s with
  | EmptyString => Some acc
  | String c s' =>
    match hex_val c with
    | Some d => hex_to_N s' (acc * 16 + d)%N
    | None => None
    end
  end.

(** The first lines of [UUID(hex)]: drop the [urn:] and [uuid:] prefixes,
    strip braces, drop hyphens. When what is left is not 32 characters long
    [UUID] raises [ValueError('badly formed hexadecimal UUID string')]. *)
Definition uuid_hex (s : string) : string :=
  let h := py_replace "uuid:" "" (py_replace "urn:" "" s) in
  py_replace "-" "" (py_strip_chars "{}" h).

(** [UUID(hex)] on a string: [uuid_hex], then 32 hexadecimal digits
    ([int(hex, 16)]; the extra leniency of [int] towards a sign, an [0x]
    prefix, blanks and underscores is not modelled). [None] is the
    [ValueError] it raises. *)
Definition parse_uuid (s : string) : option N :=
  let h := uuid_hex s in
  if (String.length h =? 32)%nat then hex_to_N h 0%N else None.

Definition hex_char (d : N) : ascii :=
  let n := N.to_nat d in
  if (n <? 10)%nat then ascii_of_nat (48 + n) else ascii_of_nat (87 + n).

Fixpoint hex_digits (k : nat) (n : N) (acc : string) : string :=
  match k with
  | O => acc
  | S k' => hex_digits k' (N.div n 16) (String (hex_char (N.modulo n 16)) acc)
  end.

(** [str(uuid)]: 32 lower-case hex digits in 8-4-4-4-12 groups. *)
Definition uuid_str (u : N) : string :=
  let h := hex_digits 32 u EmptyString in
  substring 0 8 h ^^ "-" ^^ substring 8 4 h ^^ "-" ^^ substring 12 4 h ^^ "-"
  ^^ substring 16 4 h ^^ "-" ^^ substring 20 12 h.

(** ** JSON values and Python dicts *)

#[local] Set Warnings "-register-all".
Inductive value : Type :=
| VNull
| VBool (b : bool)
| VNum (z : Z)
| VStr (s : string)
| VList (l : list value)
| VObj (d : list (string * value)).

Definition dict := list (string * value).

(** [d.get(k)] *)
Fixpoint dict_get (k : string) (d : dict) : option value :=
  match d with
  | [] => None
  | (k', v) :: d' => if str_eqb k k' then Some v else dict_get k d'
  end.

Definition dict_mem (k : string) (d : dict) : bool :=
  existsb (fun kv => str_eqb k (fst kv)) d.

(** [d[k] = v]: an existing key keeps its position, a new key goes last. *)
Definition dict_set (k : string) (v : value) (d : dict) : dict :=
  if dict_mem k d
  then map (fun kv => if str_eqb k (fst kv) then (k, v) else kv) d
  else d ++ [(k, v)].

(** [d] without the key [k]. *)
Definition dict_delete (k : string) (d : dict) : dict :=
  filter (fun kv => negb (str_eqb k (fst kv))) d.

(** Python truthiness of a decoded JSON value. *)
Definition truthy (v : value) : bool :=
  match v with
  | VNull => false
  | VBool b => b
  | VNum z => negb (Z.eqb z 0)
  | VStr s => negb (str_eqb s "")
  | VList l => match l with [] => false | _ => true end
  | VObj d => match d with [] => false | _ => true end
  end.

Definition type_name (v : value) : string :=
  match v with
  | VNull => "NoneType"
  | VBool _ => "bool"
  | VNum _ => "int"
  | VStr _ => "str"
  | VList _ => "list"
  | VObj _ => "dict"
  end.

(** [str(v)] inside an f-string, for the scalar values the replies format. *)
Definition py_str (v : value) : string :=
  match v with
  | VNull => "None"
  | VBool true => "True"
  | VBool false => "False"
  | VNum z => Z_str z
  | VStr s => s
  | VList _ => "[...]"
  | VObj _ => "{...}"
  end.

(** ** Data model ([src/backend/src/models]) *)

(** A row of [todo_tasks]; datetimes are microseconds since the epoch. *)
Record task := mk_task {
  t_id : N;
  t_user_id : N;
  t_title : string;
  t_completed : bool;
  t_priority : string;
  t_due_date : option Z;
  t_tags : option string;
  t_created_at : Z;
  t_updated_at : Z
}.

(** A row of [todo_conversations]. *)
Record conversation := mk_conversation {
  c_id : N;
  c_user_id : N;
  c_created_at : Z
}.

(** A row of [todo_messages]. *)
Record message := mk_message {
  m_id : N;
  m_conversation_id : N;
  m_role : string;
  m_content : string;
  m_created_at : Z
}.

(** Sorting rows of [todo_messages] on [created_at] (a stable merge sort);
    one of the orders [ORDER BY created_at] may produce. *)
Module MessageOrder <: Orders.TotalLeBool'.
Definition t := message.
Definition leb (a b : message) : bool := Z.leb a.(m_created_at) b.(m_created_at).
Lemma leb_total : forall a b, leb a b = true \/ leb b a = true.
Proof.
  intros a b; unfold leb; destruct (Z.le_ge_cases a.(m_created_at) b.(m_created_at));
    [left|right]; apply Z.leb_le; lia.
Qed.
End MessageOrder.

Module MessageSort := Sort MessageOrder.

(** What a session does to the database, in order. *)
Inductive access : Type :=
| Select (table : string)
| Add (table : string)
| Delete (table : string)
| Commit
| Rollback.

(** The database, the process clock read by [datetime.utcnow()] and the
    random source of [uuid4()]: [wall k] is the [k]-th clock reading and
    [rng k] the [k]-th fresh identifier. The clock is arbitrary: nothing
    makes the wall clock monotonic. *)
Record db := mk_db {
  tasks : list task;
  conversations : list conversation;
  messages : list message;
  wall : nat -> Z;
  reads : nat;
  rng : nat -> N;
  draws : nat;
  log : list access
}.

Definition set_tasks (ts : list task) (s : db) : db :=
  mk_db ts s.(conversations) s.(messages) s.(wall) s.(reads) s.(rng) s.(draws) s.(log).
Definition set_conversations (cs : list conversation) (s : db) : db :=
  mk_db s.(tasks) cs s.(messages) s.(wall) s.(reads) s.(rng) s.(draws) s.(log).
Definition set_messages (ms : list message) (s : db) : db :=
  mk_db s.(tasks) s.(conversations) ms s.(wall) s.(reads) s.(rng) s.(draws) s.(log).
Definition add_log (a : access) (s : db) : db :=
  mk_db s.(tasks) s.(conversations) s.(messages) s.(wall) s.(reads) s.(rng) s.(draws)
        (s.(log) ++ [a]).
Definition tick_clock (s : db) : db :=
  mk_db s.(tasks) s.(conversations) s.(messages) s.(wall) (S s.(reads)) s.(rng) s.(draws) s.(log).
Definition tick_rng (s : db) : db :=
  mk_db s.(tasks) s.(conversations) s.(messages) s.(wall) s.(reads) s.(rng) (S s.(draws)) s.(log).

(** ** Exceptions and the error/state monad *)

Inductive exc : Type :=
| ValueError (msg : string)
| TypeError (msg : string)
| AttributeError (msg : string)
| DBError (msg : string)            (** raised by the database driver *)
| HTTPException (status_code : Z) (detail : string).

(** [str(e)] *)
Definition exc_str (e : exc) : string :=
  match e with
  | ValueError m | TypeError m | AttributeError m | DBError m => m
  | HTTPException _ d => d
  end.

Inductive outcome (A : Type) : Type :=
| Ok (a : A)
| Raise (e : exc).
Arguments Ok {A} a.
Arguments Raise {A} e.

Definition M (A : Type) : Type := db -> outcome A * db.

Definition ret {A} (a : A) : M A := fun s => (Ok a, s).
Definition raise {A} (e : exc) : M A := fun s => (Raise e, s).
Definition bind {A B} (m : M A) (k : A -> M B) : M B :=
  fun s => match m s with
           | (Ok a, s') => k a s'
           | (Raise e, s') => (Raise e, s')
           end.

Notation "x <- m ;; k" := (bind m (fun x => k))
  (at level 61, m at next level, right associativity).
Notation "m ;;; k" := (bind m (fun _ => k)) (at level 61, right associativity).

(** [try: m except e: h e] *)
Definition try_except {A} (m : M A) (h : exc -> M A) : M A :=
  fun s => match m s with
           | (Ok a, s') => (Ok a, s')
           | (Raise e, s') => h e s'
           end.

Definition get_db : M db := fun s => (Ok s, s).
Definition modify (f : db -> db) : M unit := fun s => (Ok tt, f s).
Definition record_access (a : access) : M unit := modify (add_log a).

(** [datetime.utcnow()] and [uuid4()] *)
Definition utcnow : M Z := fun s => (Ok (s.(wall) s.(reads)), tick_clock s).
Definition uuid4 : M N := fun s => (Ok (s.(rng) s.(draws)), tick_rng s).

(** [session.rollback()]: nothing of the failed unit was written. *)
Definition rollback : M unit := record_access Rollback.

(** [m] leaves the part [f] of the database as it found it, raising or
    not. *)
Definition frame {X A} (f : db -> X) (m : M A) : Prop := forall s, f (snd (m s)) = f s.

(** ** Rows of [todo_tasks] *)

Fixpoint find_task (tid : N) (ts : list task) : option task :=
  match ts with
  | [] => None
  | t :: ts' => if N.eqb t.(t_id) tid then Some t else find_task tid ts'
  end.

Definition replace_task (t : task) (ts : list task) : list task :=
  map (fun x => if N.eqb x.(t_id) t.(t_id) then t else x) ts.

Definition remove_task (tid : N) (ts : list task) : list task :=
  filter (fun x => negb (N.eqb x.(t_id) tid)) ts.

(** [select(Task).where(Task.id == tid)] then [scalar_one_or_none()]. *)
Definition select_task_by_id (tid : N) : M (option task) :=
  record_access (Select "todo_tasks");;;
  s <- get_db;;
  ret (find_task tid s.(tasks)).

(** PostgreSQL's [VARCHAR(n)] limits of the [Task] columns. *)
Definition varchar_ok (n : nat) (s : string) : bool := (String.length s <=? n)%nat.

Definition too_long (n : nat) : string :=
  "value too long for type character varying(" ^^ nat_str n ^^ ")".

Definition check_varchar (n : nat) (s : string) : option string :=
  if varchar_ok n s then None else Some (too_long n).

Definition check_tags (g : option string) : option string :=
  match g with Some x => check_varchar 500 x | None => None end.

Definition first_error (l : list (option string)) : option string :=
  fold_right (fun o acc => match o with Some e => Some e | None => acc end) None l.

Definition check_task_insert (t : task) : option string :=
  first_error [check_varchar 500 t.(t_title); check_varchar 20 t.(t_priority);
               check_tags t.(t_tags)].

(** An [UPDATE] writes only the columns whose value changed. *)
Definition check_task_update (old new : task) : option string :=
  first_error
    [if str_eqb old.(t_title) new.(t_title) then None else check_varchar 500 new.(t_title);
     if str_eqb old.(t_priority) new.(t_priority) then None
     else check_varchar 20 new.(t_priority);
     check_tags (match old.(t_tags), new.(t_tags) with
                 | Some a, Some b => if str_eqb a b then None else Some b
                 | _, g => g
                 end)].

(** [session.add(task); await session.commit()] *)
Definition insert_task (t : task) : M unit :=
  record_access (Add "todo_tasks");;;
  record_access Commit;;;
  match check_task_insert t with
  | Some err => raise (DBError err)
  | None => modify (fun s => set_tasks (s.(tasks) ++ [t]) s)
  end.

(** [await session.commit()] after assigning attributes of a loaded task. *)
Definition commit_task_update (old new : task) : M unit :=
  record_access Commit;;;
  match check_task_update old new with
  | Some err => raise (DBError err)
  | None => modify (fun s => set_tasks (replace_task new s.(tasks)) s)
  end.

(** [await session.delete(task); await session.commit()] *)
Definition delete_task_row (t : task) : M unit :=
  record_access (Delete "todo_tasks");;;
  record_access Commit;;;
  modify (fun s => set_tasks (remove_task t.(t_id) s.(tasks)) s).

(** [await session.refresh(task)] *)
Definition refresh_task : M unit := record_access (Select "todo_tasks").

(** A driver error for a value of the wrong column type. *)
Definition invalid_input : exc := DBError "invalid input for query argument".

(** ** Tool layer ([src/backend/src/mcp/tools]) *)

Section Backend.

(** [datetime.fromisoformat] ([None] is its [ValueError]) and
    [datetime.isoformat] from the Python library. *)
Variable fromisoformat : string -> option Z.
Variable isoformat : Z -> string.

Definition no_attribute (v : value) (attr : string) : exc :=
  AttributeError ("'" ^^ type_name v ^^ "' object has no attribute '" ^^ attr ^^ "'").

(** [try: x = UUID(v) except ValueError: raise ValueError(msg)] *)
Definition py_uuid (v : value) (msg : string) : M N :=
  match v with
  | VStr s => match parse_uuid s with
              | Some u => ret u
              | None => raise (ValueError msg)
              end
  | VNull => raise (TypeError "one of the hex, bytes, bytes_le, fields, or int arguments must be given")
  | _ => raise (no_attribute v "replace")
  end.

Definition invalid_user_id : string := "INVALID_USER_ID: user_id must be a valid UUID".
Definition invalid_task_id : string := "INVALID_TASK_ID: task_id must be a valid UUID".
Definition task_not_found_absent : string := "TASK_NOT_FOUND: Task does not exist".
Definition task_not_found_owner : string := "TASK_NOT_FOUND: Task belongs to different user".
Definition invalid_priority : string :=
  "INVALID_PRIORITY: priority must be one of ['low', 'medium', 'high']".

Definition valid_priorities : list string := ["low"; "medium"; "high"].

(** [v in valid_priorities] *)
Definition in_valid_priorities (v : value) : bool :=
  match v with
  | VStr s => existsb (str_eqb s) valid_priorities
  | _ => false
  end.

(** [if not title or not title.strip(): raise ...; title = title.strip();
     if len(title) > 500: raise ...] *)
Definition check_title (v : value) (empty_msg long_msg : string) : M string :=
  if negb (truthy v) then raise (ValueError empty_msg) else
  match v with
  | VStr s =>
    if is_blank s then raise (ValueError empty_msg) else
    let t := py_strip s in
    if (500 <? String.length t)%nat then raise (ValueError long_msg) else ret t
  | _ => raise (no_attribute v "strip")
  end.

(** [datetime.fromisoformat(due_date.replace('Z', '+00:00'))], its
    [ValueError] turned into [msg]. *)
Definition parse_due_date (v : value) (msg : string) : M Z :=
  match v with
  | VStr s => match fromisoformat (py_replace "Z" "+00:00" s) with
              | Some d => ret d
              | None => raise (ValueError msg)
              end
  | _ => raise (no_attribute v "replace")
  end.

Definition opt_iso (d : option Z) : value :=
  match d with Some x => VStr (isoformat x) | None => VNull end.

Definition opt_str (g : option string) : value :=
  match g with Some x => VStr x | None => VNull end.

(** [add_task.py]: the [except Exception] of the persistence block. *)
Definition add_task (user_id title priority due_date tags : value) : M dict :=
  user_uuid <- py_uuid user_id invalid_user_id;;
  title' <- check_title title "INVALID_TITLE: title cannot be empty"
                        "INVALID_TITLE: title cannot exceed 500 characters";;
  (if truthy priority && negb (in_valid_priorities priority)
   then raise (ValueError invalid_priority) else ret tt);;;
  parsed_due_date <- (if truthy due_date
                      then d <- parse_due_date due_date
                                  "INVALID_DUE_DATE: due_date must be ISO format (e.g., 2025-01-25T10:30:00)";;
                           ret (Some d)
                      else ret None);;
  tid <- uuid4;;
  created_at <- utcnow;;
  updated_at <- utcnow;;
  let prio := match priority with
              | VStr s => if truthy priority then s else "medium"
              | _ => "medium"
              end in
  try_except
    (record_access (Add "todo_tasks");;;
     row <- (match tags with
             | VNull => ret (mk_task tid user_uuid title' false prio parsed_due_date None
                                     created_at updated_at)
             | VStr g => ret (mk_task tid user_uuid title' false prio parsed_due_date (Some g)
                                      created_at updated_at)
             | _ => record_access Commit;;; raise invalid_input
             end);;
     record_access Commit;;;
     (match check_task_insert row with
      | Some err => raise (DBError err)
      | None => modify (fun s => set_tasks (s.(tasks) ++ [row]) s)
      end);;;
     refresh_task;;;
     ret [("task_id", VStr (uuid_str row.(t_id))); ("status", VStr "created");
          ("title", VStr row.(t_title)); ("completed", VBool row.(t_completed));
          ("priority", VStr row.(t_priority)); ("due_date", opt_iso row.(t_due_date));
          ("tags", opt_str row.(t_tags)); ("created_at", VStr (isoformat row.(t_created_at)))])
    (fun e => rollback;;; raise (ValueError ("DATABASE_ERROR: " ^^ exc_str e))).

(** The two handlers closing the persistence block of [complete_task],
    [delete_task] and [update_task]:
    [except ValueError as e: if "TASK_NOT_FOUND" in str(e) or "INVALID" in str(e): raise;
                             raise ValueError(f"DATABASE_ERROR: {str(e)}")]
    [except Exception as e: await session.rollback(); raise ValueError(...)] *)
Definition reraise_or_database_error {A} (e : exc) : M A :=
  match e with
  | ValueError m =>
    if contains "TASK_NOT_FOUND" m || contains "INVALID" m then raise e
    else raise (ValueError ("DATABASE_ERROR: " ^^ m))
  | _ => rollback;;; raise (ValueError ("DATABASE_ERROR: " ^^ exc_str e))
  end.

(** Fetch by id, then [if not task: ...] and [if task.user_id != user_uuid: ...]. *)
Definition lookup_owned (task_uuid user_uuid : N) : M task :=
  found <- select_task_by_id task_uuid;;
  match found with
  | None => raise (ValueError task_not_found_absent)
  | Some t =>
    if negb (N.eqb t.(t_user_id) user_uuid)
    then raise (ValueError task_not_found_owner)
    else ret t
  end.

(** [complete_task.py] *)
Definition complete_task (user_id task_id : value) : M dict :=
  user_uuid <- py_uuid user_id invalid_user_id;;
  task_uuid <- py_uuid task_id invalid_task_id;;
  try_except
    (t <- lookup_owned task_uuid user_uuid;;
     now <- utcnow;;
     let t' := mk_task t.(t_id) t.(t_user_id) t.(t_title) true t.(t_priority)
                       t.(t_due_date) t.(t_tags) t.(t_created_at) now in
     commit_task_update t t';;;
     refresh_task;;;
     ret [("task_id", VStr (uuid_str t'.(t_id))); ("status", VStr "completed");
          ("title", VStr t'.(t_title)); ("completed", VBool t'.(t_completed));
          ("updated_at", VStr (isoformat t'.(t_updated_at)))])
    reraise_or_database_error.

(** [delete_task.py] *)
Definition delete_task (user_id task_id : value) : M dict :=
  user_uuid <- py_uuid user_id invalid_user_id;;
  task_uuid <- py_uuid task_id invalid_task_id;;
  try_except
    (t <- lookup_owned task_uuid user_uuid;;
     let task_title := t.(t_title) in
     delete_task_row t;;;
     ret [("task_id", VStr (uuid_str task_uuid)); ("status", VStr "deleted");
          ("title", VStr task_title)])
    reraise_or_database_error.

(** Attribute assignments of [update_task.py], one field at a time. *)
Definition set_title (t : task) (x : string) : task :=
  mk_task t.(t_id) t.(t_user_id) x t.(t_completed) t.(t_priority) t.(t_due_date)
          t.(t_tags) t.(t_created_at) t.(t_updated_at).
Definition set_completed (t : task) (x : bool) : task :=
  mk_task t.(t_id) t.(t_user_id) t.(t_title) x t.(t_priority) t.(t_due_date)
          t.(t_tags) t.(t_created_at) t.(t_updated_at).
Definition set_priority (t : task) (x : string) : task :=
  mk_task t.(t_id) t.(t_user_id) t.(t_title) t.(t_completed) x t.(t_due_date)
          t.(t_tags) t.(t_created_at) t.(t_updated_at).
Definition set_due_date (t : task) (x : option Z) : task :=
  mk_task t.(t_id) t.(t_user_id) t.(t_title) t.(t_completed) t.(t_priority) x
          t.(t_tags) t.(t_created_at) t.(t_updated_at).
Definition set_tags (t : task) (x : option string) : task :=
  mk_task t.(t_id) t.(t_user_id) t.(t_title) t.(t_completed) t.(t_priority) t.(t_due_date)
          x t.(t_created_at) t.(t_updated_at).
Definition set_updated_at (t : task) (x : Z) : task :=
  mk_task t.(t_id) t.(t_user_id) t.(t_title) t.(t_completed) t.(t_priority) t.(t_due_date)
          t.(t_tags) t.(t_created_at) x.

(** The validation block of [update_task.py] (before its [try]). *)
Definition update_task_validate (user_id task_id new_title priority due_date tags : value)
  : M (N * N * option string * option Z * option string) :=
  user_uuid <- py_uuid user_id invalid_user_id;;
  task_uuid <- py_uuid task_id invalid_task_id;;
  new_title' <- (match new_title with
                 | VNull => ret None
                 | v => x <- check_title v "INVALID_TITLE: new_title cannot be empty"
                                       "INVALID_TITLE: new_title cannot exceed 500 characters";;
                        ret (Some x)
                 end);;
  (match priority with
   | VNull => ret tt
   | v => if in_valid_priorities v then ret tt else raise (ValueError invalid_priority)
   end);;;
  parsed_due_date <- (match due_date with
                      | VNull => ret None
                      | v => d <- parse_due_date v
                                   "INVALID_DUE_DATE: due_date must be ISO format (e.g., 2025-01-25T10:30:00Z)";;
                             ret (Some d)
                      end);;
  tags' <- (match tags with
            | VNull => ret None
            | VStr g => let g' := py_strip g in
                        if (500 <? String.length g')%nat
                        then raise (ValueError "INVALID_TAGS: tags cannot exceed 500 characters")
                        else ret (Some g')
            | v => raise (no_attribute v "strip")
            end);;
  ret (user_uuid, task_uuid, new_title', parsed_due_date, tags').

(** The bind processor of SQLAlchemy's [Boolean] column type: a value is
    accepted when it equals [None], [True] or [False] (so also the integers
    0 and 1, which Python compares equal to the booleans) and is then passed
    through [bool]; any other value raises. *)
Definition boolean_bind (v : value) : option bool :=
  match v with
  | VBool b => Some b
  | VNum 0 => Some false
  | VNum 1 => Some true
  | _ => None
  end.

(** The [try] block of [update_task.py]. *)
Definition update_task_apply (user_uuid task_uuid : N) (new_title' : option string)
  (completed priority : value) (parsed_due_date : option Z) (tags' : option string) : M dict :=
  t <- lookup_owned task_uuid user_uuid;;
  let t1 := match new_title' with Some x => set_title t x | None => t end in
  let t2 := match boolean_bind completed with Some b => set_completed t1 b | None => t1 end in
  let t3 := match priority with VStr p => set_priority t2 p | _ => t2 end in
  let t4 := match parsed_due_date with Some d => set_due_date t3 (Some d) | None => t3 end in
  let t5 := match tags' with Some g => set_tags t4 (Some g) | None => t4 end in
  now <- utcnow;;
  let t6 := set_updated_at t5 now in
  (match completed, boolean_bind completed with
   | VNull, _ | _, Some _ => commit_task_update t t6
   | _, None => record_access Commit;;; raise invalid_input
   end);;;
  refresh_task;;;
  ret [("task_id", VStr (uuid_str t6.(t_id))); ("status", VStr "updated");
       ("title", VStr t6.(t_title)); ("completed", VBool t6.(t_completed));
       ("priority", VStr t6.(t_priority)); ("due_date", opt_iso t6.(t_due_date));
       ("tags", opt_str t6.(t_tags)); ("updated_at", VStr (isoformat t6.(t_updated_at)))].

(** [update_task.py] *)
Definition update_task (user_id task_id new_title completed priority due_date tags : value)
  : M dict :=
  v <- update_task_validate user_id task_id new_title priority due_date tags;;
  let '(user_uuid, task_uuid, new_title', parsed_due_date, tags') := v in
  try_except (update_task_apply user_uuid task_uuid new_title' completed priority
                                parsed_due_date tags')
             reraise_or_database_error.

Definition task_list_item (t : task) : value :=
  VObj [("task_id", VStr (uuid_str t.(t_id))); ("title", VStr t.(t_title));
        ("completed", VBool t.(t_completed)); ("priority", VStr t.(t_priority));
        ("due_date", opt_iso t.(t_due_date)); ("tags", opt_str t.(t_tags));
        ("created_at", VStr (isoformat t.(t_created_at)));
        ("updated_at", VStr (isoformat t.(t_updated_at)))].

(** [list_tasks.py]. A [SELECT] without [ORDER BY] yields the rows in an
    order of the engine's own; the model takes the store's order, and what
    is proved of the rows below holds for any order. A [filter_completed]
    that is not a boolean makes the query fail in the driver or the
    database, whose error text the model does not follow. *)
Definition list_tasks (user_id filter_completed : value) : M dict :=
  user_uuid <- py_uuid user_id invalid_user_id;;
  try_except
    (record_access (Select "todo_tasks");;;
     filt <- (match filter_completed with
              | VNull => ret None
              | VBool b => ret (Some b)
              | _ => raise invalid_input
              end);;
     s <- get_db;;
     let rows := filter (fun t => N.eqb t.(t_user_id) user_uuid &&
                                  match filt with
                                  | Some b => Bool.eqb t.(t_completed) b
                                  | None => true
                                  end) s.(tasks) in
     ret [("tasks", VList (map task_list_item rows));
          ("count", VNum (Z.of_nat (length rows)))])
    (fun e => raise (ValueError ("DATABASE_ERROR: " ^^ exc_str e))).

(** ** Agent orchestrator ([src/backend/src/agent/agent.py]) *)

Inductive tool : Type := TAddTask | TListTasks | TCompleteTask | TDeleteTask | TUpdateTask.

(** [tools_map] *)
Definition tool_of_name (name : string) : option tool :=
  if str_eqb name "add_task" then Some TAddTask
  else if str_eqb name "list_tasks" then Some TListTasks
  else if str_eqb name "complete_task" then Some TCompleteTask
  else if str_eqb name "delete_task" then Some TDeleteTask
  else if str_eqb name "update_task" then Some TUpdateTask
  else None.

(** The keyword parameters of each tool function (besides [session]). *)
Definition tool_params (tl : tool) : list string :=
  match tl with
  | TAddTask => ["user_id"; "title"; "priority"; "due_date"; "tags"]
  | TListTasks => ["user_id"; "filter_completed"]
  | TCompleteTask | TDeleteTask => ["user_id"; "task_id"]
  | TUpdateTask => ["user_id"; "task_id"; "new_title"; "completed"; "priority"; "due_date"; "tags"]
  end.

(** [required_params] of [_execute_tool] *)
Definition required_params (tl : tool) : list string :=
  match tl with
  | TAddTask => ["user_id"; "title"]
  | TListTasks => ["user_id"]
  | TCompleteTask | TDeleteTask | TUpdateTask => ["user_id"; "task_id"]
  end.

(** Default of an omitted keyword argument. *)
Definition param_default (tl : tool) (p : string) : value :=
  match tl with
  | TAddTask => if str_eqb p "priority" then VStr "medium" else VNull
  | _ => VNull
  end.

(** Binding the keyword arguments of [tool_function(..., session=session)], the
    model's arguments being unpacked as keywords. *)
Definition bind_kwargs (name : string) (tl : tool) (args : dict) : M (list value) :=
  if dict_mem "session" args
  then raise (TypeError (name ^^ "() got multiple values for keyword argument 'session'"))
  else
    match find (fun kv => negb (existsb (str_eqb (fst kv)) (tool_params tl))) args with
    | Some (k, _) => raise (TypeError (name ^^ "() got an unexpected keyword argument '" ^^ k ^^ "'"))
    | None => ret (map (fun p => match dict_get p args with
                                 | Some v => v
                                 | None => param_default tl p
                                 end) (tool_params tl))
    end.

Definition run_tool (tl : tool) (vs : list value) : M dict :=
  match tl, vs with
  | TAddTask, [u; t; p; d; g] => add_task u t p d g
  | TListTasks, [u; f] => list_tasks u f
  | TCompleteTask, [u; k] => complete_task u k
  | TDeleteTask, [u; k] => delete_task u k
  | TUpdateTask, [u; k; t; c; p; d; g] => update_task u k t c p d g
  | _, _ => raise (TypeError "wrong number of arguments")
  end.

(** [_execute_tool] *)
Definition execute_tool (name : string) (args : dict) : M dict :=
  match tool_of_name name with
  | None => raise (ValueError ("Unknown tool: " ^^ name))
  | Some tl =>
    match filter (fun p => negb (dict_mem p args)) (required_params tl) with
    | [] => vs <- bind_kwargs name tl args;; run_tool tl vs
    | missing => raise (ValueError ("Missing required parameters: " ^^ py_str_list_repr missing))
    end
  end.

Definition nl : string := String (ascii_of_nat 10) EmptyString.

Definition obj_get (k : string) (v : value) : option value :=
  match v with VObj d => dict_get k d | _ => None end.

Definition get_or (o : option value) (dflt : value) : value :=
  match o with Some v => v | None => dflt end.

(** [x == s] for a decoded value and a string literal. *)
Definition value_is (o : option value) (s : string) : bool :=
  match o with Some (VStr x) => str_eqb x s | _ => false end.

(** [_format_task_for_display] *)
Definition format_task_for_display (index : nat) (task : value) : string :=
  let status := if truthy (get_or (obj_get "completed" task) VNull) then "✓" else "○" in
  let title := py_str (get_or (obj_get "title" task) (VStr "Untitled")) in
  let task_id := py_str (get_or (obj_get "task_id" task) (VStr "Unknown")) in
  let priority := get_or (obj_get "priority" task) VNull in
  let due_date := get_or (obj_get "due_date" task) VNull in
  let tags := get_or (obj_get "tags" task) VNull in
  let details :=
    (if truthy priority && negb (value_is (Some priority) "medium")
     then ["Priority: " ^^ py_str priority] else [])
    ++ (if truthy due_date then ["Due: " ^^ py_str due_date] else [])
    ++ (if truthy tags then ["Tags: " ^^ py_str tags] else []) in
  match details with
  | [] => nat_str (S index) ^^ ". " ^^ status ^^ " " ^^ title ^^ nl ^^ "   (ID: " ^^ task_id ^^ ")"
  | _ => nat_str (S index) ^^ ". " ^^ status ^^ " " ^^ title ^^ nl ^^ "   (ID: " ^^ task_id ^^ ")"
         ^^ nl ^^ "   [" ^^ String.concat " | " details ^^ "]"
  end.

Fixpoint enumerate_from {A} (i : nat) (l : list A) : list (nat * A) :=
  match l with
  | [] => []
  | x :: l' => (i, x) :: enumerate_from (S i) l'
  end.

Definition is_zero (v : value) : bool :=
  match v with VNum z => Z.eqb z 0 | VBool false => true | _ => false end.

(** [_generate_response_from_result]; [json.loads] of the tool's
    [json.dumps] gives back the dict. *)
Definition generate_response_from_result (name : string) (result : dict) : string :=
  match tool_of_name name with
  | Some TAddTask =>
    if value_is (dict_get "status" result) "created"
    then "I've added the task '" ^^ py_str (get_or (dict_get "title" result) VNull) ^^ "' to your todo list."
    else "I tried to add the task but encountered an issue."
  | Some TListTasks =>
    let tasks := match get_or (dict_get "tasks" result) (VList []) with VList l => l | _ => [] end in
    let count := get_or (dict_get "count" result) (VNum 0) in
    if is_zero count
    then "You don't have any tasks yet. You can ask me to add one!"
    else
      let task_list := String.concat nl (map (fun it => format_task_for_display (fst it) (snd it))
                                             (enumerate_from 0 tasks)) in
      "Here are your " ^^ py_str count ^^ " task(s):" ^^ nl ^^ task_list ^^ nl ^^ nl
      ^^ "Tip: Refer to tasks by number or use the full ID."
  | Some TCompleteTask =>
    if value_is (dict_get "status" result) "completed"
    then "I've marked the task '" ^^ py_str (get_or (dict_get "title" result) VNull) ^^ "' as completed."
    else "I tried to complete the task but encountered an issue."
  | Some TDeleteTask =>
    if value_is (dict_get "status" result) "deleted"
    then "I've deleted the task '" ^^ py_str (get_or (dict_get "title" result) VNull) ^^ "'."
    else "I tried to delete the task but encountered an issue."
  | Some TUpdateTask =>
    if value_is (dict_get "status" result) "updated"
    then "I've updated the task to: '" ^^ py_str (get_or (dict_get "title" result) VNull) ^^ "'."
    else "I tried to update the task but encountered an issue."
  | None => "I've processed your request."
  end.

(** A tool call chosen by the model; [tc_arguments] is [json.loads] of its
    argument string ([None]: not valid JSON). *)
Record tool_call := mk_tool_call {
  tc_name : string;
  tc_arguments : option value
}.

(** What [client.chat.completions.create] gives back: it raised ([str(e)]),
    or [choices[0].message] with its [content] and [tool_calls]. *)
Inductive api_response : Type :=
| ApiFailure (err : string)
| ApiMessage (content : option string) (tool_calls : list tool_call).

Definition default_reply : string := "I understand. How can I help you with your tasks?".

(** [_process_openai_response] *)
Definition process_openai_response (content : option string) (tool_calls : list tool_call)
  (user_id : N) : M string :=
  match tool_calls with
  | tc :: _ =>
    match tc.(tc_arguments) with
    | None => raise (ValueError "Expecting value: line 1 column 1 (char 0)")
    | Some (VObj function_args) =>
      let function_args := dict_set "user_id" (VStr (uuid_str user_id)) function_args in
      try_except
        (result <- execute_tool tc.(tc_name) function_args;;
         ret (generate_response_from_result tc.(tc_name) result))
        (fun e => ret ("Sorry, I encountered an error: " ^^ exc_str e))
    | Some (VList _) => raise (TypeError "list indices must be integers or slices, not str")
    | Some v => raise (TypeError ("'" ^^ type_name v ^^ "' object does not support item assignment"))
    end
  | [] =>
    match content with
    | Some c => if str_eqb c "" then ret default_reply else ret c
    | None => ret default_reply
    end
  end.

(** The assistant message of [process_message]: the [try] around
    [client.chat.completions.create] and [_process_openai_response]. *)
Definition assistant_reply (response : api_response) (user_id : N) : M string :=
  match response with
  | ApiFailure err => ret ("I encountered an error processing your request: " ^^ err)
  | ApiMessage content tcs => process_openai_response content tcs user_id
  end.

(** ** Conversation store ([src/backend/src/services/chat_service.py]) *)

(** The database's [ORDER BY created_at ASC] over the rows of one
    conversation, taken in the order they were inserted. SQL fixes only that
    the result is a permutation sorted on [created_at]; the order of rows
    with equal [created_at] is the engine's. *)
Variable order_by_created_at : list message -> list message.

(** One entry of [get_conversation_history]: [{"id", "role", "content", "created_at"}]. *)
Record history_item := mk_history_item {
  h_id : string;
  h_role : string;
  h_content : string;
  h_created_at : Z
}.

Definition to_history_item (m : message) : history_item :=
  mk_history_item (uuid_str m.(m_id)) m.(m_role) m.(m_content) m.(m_created_at).

Definition owns_conversation (c u : N) (cs : list conversation) : bool :=
  existsb (fun cv => N.eqb cv.(c_id) c && N.eqb cv.(c_user_id) u) cs.

(** [create_conversation] *)
Definition create_conversation (user_id : N) : M N :=
  now <- utcnow;;
  cid <- uuid4;;
  record_access (Add "todo_conversations");;;
  record_access Commit;;;
  modify (fun s => set_conversations (s.(conversations) ++ [mk_conversation cid user_id now]) s);;;
  record_access (Select "todo_conversations");;;
  ret cid.

(** [get_conversation_history]; [None] when no conversation has this id and
    owner. *)
Definition get_conversation_history (conversation_id user_id : N)
  : M (option (list history_item)) :=
  record_access (Select "todo_conversations");;;
  s <- get_db;;
  if owns_conversation conversation_id user_id s.(conversations)
  then
    record_access (Select "todo_messages");;;
    s' <- get_db;;
    ret (Some (map to_history_item
                 (order_by_created_at
                    (filter (fun m => N.eqb m.(m_conversation_id) conversation_id)
                            s'.(messages)))))
  else ret None.

(** Column limits and the foreign key of [todo_messages]. *)
Definition check_message_insert (cs : list conversation) (m : message) : option string :=
  first_error
    [if existsb (fun cv => N.eqb cv.(c_id) m.(m_conversation_id)) cs then None
     else Some "insert or update on table todo_messages violates foreign key constraint";
     check_varchar 20 m.(m_role); check_varchar 10000 m.(m_content)].

(** [save_message]; the dict it returns carries the row's fields. *)
Definition save_message (conversation_id : N) (role content : string) : M message :=
  if negb (existsb (str_eqb role) ["user"; "assistant"])
  then raise (ValueError ("Invalid role: " ^^ role ^^ ". Must be 'user' or 'assistant'"))
  else if is_blank content
  then raise (ValueError "Message content cannot be empty")
  else
    now <- utcnow;;
    mid <- uuid4;;
    let m := mk_message mid conversation_id role (py_strip content) now in
    record_access (Add "todo_messages");;;
    record_access Commit;;;
    s <- get_db;;
    (match check_message_insert s.(conversations) m with
     | Some err => raise (DBError err)
     | None => modify (fun s => set_messages (s.(messages) ++ [m]) s)
     end);;;
    record_access (Select "todo_messages");;;
    ret m.

(** ** One turn ([AgentService.process_message] and [api/chat.py]) *)

(** The language model, an external collaborator: the reply it gives to the
    prompt [(role, content)] list it is sent (the tool schemas are fixed). *)
Variable reasoning : list (string * string) -> api_response.

Definition system_prompt : string :=
  "You are a helpful task management assistant. You help users manage their todo list through natural language.".

(** [_format_messages_for_openai] *)
Definition format_messages_for_openai (user_message : string) (history : list history_item)
  : list (string * string) :=
  [("system", system_prompt)]
  ++ map (fun h => (h.(h_role), h.(h_content))) history
  ++ [("user", user_message)].

(** [process_message]: the assistant message and the history it loaded. *)
Definition process_message (user_message : string) (user_id : N) (conversation_id : option N)
  : M (string * list history_item) :=
  history <- (match conversation_id with
              | Some c =>
                h <- get_conversation_history c user_id;;
                match h with
                | Some l => ret l
                | None => raise (TypeError "'NoneType' object is not iterable")
                end
              | None => ret []
              end);;
  let msgs := format_messages_for_openai user_message history in
  assistant_message <- assistant_reply (reasoning msgs) user_id;;
  (match conversation_id with
   | Some c => save_message c "user" user_message;;;
               save_message c "assistant" assistant_message;;;
               ret tt
   | None => ret tt
   end);;;
  ret (assistant_message, history).

Record chat_response := mk_chat_response {
  r_conversation_id : string;
  r_user_message : string;
  r_assistant_message : string;
  r_history : list history_item
}.

Definition conversation_not_found : exc :=
  HTTPException 404 "Conversation not found or access denied".

(** The [chat] handler. *)
Definition chat (message : string) (req_conversation_id : option string) (user_id : N)
  : M chat_response :=
  conversation_id <-
    (match req_conversation_id with
     | Some cs =>
       if str_eqb cs "" then create_conversation user_id else
       match parse_uuid cs with
       | None => raise (ValueError "badly formed hexadecimal UUID string")
       | Some c =>
         history <- get_conversation_history c user_id;;
         match history with
         | None => raise conversation_not_found
         | Some _ => ret c
         end
       end
     | None => create_conversation user_id
     end);;
  agent_response <- process_message message user_id (Some conversation_id);;
  full_history <- get_conversation_history conversation_id user_id;;
  ret (mk_chat_response (uuid_str conversation_id) message (fst agent_response)
                        (match full_history with Some l => l | None => [] end)).

(** [ChatRequest] validation (422 otherwise), the handler, and [get_session]:
    [except Exception: await session.rollback(); raise]. *)
Definition chat_endpoint (message : string) (req_conversation_id : option string) (user_id : N)
  : M chat_response :=
  if (String.length message <? 1)%nat
  then raise (HTTPException 422 "String should have at least 1 character")
  else if (10000 <? String.length message)%nat
  then raise (HTTPException 422 "String should have at most 10000 characters")
  else try_except (chat message req_conversation_id user_id)
                  (fun e => rollback;;; raise e).

(** The HTTP status a client sees for the outcome of a handler. *)
Definition http_status {A} (o : outcome A) : Z :=
  match o with
  | Ok _ => 200
  | Raise (HTTPException code _) => code
  | Raise _ => 500
  end.

(** The context load of [chat] passes: a new conversation is created, or
    the request names a conversation of the caller. *)
Definition context_loads (req : option string) (u : N) (s : db) : Prop :=
  match req with
  | None => True
  | Some cs => str_eqb cs "" = true
               \/ exists c, parse_uuid cs = Some c /\ owns_conversation c u s.(conversations) = true
  end.

(** ** REST task routes ([src/backend/src/api/tasks.py]) *)

(** A validated [TaskUpdate] body. *)
Record task_update := mk_task_update {
  u_title : option string;
  u_completed : option bool;
  u_priority : option string;
  u_due_date : option Z;
  u_tags : option string
}.

(** [PUT /api/v1/tasks/{task_id}], inside [get_session]. *)
Definition rest_update_task (task_id : N) (task_data : task_update) (current_user : N) : M task :=
  try_except
    (found <- select_task_by_id task_id;;
     match found with
     | None => raise (HTTPException 404 "Task not found")
     | Some t =>
       if negb (N.eqb t.(t_user_id) current_user)
       then raise (HTTPException 403 "Not authorized to update this task")
       else
         let t1 := match task_data.(u_title) with Some x => set_title t x | None => t end in
         let t2 := match task_data.(u_completed) with Some b => set_completed t1 b | None => t1 end in
         let t3 := match task_data.(u_priority) with Some p => set_priority t2 p | None => t2 end in
         let t4 := match task_data.(u_due_date) with Some d => set_due_date t3 (Some d) | None => t3 end in
         let t5 := match task_data.(u_tags) with Some g => set_tags t4 (Some g) | None => t4 end in
         now <- utcnow;;
         let t6 := set_updated_at t5 now in
         commit_task_update t t6;;;
         refresh_task;;;
         ret t6
     end)
    (fun e => rollback;;; raise e).

(** [DELETE /api/v1/tasks/{task_id}], inside [get_session]. *)
Definition rest_delete_task (task_id : N) (current_user : N) : M unit :=
  try_except
    (found <- select_task_by_id task_id;;
     match found with
     | None => raise (HTTPException 404 "Task not found")
     | Some t =>
       if negb (N.eqb t.(t_user_id) current_user)
       then raise (HTTPException 403 "Not authorized to delete this task")
       else delete_task_row t
     end)
    (fun e => rollback;;; raise e).

(** A validated [TaskCreate] body. *)
Record task_create := mk_task_create {
  n_title : string;
  n_priority : string;
  n_due_date : option Z;
  n_tags : option string
}.

(** The field constraints of [TaskCreate]: a title of 1 to 500 characters and
    a priority of at most 20; FastAPI answers 422 otherwise, before the
    handler runs. *)
Definition task_create_valid (d : task_create) : bool :=
  (1 <=? String.length d.(n_title))%nat && (String.length d.(n_title) <=? 500)%nat
  && (String.length d.(n_priority) <=? 20)%nat.

(** [POST /api/v1/tasks], inside [get_session] (the 422 detail, pydantic's
    error list, is abbreviated). *)
Definition rest_create_task (task_data : task_create) (current_user : N) : M task :=
  if negb (task_create_valid task_data)
  then raise (HTTPException 422 "Unprocessable Entity")
  else
    try_except
      (tid <- uuid4;;
       created_at <- utcnow;;
       updated_at <- utcnow;;
       let t := mk_task tid current_user task_data.(n_title) false
                        (if str_eqb task_data.(n_priority) "" then "medium" else task_data.(n_priority))
                        task_data.(n_due_date) task_data.(n_tags) created_at updated_at in
       insert_task t;;;
       refresh_task;;;
       ret t)
      (fun e => rollback;;; raise e).

(** The database's [ORDER BY created_at DESC] over the selected rows of
    [todo_tasks], taken in store order; as for messages, SQL fixes only that
    the result is a permutation sorted on [created_at]. *)
Variable order_by_created_at_desc : list task -> list task.

(** [GET /api/v1/tasks]: the rows behind [TaskList.tasks] (each [TaskPublic]
    is its row without [user_id]) and [TaskList.count]. *)
Definition rest_list_tasks (filter_completed : option bool) (current_user : N)
  : M (list task * nat) :=
  record_access (Select "todo_tasks");;;
  s <- get_db;;
  let rows := order_by_created_at_desc
                (filter (fun t => N.eqb t.(t_user_id) current_user
                                  && match filter_completed with
                                     | Some b => Bool.eqb t.(t_completed) b
                                     | None => true
                                     end) s.(tasks)) in
  ret (rows, List.length rows).

(** ** Owners of tasks *)

(** The tasks of owners other than [u], in store order. *)
Definition tasks_of_others (u : N) (ts : list task) : list task :=
  filter (fun t => negb (N.eqb t.(t_user_id) u)) ts.

(** The changes one call acting for owner [u] may make to [todo_tasks]:
    none, appending a task of [u], rewriting a task of [u] under its id and
    owner, or deleting a task of [u] by id. *)
Inductive owner_step (u : N) (ts : list task) : list task -> Prop :=
| os_same : owner_step u ts ts
| os_insert t : t.(t_user_id) = u -> owner_step u ts (ts ++ [t])
| os_replace t0 t : find_task t.(t_id) ts = Some t0 -> t0.(t_user_id) = u -> t.(t_user_id) = u ->
                    owner_step u ts (replace_task t ts)
| os_remove t0 : find_task t0.(t_id) ts = Some t0 -> t0.(t_user_id) = u ->
                 owner_step u ts (remove_task t0.(t_id) ts).

(** ** Sample data *)

Definition owner_a : N := 1%N.
Definition owner_b : N := 2%N.
Definition task_a : N := 7%N.
Definition absent_task : N := 8%N.
Definition conv_a : N := 9%N.
Definition milk : task := mk_task task_a owner_a "Buy milk" false "medium" None None 0 0.
Definition sample_db : db :=
  mk_db [milk] [mk_conversation conv_a owner_a 0] []
        (fun k => Z.of_nat k) 0 (fun k => N.of_nat (100 + k)) 0 [].

(** The sample store under a clock that returns the same reading twice. *)
Definition sample_db_frozen_clock : db :=
  mk_db [milk] [mk_conversation conv_a owner_a 0] []
        (fun _ => 0%Z) 0 (fun k => N.of_nat (100 + k)) 0 [].

(** A stand-in for [datetime.fromisoformat] that knows one timestamp, and
    one for [isoformat]. *)
Definition sample_fromisoformat (s : string) : option Z :=
  if str_eqb s "2025-01-25T10:30:00" then Some 1737801000000000%Z else None.
Definition sample_isoformat (z : Z) : string := Z_str z.

(** ** Proofs *)

Lemma str_eqb_eq a b : str_eqb a b = true <-> a = b.
Proof.
  revert b; induction a as [|c a IH]; intros [|d b]; simpl; split; intros H;
    try discriminate; try reflexivity.
  - apply andb_prop in H as [H1 H2]. apply Ascii.eqb_eq in H1.
    apply IH in H2. subst; reflexivity.
  - inversion H; subst. rewrite Ascii.eqb_refl. simpl. apply IH. reflexivity.
Qed.

Lemma str_eqb_refl a : str_eqb a a = true.
Proof. apply str_eqb_eq. reflexivity. Qed.

Lemma str_eqb_neq a b : a <> b -> str_eqb a b = false.
Proof.
  intros H. destruct (str_eqb a b) eqn:E; [|reflexivity].
  apply str_eqb_eq in E. contradiction.
Qed.

Lemma str_eqb_sym a b : str_eqb a b = str_eqb b a.
Proof.
  destruct (string_dec a b) as [->|H].
  - reflexivity.
  - rewrite (str_eqb_neq _ _ H). symmetry. apply str_eqb_neq. congruence.
Qed.

(** *** Python dict updates *)

Section DictSet.
Variables (k : string) (v : value).

Let upd := fun kv : string * value => if str_eqb k (fst kv) then (k, v) else kv.

Lemma dict_get_upd_other p a : p <> k -> dict_get p (map upd a) = dict_get p a.
Proof.
  intros Hp; induction a as [|[k' w] a IH]; simpl; [reflexivity|].
  unfold upd at 1; simpl.
  destruct (string_dec k k') as [<-|Hk].
  - rewrite str_eqb_refl, (str_eqb_neq _ _ Hp). exact IH.
  - rewrite (str_eqb_neq _ _ Hk). simpl. rewrite IH. reflexivity.
Qed.

Lemma dict_get_upd_self a : dict_mem k a = true -> dict_get k (map upd a) = Some v.
Proof.
  unfold dict_mem; induction a as [|[k' w] a IH]; simpl; [discriminate|].
  unfold upd at 1; simpl.
  destruct (string_dec k k') as [<-|Hk].
  - rewrite str_eqb_refl. simpl. rewrite str_eqb_refl. reflexivity.
  - rewrite (str_eqb_neq _ _ Hk). simpl. rewrite (str_eqb_neq _ _ Hk). exact IH.
Qed.

Lemma dict_get_delete_other p a : p <> k -> dict_get p (dict_delete k a) = dict_get p a.
Proof.
  intros Hp; unfold dict_delete; induction a as [|[k' w] a IH]; simpl; [reflexivity|].
  destruct (string_dec k k') as [<-|Hk].
  - rewrite str_eqb_refl, (str_eqb_neq _ _ Hp). exact IH.
  - rewrite (str_eqb_neq _ _ Hk). simpl. rewrite IH. reflexivity.
Qed.

Lemma dict_get_app_other p a : p <> k -> dict_get p (a ++ [(k, v)]) = dict_get p a.
Proof.
  intros Hp; induction a as [|[k' w] a IH]; simpl.
  - rewrite (str_eqb_neq _ _ Hp). reflexivity.
  - rewrite IH. reflexivity.
Qed.

Lemma dict_get_app_self a : dict_mem k a = false -> dict_get k (a ++ [(k, v)]) = Some v.
Proof.
  unfold dict_mem; induction a as [|[k' w] a IH]; simpl; intros H.
  - rewrite str_eqb_refl. reflexivity.
  - apply orb_false_iff in H as [H1 H2]. rewrite H1. exact (IH H2).
Qed.

Lemma dict_get_set p a :
  dict_get p (dict_set k v a) = if str_eqb p k then Some v else dict_get p (dict_delete k a).
Proof.
  unfold dict_set; destruct (string_dec p k) as [->|Hp].
  - rewrite str_eqb_refl. destruct (dict_mem k a) eqn:Hm.
    + apply dict_get_upd_self; exact Hm.
    + apply dict_get_app_self; exact Hm.
  - rewrite (str_eqb_neq _ _ Hp), (dict_get_delete_other _ _ Hp).
    destruct (dict_mem k a).
    + apply dict_get_upd_other; exact Hp.
    + apply dict_get_app_other; exact Hp.
Qed.

Lemma dict_mem_get p a : dict_mem p a = match dict_get p a with Some _ => true | None => false end.
Proof.
  unfold dict_mem; induction a as [|[k' w] a IH]; simpl; [reflexivity|].
  destruct (str_eqb p k'); [reflexivity|exact IH].
Qed.

Lemma dict_mem_set p a :
  dict_mem p (dict_set k v a) = if str_eqb p k then true else dict_mem p (dict_delete k a).
Proof.
  rewrite !dict_mem_get, dict_get_set. destruct (str_eqb p k); reflexivity.
Qed.

(** A search that skips every entry under the key [k]. *)
Lemma find_set (f : string * value -> bool) a :
  (forall w, f (k, w) = false) -> find f (dict_set k v a) = find f (dict_delete k a).
Proof.
  intros Hf; unfold dict_set, dict_delete.
  assert (Hdel : forall b, find f (filter (fun kv => negb (str_eqb k (fst kv))) b) = find f b).
  { induction b as [|[k' w] b IH]; simpl; [reflexivity|].
    destruct (string_dec k k') as [<-|Hk].
    - rewrite str_eqb_refl, Hf. simpl. exact IH.
    - rewrite (str_eqb_neq _ _ Hk). simpl. rewrite IH. reflexivity. }
  rewrite Hdel. destruct (dict_mem k a).
  - induction a as [|[k' w] a IH]; simpl; [reflexivity|].
    destruct (string_dec k k') as [<-|Hk].
    + rewrite str_eqb_refl, !Hf. exact IH.
    + rewrite (str_eqb_neq _ _ Hk). simpl. destruct (f (k', w)); [reflexivity|exact IH].
  - induction a as [|[k' w] a IH]; simpl.
    + rewrite Hf. reflexivity.
    + destruct (f (k', w)); [reflexivity|exact IH].
Qed.

End DictSet.


(** *** The owner argument of a tool call *)

Lemma user_id_in_tool_params tl : existsb (str_eqb "user_id") (tool_params tl) = true.
Proof. destruct tl; reflexivity. Qed.

(** Two argument dicts that agree once their [user_id] entries are dropped
    run the same tool with the same effects after [user_id] is forced. *)
Lemma execute_tool_forced_user_id name w a1 a2 :
  dict_delete "user_id" a1 = dict_delete "user_id" a2 ->
  execute_tool name (dict_set "user_id" w a1) = execute_tool name (dict_set "user_id" w a2).
Proof.
  intros H.
  set (X1 := dict_set "user_id" w a1); set (X2 := dict_set "user_id" w a2).
  assert (Hm : forall p, dict_mem p X1 = dict_mem p X2)
    by (intros p; subst X1 X2; rewrite !dict_mem_set, H; reflexivity).
  assert (Hg : forall p, dict_get p X1 = dict_get p X2)
    by (intros p; subst X1 X2; rewrite !dict_get_set, H; reflexivity).
  unfold execute_tool. destruct (tool_of_name name) as [tl|]; [|reflexivity].
  assert (Hf : filter (fun p => negb (dict_mem p X1)) (required_params tl)
               = filter (fun p => negb (dict_mem p X2)) (required_params tl))
    by (apply filter_ext; intros p; rewrite Hm; reflexivity).
  rewrite Hf; clear Hf. destruct (filter _ (required_params tl)); [|reflexivity].
  unfold bind_kwargs. rewrite Hm.
  assert (Hfind : forall f, (forall w', f ("user_id", w') = false) -> find f X1 = find f X2)
    by (intros f Hf0; subst X1 X2; rewrite !find_set by exact Hf0; rewrite H; reflexivity).
  rewrite Hfind by (intros w'; simpl; rewrite user_id_in_tool_params; reflexivity).
  assert (Hmap : map (fun p => match dict_get p X1 with Some v => v | None => param_default tl p end)
                     (tool_params tl)
                 = map (fun p => match dict_get p X2 with Some v => v | None => param_default tl p end)
                     (tool_params tl))
    by (apply map_ext; intros p; rewrite Hg; reflexivity).
  rewrite Hmap. reflexivity.
Qed.

(** C1: the orchestrator overwrites (or inserts) the [user_id] argument of the
    selected tool call with the authenticated caller's id before executing it:
    the argument dict executed carries the caller's id, and the reply and every
    effect of the turn are the same whatever [user_id] value the model put in
    its arguments (or none at all). *)
Theorem tool_call_owner_is_caller (content1 content2 : option string) (name : string)
  (args1 args2 : dict) (rest1 rest2 : list tool_call) (user_id : N) :
  dict_delete "user_id" args1 = dict_delete "user_id" args2 ->
  dict_get "user_id" (dict_set "user_id" (VStr (uuid_str user_id)) args1)
    = Some (VStr (uuid_str user_id))
  /\ process_openai_response content1 (mk_tool_call name (Some (VObj args1)) :: rest1) user_id
     = process_openai_response content2 (mk_tool_call name (Some (VObj args2)) :: rest2) user_id.
Proof.
  intros H. split.
  - rewrite dict_get_set, str_eqb_refl. reflexivity.
  - unfold process_openai_response; simpl.
    rewrite (execute_tool_forced_user_id name _ args1 args2 H). reflexivity.
Qed.


(** *** Rows of [todo_tasks] *)

Ltac unfold_monad :=
  unfold bind, try_except, ret, raise, get_db, modify, record_access, utcnow, uuid4,
    rollback, refresh_task in *.

Lemma find_task_id tid ts t : find_task tid ts = Some t -> t.(t_id) = tid.
Proof.
  induction ts as [|x ts IH]; simpl; [discriminate|].
  destruct (N.eqb_spec x.(t_id) tid); [intros [= <-]; assumption|exact IH].
Qed.

Lemma find_replace_task tid ts t t' :
  find_task tid ts = Some t -> t'.(t_id) = tid -> find_task tid (replace_task t' ts) = Some t'.
Proof.
  intros Hf Hid; induction ts as [|x ts IH]; simpl in *; [discriminate|].
  rewrite Hid. destruct (N.eqb_spec x.(t_id) tid) as [E|E].
  - simpl. rewrite Hid, N.eqb_refl. reflexivity.
  - simpl. destruct (N.eqb_spec x.(t_id) tid); [contradiction|]. exact (IH Hf).
Qed.

Lemma find_replace_task_other tid ts t' :
  t'.(t_id) <> tid -> find_task tid (replace_task t' ts) = find_task tid ts.
Proof.
  intros Hid; induction ts as [|x ts IH]; simpl; [reflexivity|].
  destruct (N.eqb_spec x.(t_id) t'.(t_id)) as [E|E]; simpl.
  - destruct (N.eqb_spec t'.(t_id) tid); [contradiction|].
    destruct (N.eqb_spec x.(t_id) tid); [congruence|exact IH].
  - destruct (N.eqb_spec x.(t_id) tid); [reflexivity|exact IH].
Qed.

Lemma lookup_owned_ok tid u s t :
  find_task tid s.(tasks) = Some t -> t.(t_user_id) = u ->
  lookup_owned tid u s = (Ok t, add_log (Select "todo_tasks") s).
Proof.
  intros Hf Ho. unfold lookup_owned, select_task_by_id; unfold_monad; simpl.
  rewrite Hf, Ho, N.eqb_refl. reflexivity.
Qed.

Lemma lookup_owned_other tid u s t :
  find_task tid s.(tasks) = Some t -> t.(t_user_id) <> u ->
  lookup_owned tid u s = (Raise (ValueError task_not_found_owner), add_log (Select "todo_tasks") s).
Proof.
  intros Hf Ho. unfold lookup_owned, select_task_by_id; unfold_monad; simpl.
  rewrite Hf. destruct (N.eqb_spec t.(t_user_id) u); [contradiction|reflexivity].
Qed.

Lemma lookup_owned_absent tid u s :
  find_task tid s.(tasks) = None ->
  lookup_owned tid u s = (Raise (ValueError task_not_found_absent), add_log (Select "todo_tasks") s).
Proof.
  intros Hf. unfold lookup_owned, select_task_by_id; unfold_monad; simpl.
  rewrite Hf. reflexivity.
Qed.

(** An update that leaves title, priority and tags as they were never trips a
    column limit. *)
Lemma check_task_update_same_text old new :
  new.(t_title) = old.(t_title) -> new.(t_priority) = old.(t_priority) ->
  new.(t_tags) = old.(t_tags) -> check_task_update old new = None.
Proof.
  intros H1 H2 H3; unfold check_task_update; rewrite H1, H2, H3, !str_eqb_refl; simpl.
  destruct old.(t_tags); [rewrite str_eqb_refl|]; reflexivity.
Qed.

(** One [complete_task] call of the owner on an existing task. *)
Lemma complete_task_owned user_id task_id u tid t s :
  parse_uuid user_id = Some u -> parse_uuid task_id = Some tid ->
  find_task tid s.(tasks) = Some t -> t.(t_user_id) = u ->
  let t' := set_updated_at (set_completed t true) (s.(wall) s.(reads)) in
  exists s',
    complete_task (VStr user_id) (VStr task_id) s
    = (Ok [("task_id", VStr (uuid_str t'.(t_id))); ("status", VStr "completed");
           ("title", VStr t'.(t_title)); ("completed", VBool true);
           ("updated_at", VStr (isoformat t'.(t_updated_at)))], s')
    /\ s'.(tasks) = replace_task t' s.(tasks).
Proof.
  intros Hu Ht Hf Ho t'.
  unfold complete_task, py_uuid; rewrite Hu, Ht.
  unfold bind at 1 2, ret at 1 2, try_except.
  unfold bind at 1. rewrite (lookup_owned_ok _ _ _ _ Hf Ho).
  unfold commit_task_update; unfold_monad; simpl.
  rewrite check_task_update_same_text by reflexivity. simpl.
  eexists; split; reflexivity.
Qed.


(** C6: calling [complete_task] twice, as the owner, on a task they own
    succeeds both times; each reply says status "completed" and completed
    true, the stored task is completed after each call, and the second call
    changes nothing on the row but [updated_at]. *)
Theorem complete_task_twice (user_id task_id : string) (u tid : N) (t : task) (s : db) :
  parse_uuid user_id = Some u -> parse_uuid task_id = Some tid ->
  find_task tid s.(tasks) = Some t -> t.(t_user_id) = u ->
  exists r1 s1 r2 s2 t1 t2,
    complete_task (VStr user_id) (VStr task_id) s = (Ok r1, s1)
    /\ complete_task (VStr user_id) (VStr task_id) s1 = (Ok r2, s2)
    /\ dict_get "status" r1 = Some (VStr "completed") /\ dict_get "completed" r1 = Some (VBool true)
    /\ dict_get "status" r2 = Some (VStr "completed") /\ dict_get "completed" r2 = Some (VBool true)
    /\ find_task tid s1.(tasks) = Some t1 /\ t1.(t_completed) = true
    /\ find_task tid s2.(tasks) = Some t2 /\ t2.(t_completed) = true
    /\ t2 = set_updated_at t1 t2.(t_updated_at).
Proof.
  intros Hu Ht Hf Ho.
  pose proof (find_task_id _ _ _ Hf) as Hid.
  destruct (complete_task_owned _ _ _ _ _ _ Hu Ht Hf Ho) as [s1 [E1 T1]].
  set (t1 := set_updated_at (set_completed t true) (s.(wall) s.(reads))) in *.
  assert (Hf1 : find_task tid s1.(tasks) = Some t1)
    by (rewrite T1; apply (find_replace_task _ _ t); [exact Hf | exact Hid]).
  destruct (complete_task_owned _ _ _ _ _ _ Hu Ht Hf1 Ho) as [s2 [E2 T2]].
  set (t2 := set_updated_at (set_completed t1 true) (s1.(wall) s1.(reads))) in *.
  assert (Hid1 : t1.(t_id) = tid) by exact Hid.
  eexists; exists s1; eexists; exists s2, t1, t2. split; [exact E1|]. split; [exact E2|].
  repeat split; try reflexivity.
  - exact Hf1.
  - rewrite T2. apply (find_replace_task _ _ t1); [exact Hf1 | exact Hid1].
Qed.


(** *** Conversations *)

Lemma owns_conversation_false c u cs :
  (forall cv, In cv cs -> cv.(c_id) = c -> cv.(c_user_id) <> u) ->
  owns_conversation c u cs = false.
Proof.
  intros H; unfold owns_conversation.
  apply not_true_iff_false; intros E; apply existsb_exists in E as [cv [Hin E]].
  apply andb_prop in E as [E1 E2]; apply N.eqb_eq in E1, E2.
  exact (H cv Hin E1 E2).
Qed.

Lemma get_conversation_history_not_owned c u s :
  owns_conversation c u s.(conversations) = false ->
  get_conversation_history c u s = (Ok None, add_log (Select "todo_conversations") s).
Proof.
  intros H; unfold get_conversation_history; unfold_monad; simpl. rewrite H. reflexivity.
Qed.

(** C10: a chat turn naming a conversation that does not exist, or exists
    under another owner, fails with 404 "Conversation not found or access
    denied" (never 403); the session is rolled back after the one lookup,
    and no message is stored. *)
Theorem chat_conversation_not_found (msg : string) (cs : string) (c u : N) (s : db) :
  (1 <= String.length msg <= 10000)%nat -> parse_uuid cs = Some c ->
  (forall cv, In cv s.(conversations) -> cv.(c_id) = c -> cv.(c_user_id) <> u) ->
  chat_endpoint msg (Some cs) u s
    = (Raise conversation_not_found, add_log Rollback (add_log (Select "todo_conversations") s))
  /\ http_status (fst (chat_endpoint msg (Some cs) u s)) = 404%Z
  /\ (snd (chat_endpoint msg (Some cs) u s)).(messages) = s.(messages).
Proof.
  intros Hlen Hc Hown.
  assert (E : chat_endpoint msg (Some cs) u s
              = (Raise conversation_not_found,
                 add_log Rollback (add_log (Select "todo_conversations") s))).
  { unfold chat_endpoint.
    destruct (Nat.ltb_spec (String.length msg) 1); [lia|].
    destruct (Nat.ltb_spec 10000 (String.length msg)); [lia|].
    assert (Hne : str_eqb cs "" = false).
    { apply str_eqb_neq; intros ->; discriminate Hc. }
    unfold try_except, chat, bind at 1. rewrite Hne, Hc.
    unfold bind at 1.
    rewrite (get_conversation_history_not_owned _ _ _ (owns_conversation_false _ _ _ Hown)).
    reflexivity. }
  rewrite E; repeat split; reflexivity.
Qed.


(** *** A task under another owner *)

Lemma update_task_validate_ok uid tid_s b tid nt p d g s v s1 :
  parse_uuid uid = Some b -> parse_uuid tid_s = Some tid ->
  update_task_validate (VStr uid) (VStr tid_s) nt p d g s = (Ok v, s1) ->
  s1 = s /\ exists nt' d' g', v = (b, tid, nt', d', g').
Proof.
  intros Hu Ht H. unfold update_task_validate, py_uuid in H. rewrite Hu, Ht in H.
  unfold check_title, parse_due_date in H; unfold_monad.
  repeat (simpl in H; match type of H with
                      | context [match ?x with _ => _ end] =>
                        lazymatch type of x with
                        | (_ * db)%type => fail
                        | _ => destruct x
                        end
                      end);
    try discriminate H; injection H as <- <-; split; eauto.
Qed.

Lemma complete_task_not_owner uid tid_s b tid t s :
  parse_uuid uid = Some b -> parse_uuid tid_s = Some tid ->
  find_task tid s.(tasks) = Some t -> t.(t_user_id) <> b ->
  complete_task (VStr uid) (VStr tid_s) s
  = (Raise (ValueError task_not_found_owner), add_log (Select "todo_tasks") s).
Proof.
  intros Hu Ht Hf Ho. unfold complete_task, py_uuid; rewrite Hu, Ht.
  unfold bind at 1 2, ret at 1 2, try_except. unfold bind at 1.
  rewrite (lookup_owned_other _ _ _ _ Hf Ho). reflexivity.
Qed.

Lemma complete_task_absent uid tid_s b tid s :
  parse_uuid uid = Some b -> parse_uuid tid_s = Some tid -> find_task tid s.(tasks) = None ->
  complete_task (VStr uid) (VStr tid_s) s
  = (Raise (ValueError task_not_found_absent), add_log (Select "todo_tasks") s).
Proof.
  intros Hu Ht Hf. unfold complete_task, py_uuid; rewrite Hu, Ht.
  unfold bind at 1 2, ret at 1 2, try_except. unfold bind at 1.
  rewrite (lookup_owned_absent _ _ _ Hf). reflexivity.
Qed.

Lemma delete_task_not_owner uid tid_s b tid t s :
  parse_uuid uid = Some b -> parse_uuid tid_s = Some tid ->
  find_task tid s.(tasks) = Some t -> t.(t_user_id) <> b ->
  delete_task (VStr uid) (VStr tid_s) s
  = (Raise (ValueError task_not_found_owner), add_log (Select "todo_tasks") s).
Proof.
  intros Hu Ht Hf Ho. unfold delete_task, py_uuid; rewrite Hu, Ht.
  unfold bind at 1 2, ret at 1 2, try_except. unfold bind at 1.
  rewrite (lookup_owned_other _ _ _ _ Hf Ho). reflexivity.
Qed.

Lemma delete_task_absent uid tid_s b tid s :
  parse_uuid uid = Some b -> parse_uuid tid_s = Some tid -> find_task tid s.(tasks) = None ->
  delete_task (VStr uid) (VStr tid_s) s
  = (Raise (ValueError task_not_found_absent), add_log (Select "todo_tasks") s).
Proof.
  intros Hu Ht Hf. unfold delete_task, py_uuid; rewrite Hu, Ht.
  unfold bind at 1 2, ret at 1 2, try_except. unfold bind at 1.
  rewrite (lookup_owned_absent _ _ _ Hf). reflexivity.
Qed.

Lemma update_task_not_owner uid tid_s b tid t s nt c p d g v s1 :
  parse_uuid uid = Some b -> parse_uuid tid_s = Some tid ->
  find_task tid s.(tasks) = Some t -> t.(t_user_id) <> b ->
  update_task_validate (VStr uid) (VStr tid_s) nt p d g s = (Ok v, s1) ->
  update_task (VStr uid) (VStr tid_s) nt c p d g s
  = (Raise (ValueError task_not_found_owner), add_log (Select "todo_tasks") s).
Proof.
  intros Hu Ht Hf Ho Hv.
  destruct (update_task_validate_ok _ _ _ _ _ _ _ _ _ _ _ Hu Ht Hv) as [-> [nt' [d' [g' ->]]]].
  unfold update_task, bind at 1. rewrite Hv. unfold try_except, update_task_apply, bind at 1.
  rewrite (lookup_owned_other _ _ _ _ Hf Ho). reflexivity.
Qed.

Lemma update_task_absent uid tid_s b tid s nt c p d g v s1 :
  parse_uuid uid = Some b -> parse_uuid tid_s = Some tid -> find_task tid s.(tasks) = None ->
  update_task_validate (VStr uid) (VStr tid_s) nt p d g s = (Ok v, s1) ->
  update_task (VStr uid) (VStr tid_s) nt c p d g s
  = (Raise (ValueError task_not_found_absent), add_log (Select "todo_tasks") s).
Proof.
  intros Hu Ht Hf Hv.
  destruct (update_task_validate_ok _ _ _ _ _ _ _ _ _ _ _ Hu Ht Hv) as [-> [nt' [d' [g' ->]]]].
  unfold update_task, bind at 1. rewrite Hv. unfold try_except, update_task_apply, bind at 1.
  rewrite (lookup_owned_absent _ _ _ Hf). reflexivity.
Qed.

Lemma rest_update_task_not_owner tid upd b t s :
  find_task tid s.(tasks) = Some t -> t.(t_user_id) <> b ->
  rest_update_task tid upd b s
  = (Raise (HTTPException 403 "Not authorized to update this task"),
     add_log Rollback (add_log (Select "todo_tasks") s)).
Proof.
  intros Hf Ho. unfold rest_update_task, select_task_by_id; unfold_monad; simpl.
  rewrite Hf. destruct (N.eqb_spec t.(t_user_id) b); [contradiction|reflexivity].
Qed.

Lemma rest_update_task_absent tid upd b s :
  find_task tid s.(tasks) = None ->
  rest_update_task tid upd b s
  = (Raise (HTTPException 404 "Task not found"), add_log Rollback (add_log (Select "todo_tasks") s)).
Proof.
  intros Hf. unfold rest_update_task, select_task_by_id; unfold_monad; simpl.
  rewrite Hf. reflexivity.
Qed.

Lemma rest_delete_task_not_owner tid b t s :
  find_task tid s.(tasks) = Some t -> t.(t_user_id) <> b ->
  rest_delete_task tid b s
  = (Raise (HTTPException 403 "Not authorized to delete this task"),
     add_log Rollback (add_log (Select "todo_tasks") s)).
Proof.
  intros Hf Ho. unfold rest_delete_task, select_task_by_id; unfold_monad; simpl.
  rewrite Hf. destruct (N.eqb_spec t.(t_user_id) b); [contradiction|reflexivity].
Qed.

Lemma rest_delete_task_absent tid b s :
  find_task tid s.(tasks) = None ->
  rest_delete_task tid b s
  = (Raise (HTTPException 404 "Task not found"), add_log Rollback (add_log (Select "todo_tasks") s)).
Proof.
  intros Hf. unfold rest_delete_task, select_task_by_id; unfold_monad; simpl.
  rewrite Hf. reflexivity.
Qed.


(** C2 (as the code behaves): for owners A <> B and a task of A,
    [complete_task], [delete_task] and [update_task] (once its arguments pass
    validation) called with owner B fail with "TASK_NOT_FOUND: Task belongs to
    different user" after one lookup, and change nothing else; for an id
    with no task they fail with "TASK_NOT_FOUND: Task does not exist"
    instead, a different message. The REST routes answer 403 for the other
    owner's task and 404 for an absent one. *)
Theorem cross_owner_task_not_found (uid tid_s tid_s' : string) (a b tid tid' : N) (t : task) (s : db) :
  a <> b -> parse_uuid uid = Some b -> parse_uuid tid_s = Some tid ->
  find_task tid s.(tasks) = Some t -> t.(t_user_id) = a ->
  parse_uuid tid_s' = Some tid' -> find_task tid' s.(tasks) = None ->
  complete_task (VStr uid) (VStr tid_s) s
    = (Raise (ValueError task_not_found_owner), add_log (Select "todo_tasks") s)
  /\ complete_task (VStr uid) (VStr tid_s') s
    = (Raise (ValueError task_not_found_absent), add_log (Select "todo_tasks") s)
  /\ delete_task (VStr uid) (VStr tid_s) s
    = (Raise (ValueError task_not_found_owner), add_log (Select "todo_tasks") s)
  /\ delete_task (VStr uid) (VStr tid_s') s
    = (Raise (ValueError task_not_found_absent), add_log (Select "todo_tasks") s)
  /\ (forall nt c p d g v s1,
        update_task_validate (VStr uid) (VStr tid_s) nt p d g s = (Ok v, s1) ->
        update_task (VStr uid) (VStr tid_s) nt c p d g s
        = (Raise (ValueError task_not_found_owner), add_log (Select "todo_tasks") s))
  /\ (forall nt c p d g v s1,
        update_task_validate (VStr uid) (VStr tid_s') nt p d g s = (Ok v, s1) ->
        update_task (VStr uid) (VStr tid_s') nt c p d g s
        = (Raise (ValueError task_not_found_absent), add_log (Select "todo_tasks") s))
  /\ task_not_found_owner <> task_not_found_absent
  /\ (forall upd, http_status (fst (rest_update_task tid upd b s)) = 403%Z
                  /\ http_status (fst (rest_update_task tid' upd b s)) = 404%Z)
  /\ http_status (fst (rest_delete_task tid b s)) = 403%Z
  /\ http_status (fst (rest_delete_task tid' b s)) = 404%Z.
Proof.
  intros Hab Hu Ht Hf Ho Ht' Hf'.
  assert (Hob : t.(t_user_id) <> b) by congruence.
  split; [exact (complete_task_not_owner _ _ _ _ _ _ Hu Ht Hf Hob)|].
  split; [exact (complete_task_absent _ _ _ _ _ Hu Ht' Hf')|].
  split; [exact (delete_task_not_owner _ _ _ _ _ _ Hu Ht Hf Hob)|].
  split; [exact (delete_task_absent _ _ _ _ _ Hu Ht' Hf')|].
  split; [intros; eapply update_task_not_owner; eassumption|].
  split; [intros; eapply update_task_absent; eassumption|].
  split; [unfold task_not_found_owner, task_not_found_absent; discriminate|].
  split; [intros upd; rewrite (rest_update_task_not_owner _ _ _ _ _ Hf Hob),
                              (rest_update_task_absent _ _ _ _ Hf'); split; reflexivity|].
  rewrite (rest_delete_task_not_owner _ _ _ _ Hf Hob), (rest_delete_task_absent _ _ _ Hf').
  split; reflexivity.
Qed.


(** *** A successful [update_task] *)

Lemma update_task_validate_spec uid tid_s b tid nt p d g s v s1 :
  parse_uuid uid = Some b -> parse_uuid tid_s = Some tid ->
  update_task_validate (VStr uid) (VStr tid_s) nt p d g s = (Ok v, s1) ->
  s1 = s /\ exists nt' d' g', v = (b, tid, nt', d', g')
   /\ ((nt = VNull /\ nt' = None) \/ (exists x, nt = VStr x /\ nt' = Some (py_strip x)))
   /\ (p = VNull \/ exists x, p = VStr x)
   /\ ((d = VNull /\ d' = None)
       \/ (exists x z, d = VStr x /\ fromisoformat (py_replace "Z" "+00:00" x) = Some z
                       /\ d' = Some z))
   /\ ((g = VNull /\ g' = None) \/ (exists x, g = VStr x /\ g' = Some (py_strip x))).
Proof.
  intros Hu Ht H. unfold update_task_validate, py_uuid in H. rewrite Hu, Ht in H.
  unfold check_title, parse_due_date in H; unfold_monad.
  repeat (simpl in H; match type of H with
                      | context [match ?x with _ => _ end] =>
                        lazymatch type of x with
                        | (_ * db)%type => fail
                        | _ => let E := fresh "E" in destruct x eqn:E
                        end
                      end);
    try discriminate H; injection H as <- <-; refine (conj eq_refl _);
    do 3 eexists; refine (conj eq_refl _);
    repeat split; solve [left; split; reflexivity | right; eauto | left; reflexivity].
Qed.

Lemma reraise_or_database_error_raises {A} e s a s' :
  @reraise_or_database_error A e s <> (Ok a, s').
Proof.
  destruct e as [m|m|m|m|code m]; unfold reraise_or_database_error; unfold_monad;
    try discriminate.
  destruct (contains "TASK_NOT_FOUND" m || contains "INVALID" m); discriminate.
Qed.

Lemma update_task_apply_ok b tid nt' c p d' g' s r s' t :
  find_task tid s.(tasks) = Some t ->
  update_task_apply b tid nt' c p d' g' s = (Ok r, s') ->
  let t1 := match nt' with Some x => set_title t x | None => t end in
  let t2 := match boolean_bind c with Some cb => set_completed t1 cb | None => t1 end in
  let t3 := match p with VStr x => set_priority t2 x | _ => t2 end in
  let t4 := match d' with Some z => set_due_date t3 (Some z) | None => t3 end in
  let t5 := match g' with Some x => set_tags t4 (Some x) | None => t4 end in
  s'.(tasks) = replace_task (set_updated_at t5 (s.(wall) s.(reads))) s.(tasks).
Proof.
  intros Hf H. unfold update_task_apply, lookup_owned, select_task_by_id, commit_task_update in H.
  unfold_monad; simpl in H. rewrite Hf in H.
  destruct (negb (N.eqb t.(t_user_id) b)); simpl in H; [discriminate H|].
  destruct c as [| |z| | |]; [| |destruct z as [|[zp|zp|]|zp]| | |]; simpl in H;
    try discriminate H;
    match type of H with
    | context [check_task_update ?o ?n] => destruct (check_task_update o n)
    end; simpl in H; try discriminate H; injection H as _ <-; reflexivity.
Qed.


(** C7: after a successful [update_task], the task holds each field the
    patch supplies (a title and tags stripped, a due date parsed, a
    [completed] of 0 or 1 stored as false or true) and keeps
    each field the patch leaves out (JSON null or absent), its id, owner and
    [created_at] are unchanged, its [updated_at] is the time read by the
    call, even for a patch with no field at all, and every other task is
    unchanged. *)
Theorem update_task_applies_patch (uid tid_s : string) (b tid : N) (t : task) (s : db)
  (nt c p d g : value) (r : dict) (s' : db) :
  parse_uuid uid = Some b -> parse_uuid tid_s = Some tid -> find_task tid s.(tasks) = Some t ->
  update_task (VStr uid) (VStr tid_s) nt c p d g s = (Ok r, s') ->
  exists t', find_task tid s'.(tasks) = Some t'
   /\ t'.(t_title) = match nt with VStr x => py_strip x | _ => t.(t_title) end
   /\ t'.(t_completed) = match boolean_bind c with Some cb => cb | None => t.(t_completed) end
   /\ t'.(t_priority) = match p with VStr x => x | _ => t.(t_priority) end
   /\ t'.(t_due_date) = match d with
                        | VStr x => fromisoformat (py_replace "Z" "+00:00" x)
                        | _ => t.(t_due_date)
                        end
   /\ t'.(t_tags) = match g with VStr x => Some (py_strip x) | _ => t.(t_tags) end
   /\ t'.(t_id) = t.(t_id) /\ t'.(t_user_id) = t.(t_user_id)
   /\ t'.(t_created_at) = t.(t_created_at)
   /\ t'.(t_updated_at) = s.(wall) s.(reads)
   /\ (forall k, k <> tid -> find_task k s'.(tasks) = find_task k s.(tasks)).
Proof.
  intros Hu Ht Hf H. unfold update_task, bind at 1 in H.
  destruct (update_task_validate (VStr uid) (VStr tid_s) nt p d g s) as [[v|e] s1] eqn:Hv;
    [|discriminate H].
  destruct (update_task_validate_spec _ _ _ _ _ _ _ _ _ _ _ Hu Ht Hv)
    as [-> [nt' [d' [g' [-> [Hnt [Hp [Hd Hg]]]]]]]].
  unfold try_except in H.
  destruct (update_task_apply b tid nt' c p d' g' s) as [[r0|e] s2] eqn:Ha;
    [|exfalso; exact (reraise_or_database_error_raises _ _ _ _ H)].
  injection H as -> ->.
  pose proof (update_task_apply_ok _ _ _ _ _ _ _ _ _ _ _ Hf Ha) as Hs. simpl in Hs.
  rewrite Hs. pose proof (find_task_id _ _ _ Hf) as Hid.
  eexists; split.
  { apply (find_replace_task _ _ t); [exact Hf|].
    destruct nt', (boolean_bind c), p, d', g'; exact Hid. }
  destruct Hnt as [[-> ->]|[x [-> ->]]]; destruct Hp as [->|[y ->]];
    destruct Hd as [[-> ->]|[z [w [-> [Hw ->]]]]];
    destruct Hg as [[-> ->]|[q [-> ->]]];
    (split; [|split]); try split; try split; try split; try split; try split; try split;
    try split; try split;
    try (intros k Hk; apply find_replace_task_other;
         (destruct c as [| |zc| | |]; [| |destruct zc as [|[zp|zp|]|zp]| | |]); simpl; congruence);
    (destruct c as [| |zc| | |]; [| |destruct zc as [|[zp|zp|]|zp]| | |]); simpl;
    try rewrite Hw; reflexivity.
Qed.


(** *** Messages of a conversation *)

Lemma save_message_ok c role content s m s1 :
  save_message c role content s = (Ok m, s1) ->
  m = mk_message (s.(rng) s.(draws)) c role (py_strip content) (s.(wall) s.(reads))
  /\ s1.(messages) = s.(messages) ++ [m] /\ s1.(conversations) = s.(conversations)
  /\ s1.(tasks) = s.(tasks)
  /\ s1.(log) = s.(log) ++ [Add "todo_messages"; Commit; Select "todo_messages"].
Proof.
  intros H. unfold save_message in H.
  destruct (negb (existsb (str_eqb role) ["user"; "assistant"])); [discriminate H|].
  destruct (is_blank content); [discriminate H|].
  unfold_monad; simpl in H.
  destruct (check_message_insert _ _); simpl in H; [discriminate H|].
  injection H as <- <-; simpl. rewrite <- !app_assoc. repeat split; reflexivity.
Qed.

Lemma get_conversation_history_owned c u s :
  owns_conversation c u s.(conversations) = true ->
  get_conversation_history c u s
  = (Ok (Some (map to_history_item
                 (order_by_created_at
                    (filter (fun m => N.eqb m.(m_conversation_id) c) s.(messages))))),
     add_log (Select "todo_messages") (add_log (Select "todo_conversations") s)).
Proof.
  intros H; unfold get_conversation_history; unfold_monad; simpl. rewrite H. reflexivity.
Qed.

(** C8 (as the code behaves): a message [save_message] stores with a valid
    role and non-blank content is returned by the next history read of its
    owner with its role as given, its content with surrounding whitespace
    stripped ([content.strip()]), and the creation time read at append
    time, provided the database's [ORDER BY] returns a permutation of the
    rows. *)
Theorem save_message_history_round_trip (c u : N) (role content : string) (s : db)
  (m : message) (s1 : db) :
  (forall l, Permutation l (order_by_created_at l)) ->
  save_message c role content s = (Ok m, s1) ->
  owns_conversation c u s1.(conversations) = true ->
  exists h,
    get_conversation_history c u s1
    = (Ok (Some h), add_log (Select "todo_messages") (add_log (Select "todo_conversations") s1))
    /\ In (mk_history_item (uuid_str m.(m_id)) role (py_strip content) (s.(wall) s.(reads))) h.
Proof.
  intros Hperm Hs Hown.
  destruct (save_message_ok _ _ _ _ _ _ Hs) as [Hm [Hmsg _]].
  rewrite (get_conversation_history_owned _ _ _ Hown). eexists; split; [reflexivity|].
  replace (mk_history_item (uuid_str m.(m_id)) role (py_strip content) (s.(wall) s.(reads)))
    with (to_history_item m) by (subst m; reflexivity).
  apply in_map. eapply Permutation_in; [apply Hperm|].
  apply filter_In. rewrite Hmsg. split.
  - apply in_or_app; right; left; reflexivity.
  - subst m; simpl. apply N.eqb_refl.
Qed.


Lemma Sorted_map_impl {A B} (R : A -> A -> Prop) (R' : B -> B -> Prop) (f : A -> B) l :
  (forall x y, R x y -> R' (f x) (f y)) -> Sorted R l -> Sorted R' (map f l).
Proof.
  intros Hf HS; induction HS as [|a l HS IH Hd]; simpl; constructor; [exact IH|].
  destruct Hd; simpl; constructor; auto.
Qed.

Lemma sort_sorted_created_at l :
  Sorted (fun a b => (m_created_at a <= m_created_at b)%Z) (MessageSort.sort l).
Proof.
  rewrite <- (map_id (MessageSort.sort l)).
  apply (Sorted_map_impl (fun a b => is_true (MessageOrder.leb a b))).
  - intros x y H; apply Z.leb_le; exact H.
  - apply MessageSort.Sorted_sort.
Qed.

(** Two orderings of the same rows, one by [created_at] and one strictly
    increasing in [created_at], are the same list. *)
Lemma sorted_permutation_unique (l1 l2 : list message) :
  Permutation l1 l2 ->
  StronglySorted (fun a b => (m_created_at a <= m_created_at b)%Z) l1 ->
  StronglySorted (fun a b => (m_created_at a < m_created_at b)%Z) l2 ->
  l1 = l2.
Proof.
  revert l2; induction l1 as [|a l1 IH]; intros l2 Hp S1 S2.
  - symmetry; apply Permutation_nil; exact Hp.
  - destruct l2 as [|b l2].
    + apply Permutation_sym, Permutation_nil in Hp; discriminate Hp.
    + apply StronglySorted_inv in S1 as [S1 A1]; apply StronglySorted_inv in S2 as [S2 B2].
      assert (a = b) as <-.
      { assert (Ha : In a (b :: l2)) by (eapply Permutation_in; [exact Hp | left; reflexivity]).
        assert (Hb : In b (a :: l1))
          by (eapply Permutation_in; [apply Permutation_sym; exact Hp | left; reflexivity]).
        destruct Ha as [->|Ha]; [reflexivity|]. destruct Hb as [->|Hb]; [reflexivity|].
        rewrite Forall_forall in A1, B2. specialize (A1 b Hb); specialize (B2 a Ha). lia. }
      f_equal. apply IH; [apply Permutation_cons_inv in Hp; exact Hp | exact S1 | exact S2].
Qed.

Lemma get_conversation_history_some c u s h s' :
  get_conversation_history c u s = (Ok (Some h), s') ->
  h = map to_history_item
        (order_by_created_at (filter (fun m => N.eqb m.(m_conversation_id) c) s.(messages))).
Proof.
  intros H; unfold get_conversation_history in H; unfold_monad; simpl in H.
  destruct (owns_conversation c u s.(conversations)); [|discriminate H].
  injection H as <- _. reflexivity.
Qed.

(** C9 (as the code behaves): when the database's [ORDER BY created_at]
    returns the conversation's rows permuted and sorted on [created_at], every
    history read returns those rows with [created_at] non-decreasing, as a
    permutation of the rows in insertion order, and in insertion order
    exactly when the rows' [created_at] values strictly increase in insertion
    order. *)
Theorem conversation_history_order (c u : N) (s : db) (h : list history_item) (s' : db) :
  (forall l, Permutation l (order_by_created_at l)) ->
  (forall l, Sorted (fun a b => (m_created_at a <= m_created_at b)%Z) (order_by_created_at l)) ->
  get_conversation_history c u s = (Ok (Some h), s') ->
  let rows := filter (fun m => N.eqb m.(m_conversation_id) c) s.(messages) in
  Sorted (fun x y => (h_created_at x <= h_created_at y)%Z) h
  /\ Permutation (map to_history_item rows) h
  /\ (Sorted (fun a b => (m_created_at a < m_created_at b)%Z) rows -> h = map to_history_item rows).
Proof.
  intros Hperm Hsort H rows.
  pose proof (get_conversation_history_some _ _ _ _ _ H) as ->.
  split; [|split].
  - apply (Sorted_map_impl (fun a b => (m_created_at a <= m_created_at b)%Z)); [|apply Hsort].
    intros x y Hxy; exact Hxy.
  - apply Permutation_map, Hperm.
  - intros Hlt. f_equal. apply sorted_permutation_unique.
    + apply Permutation_sym, Hperm.
    + apply Sorted_StronglySorted; [intros x y z; lia | apply Hsort].
    + apply Sorted_StronglySorted; [intros x y z; lia | exact Hlt].
Qed.


(** *** Failures in a turn *)

(** C4 (as the code behaves): when the tool a call selects fails with an
    exception [e] (invalid argument, not found, missing parameters, storage),
    the turn's assistant message is "Sorry, I encountered an error: "
    followed by [str(e)], the raw message with its error code; when the
    reasoning call fails with [err], it is "I encountered an error processing
    your request: " followed by [err]. Neither failure raises. *)
Theorem tool_failure_reply (u : N) (name : string) (args : dict) (content : option string)
  (rest : list tool_call) (e : exc) (err : string) (s s' : db) :
  execute_tool name (dict_set "user_id" (VStr (uuid_str u)) args) s = (Raise e, s') ->
  assistant_reply (ApiMessage content (mk_tool_call name (Some (VObj args)) :: rest)) u s
    = (Ok ("Sorry, I encountered an error: " ^^ exc_str e), s')
  /\ assistant_reply (ApiFailure err) u s
    = (Ok ("I encountered an error processing your request: " ^^ err), s).
Proof.
  intros H. split; [|reflexivity].
  unfold assistant_reply, process_openai_response; simpl.
  unfold try_except, bind. rewrite H. reflexivity.
Qed.


(** *** What the tool layer leaves alone *)

Section Frame.
Context {X : Type} (f : db -> X).
Hypothesis f_log : forall a s, f (add_log a s) = f s.
Hypothesis f_clock : forall s, f (tick_clock s) = f s.
Hypothesis f_rng : forall s, f (tick_rng s) = f s.
Hypothesis f_tasks : forall ts s, f (set_tasks ts s) = f s.

Lemma frame_ret {A} (a : A) : frame f (ret a).
Proof. intros s; reflexivity. Qed.

Lemma frame_raise {A} e : frame f (@raise A e).
Proof. intros s; reflexivity. Qed.

Lemma frame_get_db : frame f get_db.
Proof. intros s; reflexivity. Qed.

Lemma frame_record a : frame f (record_access a).
Proof. intros s; apply f_log. Qed.

Lemma frame_utcnow : frame f utcnow.
Proof. intros s; apply f_clock. Qed.

Lemma frame_uuid4 : frame f uuid4.
Proof. intros s; apply f_rng. Qed.

Lemma frame_modify_tasks (g : db -> list task) :
  frame f (modify (fun s => set_tasks (g s) s)).
Proof. intros s; apply f_tasks. Qed.

Lemma frame_bind {A B} (m : M A) (k : A -> M B) :
  frame f m -> (forall a, frame f (k a)) -> frame f (bind m k).
Proof.
  intros Hm Hk s; specialize (Hm s); unfold bind.
  destruct (m s) as [[a|e] s1]; simpl in *; [rewrite Hk|]; exact Hm.
Qed.

Lemma frame_try {A} (m : M A) (h : exc -> M A) :
  frame f m -> (forall e, frame f (h e)) -> frame f (try_except m h).
Proof.
  intros Hm Hh s; specialize (Hm s); unfold try_except.
  destruct (m s) as [[a|e] s1]; simpl in *; [|rewrite Hh]; exact Hm.
Qed.

Ltac frame_step :=
  match goal with
  | |- frame _ (bind _ _) => apply frame_bind; [|intros ?]
  | |- frame _ (try_except _ _) => apply frame_try; [|intros ?]
  | |- frame _ (ret _) => apply frame_ret
  | |- frame _ (raise _) => apply frame_raise
  | |- frame _ get_db => apply frame_get_db
  | |- frame _ (record_access _) => apply frame_record
  | |- frame _ utcnow => apply frame_utcnow
  | |- frame _ uuid4 => apply frame_uuid4
  | |- frame _ (modify (fun s => set_tasks _ s)) => apply frame_modify_tasks
  | |- frame _ rollback => unfold rollback
  | |- frame _ refresh_task => unfold refresh_task
  | |- frame _ (select_task_by_id _) => unfold select_task_by_id
  | |- frame _ (match ?x with _ => _ end) => destruct x
  | |- _ => progress cbv zeta
  end.

Ltac frame_tac := repeat frame_step.

Lemma frame_py_uuid v msg : frame f (py_uuid v msg).
Proof. unfold py_uuid; frame_tac. Qed.

Lemma frame_check_title v m1 m2 : frame f (check_title v m1 m2).
Proof. unfold check_title; frame_tac. Qed.

Lemma frame_parse_due_date v msg : frame f (parse_due_date v msg).
Proof. unfold parse_due_date; frame_tac. Qed.

Lemma frame_lookup_owned tid u : frame f (lookup_owned tid u).
Proof. unfold lookup_owned; frame_tac. Qed.

Lemma frame_commit_task_update old new : frame f (commit_task_update old new).
Proof. unfold commit_task_update; frame_tac. Qed.

Lemma frame_delete_task_row t : frame f (delete_task_row t).
Proof. unfold delete_task_row; frame_tac. Qed.

Lemma frame_reraise {A} e : frame f (@reraise_or_database_error A e).
Proof. unfold reraise_or_database_error; frame_tac. Qed.

Ltac frame_known :=
  repeat (frame_step
          || apply frame_py_uuid || apply frame_check_title || apply frame_parse_due_date
          || apply frame_lookup_owned || apply frame_commit_task_update
          || apply frame_delete_task_row || apply frame_reraise).

Lemma frame_add_task u t p d g : frame f (add_task u t p d g).
Proof. unfold add_task; frame_known. Qed.

Lemma frame_list_tasks u fc : frame f (list_tasks u fc).
Proof. unfold list_tasks; frame_known. Qed.

Lemma frame_complete_task u k : frame f (complete_task u k).
Proof. unfold complete_task; frame_known. Qed.

Lemma frame_delete_task u k : frame f (delete_task u k).
Proof. unfold delete_task; frame_known. Qed.

Lemma frame_update_task u k nt c p d g : frame f (update_task u k nt c p d g).
Proof. unfold update_task, update_task_validate, update_task_apply; frame_known. Qed.

Lemma frame_execute_tool name args : frame f (execute_tool name args).
Proof.
  unfold execute_tool, bind_kwargs, run_tool;
    repeat (frame_known || apply frame_add_task || apply frame_list_tasks
            || apply frame_complete_task || apply frame_delete_task || apply frame_update_task).
Qed.

Lemma frame_assistant_reply r u : frame f (assistant_reply r u).
Proof.
  unfold assistant_reply, process_openai_response;
    repeat (frame_known || apply frame_execute_tool).
Qed.

Lemma frame_get_conversation_history c u : frame f (get_conversation_history c u).
Proof. unfold get_conversation_history; frame_tac. Qed.

End Frame.


(** *** One chat turn *)

Lemma bind_ok_inv {A B} (m : M A) (k : A -> M B) s b s' :
  bind m k s = (Ok b, s') -> exists a s1, m s = (Ok a, s1) /\ k a s1 = (Ok b, s').
Proof.
  unfold bind; destruct (m s) as [[a|e] s1]; intros H; [eauto|discriminate H].
Qed.

Lemma bind_ok {A B} (m : M A) (k : A -> M B) s a s1 : m s = (Ok a, s1) -> bind m k s = k a s1.
Proof. intros H; unfold bind; rewrite H; reflexivity. Qed.

Lemma bind_raise {A B} (m : M A) (k : A -> M B) s e s1 :
  m s = (Raise e, s1) -> bind m k s = (Raise e, s1).
Proof. intros H; unfold bind; rewrite H; reflexivity. Qed.

Lemma frame_apply {X A} (f : db -> X) (m : M A) s o s' : frame f m -> m s = (o, s') -> f s' = f s.
Proof. intros Hf E; specialize (Hf s); rewrite E in Hf; exact Hf. Qed.

Lemma save_message_conversations c role content s o s1 :
  save_message c role content s = (o, s1) -> s1.(conversations) = s.(conversations).
Proof.
  intros H; unfold save_message in H.
  destruct (negb (existsb (str_eqb role) ["user"; "assistant"])); [injection H as _ <-; reflexivity|].
  destruct (is_blank content); [injection H as _ <-; reflexivity|].
  unfold_monad; simpl in H.
  destruct (check_message_insert _ _); simpl in H; injection H as _ <-; reflexivity.
Qed.

Lemma save_message_blank c role content s :
  is_blank content = true -> exists e, save_message c role content s = (Raise e, s).
Proof.
  intros Hb; unfold save_message.
  destruct (negb (existsb (str_eqb role) ["user"; "assistant"])); [eexists; reflexivity|].
  rewrite Hb; eexists; reflexivity.
Qed.

Lemma create_conversation_ok u s c s1 :
  create_conversation u s = (Ok c, s1) ->
  owns_conversation c u s1.(conversations) = true /\ s1.(messages) = s.(messages).
Proof.
  intros H; unfold create_conversation in H; unfold_monad; simpl in H.
  injection H as <- <-; simpl. split; [|reflexivity].
  unfold owns_conversation; rewrite existsb_app; simpl; rewrite !N.eqb_refl.
  apply orb_true_r.
Qed.

Lemma create_conversation_total u s : exists c s1, create_conversation u s = (Ok c, s1).
Proof. do 2 eexists; reflexivity. Qed.

(** The context load of [process_message] for an owned conversation. *)
Lemma load_history_owned c u s :
  owns_conversation c u s.(conversations) = true ->
  (h <- get_conversation_history c u;;
   match h with
   | Some l => ret l
   | None => raise (TypeError "'NoneType' object is not iterable")
   end) s
  = (Ok (map to_history_item
           (order_by_created_at
              (filter (fun m => N.eqb m.(m_conversation_id) c) s.(messages)))),
     add_log (Select "todo_messages") (add_log (Select "todo_conversations") s)).
Proof.
  intros H. erewrite bind_ok by (apply get_conversation_history_owned; exact H). reflexivity.
Qed.

Lemma load_history_not_owned c u s :
  owns_conversation c u s.(conversations) = false ->
  (h <- get_conversation_history c u;;
   match h with
   | Some l => ret l
   | None => raise (TypeError "'NoneType' object is not iterable")
   end) s
  = (Raise (TypeError "'NoneType' object is not iterable"),
     add_log (Select "todo_conversations") s).
Proof.
  intros H. erewrite bind_ok by (apply get_conversation_history_not_owned; exact H). reflexivity.
Qed.

Lemma process_message_ok msg u c s1 ar s2 :
  process_message msg u (Some c) s1 = (Ok ar, s2) ->
  exists hist s_ctx s_mid um am,
    assistant_reply (reasoning (format_messages_for_openai msg hist)) u s_ctx = (Ok (fst ar), s_mid)
    /\ s_ctx.(messages) = s1.(messages) /\ s_ctx.(conversations) = s1.(conversations)
    /\ s_mid.(messages) = s1.(messages) /\ s_mid.(conversations) = s1.(conversations)
    /\ s2.(messages) = s1.(messages) ++ [um; am] /\ s2.(conversations) = s1.(conversations)
    /\ um.(m_conversation_id) = c /\ um.(m_role) = "user" /\ um.(m_content) = py_strip msg
    /\ am.(m_conversation_id) = c /\ am.(m_role) = "assistant"
    /\ am.(m_content) = py_strip (fst ar)
    /\ s2.(tasks) = s_mid.(tasks)
    /\ s2.(log) = s_mid.(log) ++ [Add "todo_messages"; Commit; Select "todo_messages";
                                  Add "todo_messages"; Commit; Select "todo_messages"].
Proof.
  intros H. unfold process_message in H.
  apply bind_ok_inv in H as [hist [sA [Hh H]]].
  destruct (owns_conversation c u s1.(conversations)) eqn:Hown;
    [rewrite (load_history_owned _ _ _ Hown) in Hh | rewrite (load_history_not_owned _ _ _ Hown) in Hh;
                                                     discriminate Hh].
  injection Hh as <- <-. cbv beta iota zeta in H.
  apply bind_ok_inv in H as [reply [s_mid [Ha H]]].
  apply bind_ok_inv in H as [[] [s4 [Hs H]]]. injection H as <- <-.
  apply bind_ok_inv in Hs as [um [s3 [Hu Hs]]].
  apply bind_ok_inv in Hs as [am [s4' [Hm Hs]]]. injection Hs; intros; subst s4'.
  pose proof (frame_apply messages _ _ _ _ ltac:(apply frame_assistant_reply; intros; reflexivity) Ha)
    as Fm.
  pose proof (frame_apply conversations _ _ _ _
                ltac:(apply frame_assistant_reply; intros; reflexivity) Ha) as Fc.
  pose proof (save_message_conversations _ _ _ _ _ _ Hu) as Cu.
  pose proof (save_message_conversations _ _ _ _ _ _ Hm) as Cm.
  apply save_message_ok in Hu as [Eu [Mu [_ [Tu Lu]]]].
  apply save_message_ok in Hm as [Em [Mm [_ [Tm Lm]]]].
  eexists; eexists; exists s_mid, um, am. split; [exact Ha|]. simpl in Fm, Fc.
  repeat split; try (rewrite ?Eu, ?Em; reflexivity); try congruence.
  - rewrite Mm, Mu, Fm. rewrite <- app_assoc. reflexivity.
  - rewrite Lm, Lu, <- app_assoc. reflexivity.
Qed.


Lemma frame_messages_create_conversation u : frame messages (create_conversation u).
Proof. intros s; reflexivity. Qed.

Lemma chat_ok_inv msg req u s r s' :
  chat msg req u s = (Ok r, s') ->
  exists c s1 ar s2,
    s1.(messages) = s.(messages) /\ process_message msg u (Some c) s1 = (Ok ar, s2)
    /\ r.(r_conversation_id) = uuid_str c /\ r.(r_assistant_message) = fst ar
    /\ s' = add_log (Select "todo_messages") (add_log (Select "todo_conversations") s2).
Proof.
  intros H. unfold chat in H.
  apply bind_ok_inv in H as [c [s1 [Hc H]]].
  apply bind_ok_inv in H as [ar [s2 [Hp H]]].
  apply bind_ok_inv in H as [fh [s3 [Hg H]]]. injection H as <- <-.
  assert (Hc' : owns_conversation c u s1.(conversations) = true /\ s1.(messages) = s.(messages)).
  { destruct req as [cs|]; [destruct (str_eqb cs "")|]; try exact (create_conversation_ok _ _ _ _ Hc).
    destruct (parse_uuid cs) as [c'|]; [|discriminate Hc].
    apply bind_ok_inv in Hc as [h [sB [Hh Hc]]].
    destruct (owns_conversation c' u s.(conversations)) eqn:Hown.
    - rewrite (get_conversation_history_owned _ _ _ Hown) in Hh. injection Hh as <- <-.
      injection Hc as <- <-. split; [exact Hown|reflexivity].
    - rewrite (get_conversation_history_not_owned _ _ _ Hown) in Hh. injection Hh as <- <-.
      discriminate Hc. }
  destruct Hc' as [Hown Hm].
  destruct (process_message_ok _ _ _ _ _ _ Hp)
    as [hist [s_ctx [s_mid [um [am [_ [_ [_ [_ [_ [_ [Hconv _]]]]]]]]]]]].
  rewrite <- Hconv in Hown.
  rewrite (get_conversation_history_owned _ _ _ Hown) in Hg. injection Hg as _ <-.
  exists c, s1, ar, s2. repeat split; assumption || reflexivity.
Qed.

Lemma process_message_blank msg u c s1 :
  is_blank msg = true ->
  exists e s2, process_message msg u (Some c) s1 = (Raise e, s2) /\ s2.(messages) = s1.(messages).
Proof.
  intros Hb. unfold process_message.
  destruct (owns_conversation c u s1.(conversations)) eqn:Hown.
  - erewrite bind_ok by (apply load_history_owned; exact Hown). cbv beta iota zeta.
    match goal with
    | |- context [bind (assistant_reply ?r u) ?k ?st] =>
      destruct (assistant_reply r u st) as [[rep|e] sB] eqn:Ea
    end.
    + erewrite bind_ok by exact Ea.
      destruct (save_message_blank c "user" msg sB Hb) as [e He].
      exists e, sB. split; [apply bind_raise, bind_raise, He|].
      apply (frame_apply messages _ _ _ _ ltac:(apply frame_assistant_reply; intros; reflexivity) Ea).
    + erewrite bind_raise by exact Ea. exists e, sB. split; [reflexivity|].
      apply (frame_apply messages _ _ _ _ ltac:(apply frame_assistant_reply; intros; reflexivity) Ea).
  - erewrite bind_raise by (apply load_history_not_owned; exact Hown).
    eexists; eexists; split; reflexivity.
Qed.

Lemma chat_blank msg req u s :
  is_blank msg = true ->
  exists e s2, chat msg req u s = (Raise e, s2) /\ s2.(messages) = s.(messages).
Proof.
  intros Hb. unfold chat.
  match goal with
  | |- context [bind ?m ?k s] =>
    assert (Fc : frame messages m);
      [|destruct (m s) as [[c|e] s1] eqn:Hc]
  end.
  - destruct req as [cs|]; cbv beta iota; [destruct (str_eqb cs "")|]; cbv beta iota;
      try apply frame_messages_create_conversation.
    destruct (parse_uuid cs); cbv beta iota; [|apply frame_raise].
    apply frame_bind; [apply frame_get_conversation_history; intros; reflexivity|].
    intros [l|]; [apply frame_ret|apply frame_raise].
  - erewrite bind_ok by exact Hc.
    destruct (process_message_blank msg u c s1 Hb) as [e [s2 [Hp Hm]]].
    exists e, s2. split; [apply bind_raise; exact Hp|].
    rewrite Hm. exact (frame_apply _ _ _ _ _ Fc Hc).
  - erewrite bind_raise by exact Hc. exists e, s1. split; [reflexivity|].
    exact (frame_apply _ _ _ _ _ Fc Hc).
Qed.

(** The reply of the model never fails with an HTTP error: the failures
    of a tool are caught, what is left are [ValueError] and [TypeError]. *)
Lemma assistant_reply_server_error r u s e s' :
  assistant_reply r u s = (Raise e, s') -> http_status (@Raise chat_response e) = 500%Z.
Proof.
  intros H. unfold assistant_reply, process_openai_response in H.
  destruct r as [err|content [|tc tcs]].
  - discriminate H.
  - destruct content as [c|]; [destruct (str_eqb c "")|]; discriminate H.
  - destruct (tc_arguments tc) as [v|];
      [destruct v; try (injection H as <- _; reflexivity)|injection H as <- _; reflexivity].
    unfold try_except in H.
    match type of H with
    | (match ?m ?st with _ => _ end) = _ => destruct (m st) as [[x|x] sx]
    end; discriminate H.
Qed.

Lemma save_message_user_blank c content s :
  is_blank content = true ->
  save_message c "user" content s = (Raise (ValueError "Message content cannot be empty"), s).
Proof. intros Hb; unfold save_message; simpl; rewrite Hb; reflexivity. Qed.

Lemma process_message_blank_owned msg u c s1 :
  is_blank msg = true -> owns_conversation c u s1.(conversations) = true ->
  exists e s2, process_message msg u (Some c) s1 = (Raise e, s2)
               /\ http_status (@Raise chat_response e) = 500%Z
               /\ s2.(messages) = s1.(messages).
Proof.
  intros Hb Hown. unfold process_message.
  erewrite bind_ok by (apply load_history_owned; exact Hown). cbv beta iota zeta.
  match goal with
  | |- context [bind (assistant_reply ?r u) ?k ?st] =>
    destruct (assistant_reply r u st) as [[rep|e] sB] eqn:Ea
  end.
  - erewrite bind_ok by exact Ea.
    exists (ValueError "Message content cannot be empty"), sB.
    split; [apply bind_raise, bind_raise, save_message_user_blank, Hb|split; [reflexivity|]].
    apply (frame_apply messages _ _ _ _ ltac:(apply frame_assistant_reply; intros; reflexivity) Ea).
  - erewrite bind_raise by exact Ea. exists e, sB.
    split; [reflexivity|split; [exact (assistant_reply_server_error _ _ _ _ _ Ea)|]].
    apply (frame_apply messages _ _ _ _ ltac:(apply frame_assistant_reply; intros; reflexivity) Ea).
Qed.

Lemma chat_blank_owned msg req u s :
  is_blank msg = true -> context_loads req u s ->
  exists e s2, chat msg req u s = (Raise e, s2)
               /\ http_status (@Raise chat_response e) = 500%Z
               /\ s2.(messages) = s.(messages).
Proof.
  intros Hb Hctx. unfold chat.
  match goal with
  | |- context [bind ?m ?k s] =>
    assert (Hc : exists c s1, m s = (Ok c, s1) /\ owns_conversation c u s1.(conversations) = true
                              /\ s1.(messages) = s.(messages))
  end.
  { destruct req as [cs|]; [destruct (str_eqb cs "") eqn:He|]; cbv beta iota;
      try (destruct (create_conversation_total u s) as [c [s1 Hc]];
           exists c, s1; split; [exact Hc|exact (create_conversation_ok _ _ _ _ Hc)]).
    destruct Hctx as [Hctx|[c [Hp Hown]]]; [congruence|].
    rewrite Hp. erewrite bind_ok by (apply get_conversation_history_owned; exact Hown).
    eexists; eexists; split; [reflexivity|split; [exact Hown|reflexivity]]. }
  destruct Hc as [c [s1 [Hc [Hown Hm]]]].
  erewrite bind_ok by exact Hc.
  destruct (process_message_blank_owned msg u c s1 Hb Hown) as [e [s2 [Hp [H5 Hm2]]]].
  exists e, s2. split; [apply bind_raise; exact Hp|split; [exact H5|congruence]].
Qed.

(** C3 (as the code behaves): a chat turn that succeeds has run its tool
    (the reply of the reasoning call) first and then appended exactly two
    messages to the conversation, the user message, then the assistant
    message, each stored stripped, and after them only reads the history;
    a turn whose user message is whitespace only fails and appends no
    message; when it passes request validation (1 to 10000 characters) and
    the context load (a new conversation, or one of the caller), it fails
    with status 500. *)
Theorem chat_turn_appends_user_then_assistant (msg : string) (req : option string) (u : N)
  (s : db) :
  (forall r s', chat_endpoint msg req u s = (Ok r, s') ->
   exists c hist s_ctx s_mid um am,
     assistant_reply (reasoning (format_messages_for_openai msg hist)) u s_ctx
       = (Ok r.(r_assistant_message), s_mid)
     /\ s_ctx.(messages) = s.(messages) /\ s_mid.(messages) = s.(messages)
     /\ s'.(messages) = s.(messages) ++ [um; am]
     /\ r.(r_conversation_id) = uuid_str c
     /\ um.(m_conversation_id) = c /\ um.(m_role) = "user" /\ um.(m_content) = py_strip msg
     /\ am.(m_conversation_id) = c /\ am.(m_role) = "assistant"
     /\ am.(m_content) = py_strip r.(r_assistant_message)
     /\ s'.(tasks) = s_mid.(tasks)
     /\ s'.(log) = s_mid.(log) ++ [Add "todo_messages"; Commit; Select "todo_messages";
                                   Add "todo_messages"; Commit; Select "todo_messages";
                                   Select "todo_conversations"; Select "todo_messages"])
  /\ (is_blank msg = true ->
      exists e, fst (chat_endpoint msg req u s) = Raise e
                /\ (snd (chat_endpoint msg req u s)).(messages) = s.(messages))
  /\ (is_blank msg = true -> (1 <= String.length msg <= 10000)%nat -> context_loads req u s ->
      http_status (fst (chat_endpoint msg req u s)) = 500%Z
      /\ (snd (chat_endpoint msg req u s)).(messages) = s.(messages)).
Proof.
  split; [|split].
  - intros r s' H. unfold chat_endpoint in H.
    destruct (String.length msg <? 1)%nat; [discriminate H|].
    destruct (10000 <? String.length msg)%nat; [discriminate H|].
    unfold try_except in H.
    destruct (chat msg req u s) as [[r0|e] s0] eqn:E;
      [injection H as -> ->|unfold_monad; discriminate H].
    destruct (chat_ok_inv _ _ _ _ _ _ E) as [c [s1 [ar [s2 [Hm1 [Hp [Hcid [Har ->]]]]]]]].
    destruct (process_message_ok _ _ _ _ _ _ Hp)
      as [hist [s_ctx [s_mid [um [am [Ha [Mc [_ [Mm [_ [M2 [_ [U1 [U2 [U3 [A1 [A2 [A3 [T L]]]]]]]]]]]]]]]]]]].
    exists c, hist, s_ctx, s_mid, um, am. rewrite Har.
    repeat split; try assumption; simpl; try congruence.
    rewrite L, <- !app_assoc. reflexivity.
  - intros Hb. unfold chat_endpoint.
    destruct (String.length msg <? 1)%nat; [eexists; split; reflexivity|].
    destruct (10000 <? String.length msg)%nat; [eexists; split; reflexivity|].
    destruct (chat_blank msg req u s Hb) as [e [s2 [E Hm]]].
    unfold try_except; rewrite E. exists e; split; [reflexivity|exact Hm].
  - intros Hb [Hlo Hhi] Hctx. unfold chat_endpoint.
    replace (String.length msg <? 1)%nat with false by (symmetry; apply Nat.ltb_ge; lia).
    replace (10000 <? String.length msg)%nat with false by (symmetry; apply Nat.ltb_ge; lia).
    destruct (chat_blank_owned msg req u s Hb Hctx) as [e [s2 [E [H5 Hm]]]].
    unfold try_except; rewrite E. unfold_monad. simpl. split; [exact H5|exact Hm].
Qed.

(** *** Tasks of other owners *)

Lemma replace_task_absent t ts : ~ In t.(t_id) (map t_id ts) -> replace_task t ts = ts.
Proof.
  induction ts as [|x ts IH]; simpl; intros H; [reflexivity|].
  destruct (N.eqb_spec x.(t_id) t.(t_id)) as [E|E]; [exfalso; apply H; left; exact E|].
  rewrite IH by (intros Hi; apply H; right; exact Hi). reflexivity.
Qed.

Lemma remove_task_absent tid ts : ~ In tid (map t_id ts) -> remove_task tid ts = ts.
Proof.
  induction ts as [|x ts IH]; simpl; intros H; [reflexivity|].
  destruct (N.eqb_spec x.(t_id) tid) as [E|E]; [exfalso; apply H; left; exact E|].
  simpl. rewrite IH by (intros Hi; apply H; right; exact Hi). reflexivity.
Qed.

Lemma owner_step_others u ts ts' :
  NoDup (map t_id ts) -> owner_step u ts ts' -> tasks_of_others u ts' = tasks_of_others u ts.
Proof.
  intros Hnd Hs; destruct Hs as [|t Ho|t0 t Hf Ho0 Ho|t0 Hf Ho0].
  - reflexivity.
  - unfold tasks_of_others. rewrite filter_app. simpl. rewrite Ho, N.eqb_refl. simpl.
    apply app_nil_r.
  - induction ts as [|x ts IH]; simpl in *; [discriminate|].
    apply NoDup_cons_iff in Hnd as [Hni Hnd'].
    destruct (N.eqb_spec x.(t_id) t.(t_id)) as [E|E].
    + injection Hf as <-. unfold tasks_of_others; simpl.
      rewrite Ho, Ho0, N.eqb_refl. simpl. rewrite replace_task_absent by (rewrite <- E; exact Hni).
      reflexivity.
    + unfold tasks_of_others in *; simpl. destruct (negb (N.eqb x.(t_user_id) u));
        rewrite (IH Hnd' Hf); reflexivity.
  - induction ts as [|x ts IH]; simpl in *; [discriminate|].
    apply NoDup_cons_iff in Hnd as [Hni Hnd'].
    destruct (N.eqb_spec x.(t_id) t0.(t_id)) as [E|E].
    + injection Hf as <-. unfold tasks_of_others; simpl.
      rewrite Ho0, N.eqb_refl. simpl. rewrite remove_task_absent by exact Hni. reflexivity.
    + unfold tasks_of_others in *; simpl. destruct (negb (N.eqb x.(t_user_id) u));
        rewrite (IH Hnd' Hf); reflexivity.
Qed.

Ltac run H :=
  repeat (simpl in H; match type of H with
                      | context [match ?x with _ => _ end] =>
                        lazymatch type of x with
                        | (_ * db)%type => fail
                        | _ => let E := fresh "E" in destruct x eqn:E
                        end
                      end).

Ltac close_owner_step :=
  match goal with
  | |- owner_step _ ?ts ?ts => apply os_same
  | Hf : find_task _ _ = Some ?t, Ho : negb (N.eqb (t_user_id ?t) ?u) = false
    |- owner_step ?u _ (replace_task _ _) =>
    apply negb_false_iff, N.eqb_eq in Ho;
    apply (os_replace _ _ t); simpl; [rewrite (find_task_id _ _ _ Hf); exact Hf|exact Ho|exact Ho]
  | Hf : find_task _ _ = Some ?t, Ho : negb (N.eqb (t_user_id ?t) ?u) = false
    |- owner_step ?u _ (remove_task _ _) =>
    apply negb_false_iff, N.eqb_eq in Ho; pose proof (find_task_id _ _ _ Hf) as Hid;
    try rewrite <- Hid; apply os_remove; [rewrite Hid; exact Hf|exact Ho]
  end.

Lemma complete_task_owner_step su k u s o s' :
  parse_uuid su = Some u -> complete_task (VStr su) k s = (o, s') -> owner_step u s.(tasks) s'.(tasks).
Proof.
  intros Hu H. unfold complete_task, py_uuid, lookup_owned, select_task_by_id, commit_task_update,
    reraise_or_database_error in H. rewrite Hu in H. unfold_monad. run H;
    injection H as _ <-; simpl; close_owner_step.
Qed.

Lemma delete_task_owner_step su k u s o s' :
  parse_uuid su = Some u -> delete_task (VStr su) k s = (o, s') -> owner_step u s.(tasks) s'.(tasks).
Proof.
  intros Hu H. unfold delete_task, py_uuid, lookup_owned, select_task_by_id, delete_task_row,
    reraise_or_database_error in H. rewrite Hu in H. unfold_monad. run H;
    injection H as _ <-; simpl; close_owner_step.
Qed.

Lemma update_task_owner_step su k nt c p d g u s o s' :
  parse_uuid su = Some u -> update_task (VStr su) k nt c p d g s = (o, s') ->
  owner_step u s.(tasks) s'.(tasks).
Proof.
  intros Hu H. unfold update_task, update_task_validate, update_task_apply, py_uuid, check_title,
    parse_due_date, lookup_owned, select_task_by_id, commit_task_update,
    reraise_or_database_error in H. rewrite Hu in H. unfold_monad. run H;
    injection H as _ <-; simpl; close_owner_step.
Qed.

Lemma add_task_owner_step su t p d g u s o s' :
  parse_uuid su = Some u -> add_task (VStr su) t p d g s = (o, s') -> owner_step u s.(tasks) s'.(tasks).
Proof.
  intros Hu H. unfold add_task, py_uuid, check_title, parse_due_date in H. rewrite Hu in H.
  unfold_monad. run H; injection H as _ <-; simpl; first [apply os_same | apply os_insert; reflexivity].
Qed.

Lemma list_tasks_tasks su f s o s' : list_tasks (VStr su) f s = (o, s') -> s'.(tasks) = s.(tasks).
Proof. intros H. unfold list_tasks, py_uuid in H; unfold_monad. run H; injection H as _ <-; reflexivity. Qed.

(** *** Round trip of [str(uuid)] and [UUID(...)] *)

Lemma list_ascii_of_string_app a b :
  list_ascii_of_string (a ^^ b) = list_ascii_of_string a ++ list_ascii_of_string b.
Proof. induction a as [|c a IH]; simpl; [reflexivity|rewrite IH; reflexivity]. Qed.

Lemma list_ascii_of_substring n m s :
  list_ascii_of_string (substring n m s) = firstn m (skipn n (list_ascii_of_string s)).
Proof.
  revert n m; induction s as [|c s IH]; intros [|n] [|m]; simpl; try reflexivity;
    try (rewrite firstn_nil; reflexivity).
  - rewrite IH. reflexivity.
  - rewrite IH. reflexivity.
  - rewrite IH. reflexivity.
Qed.

Lemma string_list_inj a b : list_ascii_of_string a = list_ascii_of_string b -> a = b.
Proof.
  intros H. rewrite <- (string_of_list_ascii_of_string a), <- (string_of_list_ascii_of_string b), H.
  reflexivity.
Qed.

Lemma length_list_ascii s : List.length (list_ascii_of_string s) = String.length s.
Proof. induction s; simpl; congruence. Qed.

(** [s.replace(pat, rep)] is the identity when the first character of [pat]
    never occurs in [s]. *)
Lemma replace_all_fuel_absent fuel c0 pat' rep s :
  Forall (fun c => c <> c0) (list_ascii_of_string s) ->
  replace_all_fuel fuel (String c0 pat') rep s = s.
Proof.
  revert s; induction fuel as [|fuel IH]; intros s H; [reflexivity|].
  destruct s as [|c s]; [reflexivity|]. simpl in H. inversion H as [|? ? Hc Hs]; subst.
  simpl. destruct (Ascii.eqb_spec c0 c) as [E|E]; [congruence|]. simpl.
  rewrite IH by exact Hs. reflexivity.
Qed.

Lemma substring_0_full s k : (String.length s <= k)%nat -> substring 0 k s = s.
Proof.
  revert k; induction s as [|c s IH]; intros [|k] Hk; simpl in *; try reflexivity; [lia|].
  rewrite IH by lia. reflexivity.
Qed.

(** Deleting a one-character pattern keeps the other characters. *)
Lemma replace_all_fuel_char fuel c0 s :
  (String.length s <= fuel)%nat ->
  list_ascii_of_string (replace_all_fuel fuel (String c0 EmptyString) EmptyString s)
  = filter (fun c => negb (Ascii.eqb c0 c)) (list_ascii_of_string s).
Proof.
  revert fuel; induction s as [|c s IH]; intros [|fuel] Hf; simpl in *; try reflexivity; [lia|].
  destruct (Ascii.eqb c0 c) eqn:E; simpl.
  - rewrite substring_0_full by lia. apply IH. lia.
  - rewrite IH by lia. reflexivity.
Qed.

Lemma lstrip_by_keep p s :
  Forall (fun c => p c = false) (list_ascii_of_string s) -> lstrip_by p s = s.
Proof. destruct s as [|c s]; simpl; [reflexivity|]. intros H; inversion H; subst. rewrite H2; reflexivity. Qed.

Lemma list_ascii_of_rev_str s acc :
  list_ascii_of_string (rev_str s acc) = rev (list_ascii_of_string s) ++ list_ascii_of_string acc.
Proof.
  revert acc; induction s as [|c s IH]; intros acc; simpl; [reflexivity|].
  rewrite IH. simpl. rewrite <- app_assoc. reflexivity.
Qed.

(** [s.strip(chars)] is the identity on a string with none of [chars]. *)
Lemma strip_by_keep p s :
  Forall (fun c => p c = false) (list_ascii_of_string s) -> strip_by p s = s.
Proof.
  intros H. unfold strip_by. rewrite (lstrip_by_keep p s H).
  rewrite lstrip_by_keep.
  - apply string_list_inj. rewrite !list_ascii_of_rev_str. simpl. rewrite !app_nil_r, rev_involutive.
    reflexivity.
  - rewrite list_ascii_of_rev_str. simpl. rewrite app_nil_r. apply Forall_rev. exact H.
Qed.

Lemma hex_val_char d : (d < 16)%N -> hex_val (hex_char d) = Some d.
Proof.
  intros Hd. unfold hex_char.
  assert (Hn : (N.to_nat d < 16)%nat) by lia.
  rewrite <- (N2Nat.id d). generalize (N.to_nat d) Hn. clear Hd Hn.
  intros n Hn. do 16 (destruct n as [|n]; [reflexivity|]). lia.
Qed.

Lemma hex_char_not d c : (d < 16)%N -> hex_val c = None -> hex_char d <> c.
Proof. intros Hd Hc E. subst c. rewrite hex_val_char in Hc by exact Hd. discriminate. Qed.

Lemma hex_to_N_digits k n acc a :
  hex_to_N (hex_digits k n acc) a = hex_to_N acc (a * 16 ^ N.of_nat k + n mod 16 ^ N.of_nat k)%N.
Proof.
  revert n acc a; induction k as [|k IH]; intros n acc a.
  - simpl. rewrite N.mod_1_r, N.mul_1_r, N.add_0_r. reflexivity.
  - rewrite Nat2N.inj_succ, N.pow_succ_r', N.Div0.mod_mul_r. cbn [hex_digits].
    rewrite IH. cbn [hex_to_N]. rewrite hex_val_char by (apply N.mod_lt; discriminate).
    f_equal.
    ring.
Qed.

Lemma hex_digits_shape k n acc :
  exists l, list_ascii_of_string (hex_digits k n acc) = l ++ list_ascii_of_string acc
            /\ List.length l = k /\ Forall (fun c => hex_val c <> None) l.
Proof.
  revert n acc; induction k as [|k IH]; intros n acc; simpl.
  - exists []; repeat split; constructor.
  - destruct (IH (n / 16)%N (String (hex_char (n mod 16)) acc)) as [l [E [L F]]].
    exists (l ++ [hex_char (n mod 16)]). rewrite E. simpl. rewrite <- app_assoc. repeat split.
    + rewrite length_app, L. simpl. lia.
    + apply Forall_app; split; [exact F|]. constructor; [|constructor].
      rewrite hex_val_char by (apply N.mod_lt; discriminate). discriminate.
Qed.

Lemma In_firstn_skipn {A} n m (l : list A) x : In x (firstn m (skipn n l)) -> In x l.
Proof.
  intros H. rewrite <- (firstn_skipn n l). apply in_or_app; right.
  rewrite <- (firstn_skipn m (skipn n l)). apply in_or_app; left. exact H.
Qed.

Lemma hex_not c0 c : hex_val c0 = None -> hex_val c <> None -> c <> c0.
Proof. intros H0 H E; subst; contradiction. Qed.

(** [UUID(str(u))] gives back [u] for every 128-bit [u]. *)
Lemma parse_uuid_uuid_str u : (u < 2 ^ 128)%N -> parse_uuid (uuid_str u) = Some u.
Proof.
  intros Hu. unfold parse_uuid, uuid_hex, uuid_str.
  destruct (hex_digits_shape 32 u EmptyString) as [l [E [L F]]].
  change (list_ascii_of_string EmptyString) with (@nil ascii) in E. rewrite app_nil_r in E.
  set (h := hex_digits 32 u EmptyString) in *.
  set (w := substring 0 8 h ^^ "-" ^^ substring 8 4 h ^^ "-" ^^ substring 12 4 h ^^ "-"
            ^^ substring 16 4 h ^^ "-" ^^ substring 20 12 h).
  assert (Lw : list_ascii_of_string w
               = firstn 8 l ++ ["-"%char] ++ firstn 4 (skipn 8 l) ++ ["-"%char]
                 ++ firstn 4 (skipn 12 l) ++ ["-"%char] ++ firstn 4 (skipn 16 l) ++ ["-"%char]
                 ++ firstn 12 (skipn 20 l)).
  { subst w. rewrite !list_ascii_of_string_app, !list_ascii_of_substring, E. reflexivity. }
  assert (Fw : Forall (fun c => hex_val c <> None \/ c = "-"%char) (list_ascii_of_string w)).
  { rewrite Lw. assert (Fl : forall n m, Forall (fun c => hex_val c <> None \/ c = "-"%char)
                                                (firstn m (skipn n l))).
    { intros n m. apply Forall_forall; intros c Hc. left.
      apply (proj1 (Forall_forall _ _) F). apply In_firstn_skipn in Hc. exact Hc. }
    rewrite <- (skipn_O l) at 1.
    repeat (apply Forall_app; split; [apply Fl || (constructor; [right; reflexivity|constructor])|]).
    apply Fl. }
  assert (Fnot : forall c0, hex_val c0 = None -> c0 <> "-"%char ->
                 Forall (fun c => c <> c0) (list_ascii_of_string w)).
  { intros c0 H0 Hd. eapply Forall_impl; [|exact Fw]. intros c [Hc| ->]; [exact (hex_not _ _ H0 Hc)|].
    intros E'; apply Hd; symmetry; exact E'. }
  assert (Hurn : py_replace "urn:" "" w = w)
    by (apply replace_all_fuel_absent, Fnot; [reflexivity|discriminate]).
  assert (Huuid : py_replace "uuid:" "" w = w)
    by (apply replace_all_fuel_absent, Fnot; [reflexivity|discriminate]).
  rewrite Hurn, Huuid.
  unfold py_strip_chars. rewrite strip_by_keep.
  2:{ eapply Forall_impl; [|exact Fw]. intros c [Hc| ->]; [|reflexivity].
      simpl. destruct (Ascii.eqb_spec c "{"%char) as [->|]; [contradiction|].
      destruct (Ascii.eqb_spec c "}"%char) as [->|]; [contradiction|reflexivity]. }
  assert (Hh : py_replace "-" "" w = h).
  { apply string_list_inj. unfold py_replace.
    rewrite replace_all_fuel_char by lia. rewrite Lw, E.
    assert (Fk : forall n m, filter (fun c => negb (Ascii.eqb "-" c)) (firstn m (skipn n l))
                             = firstn m (skipn n l)).
    { intros n m. apply forallb_filter_id, forallb_forall. intros c Hc.
      apply In_firstn_skipn in Hc. pose proof (proj1 (Forall_forall _ _) F c Hc) as Hv.
      destruct (Ascii.eqb_spec "-" c) as [<-|]; [contradiction Hv; reflexivity|reflexivity]. }
    rewrite !filter_app. rewrite <- (skipn_O l) at 1. rewrite !Fk. simpl filter. rewrite skipn_O.
    clear -L. do 32 (destruct l as [|? l]; [discriminate L|]). destruct l; [|discriminate L]. reflexivity. }
  rewrite Hh. replace (String.length h) with 32%nat by (rewrite <- length_list_ascii, E; symmetry; exact L).
  simpl Nat.eqb. cbv iota. unfold h. rewrite hex_to_N_digits. simpl hex_to_N. f_equal.
  rewrite N.mod_small; [reflexivity|]. exact Hu.
Qed.

(** The string form of a 128-bit id that the tools and routes print
    ([str(task.id)], [str(conversation_id)]) is parsed back by
    [uuid.UUID(...)] into the same id. *)
Theorem uuid_str_round_trip (u : N) : (u < 2 ^ 128)%N -> parse_uuid (uuid_str u) = Some u.
Proof. apply parse_uuid_uuid_str. Qed.


Lemma run_tool_owner_step tl su rest u s o s' :
  parse_uuid su = Some u -> run_tool tl (VStr su :: rest) s = (o, s') -> owner_step u s.(tasks) s'.(tasks).
Proof.
  intros Hu H.
  destruct tl; destruct rest as [|a [|b [|c [|d [|e [|f [|g rest]]]]]]]; unfold run_tool in H;
    try (unfold raise in H; injection H as _ <-; apply os_same).
  - eapply add_task_owner_step; eassumption.
  - rewrite (list_tasks_tasks _ _ _ _ _ H). apply os_same.
  - eapply complete_task_owner_step; eassumption.
  - eapply delete_task_owner_step; eassumption.
  - eapply update_task_owner_step; eassumption.
Qed.

Lemma execute_tool_owner_step name args su u s o s' :
  dict_get "user_id" args = Some (VStr su) -> parse_uuid su = Some u ->
  execute_tool name args s = (o, s') -> owner_step u s.(tasks) s'.(tasks).
Proof.
  intros Hg Hu H. unfold execute_tool in H.
  destruct (tool_of_name name) as [tl|]; [|unfold raise in H; injection H as _ <-; apply os_same].
  destruct (filter _ (required_params tl)) as [|m ms]; [|unfold raise in H; injection H as _ <-; apply os_same].
  unfold bind_kwargs in H.
  destruct (dict_mem "session" args); [unfold bind, raise in H; injection H as _ <-; apply os_same|].
  destruct (find _ args) as [[k v]|]; [unfold bind, raise in H; injection H as _ <-; apply os_same|].
  unfold bind, ret in H.
  assert (Hp : exists rest, tool_params tl = "user_id" :: rest) by (destruct tl; eexists; reflexivity).
  destruct Hp as [rest Hp]. rewrite Hp in H. cbn [map] in H. rewrite Hg in H.
  eapply run_tool_owner_step; eassumption.
Qed.

(** The assistant step of a chat turn acting for owner [u] (the reasoning
    call and the tool it selects, with [user_id] forced to [str(u)]) never
    changes, adds or removes a task of any other owner: the tasks of other
    owners are the same list before and after, whatever the model asked for.
    (Task ids are unique in [todo_tasks], its primary key.) *)
Theorem assistant_reply_other_owners_tasks (response : api_response) (u : N) (s : db)
  (o : outcome string) (s' : db) :
  (u < 2 ^ 128)%N -> NoDup (map t_id s.(tasks)) ->
  assistant_reply response u s = (o, s') ->
  tasks_of_others u s'.(tasks) = tasks_of_others u s.(tasks).
Proof.
  intros Hu Hnd H. apply owner_step_others; [exact Hnd|].
  unfold assistant_reply in H. destruct response as [err|content tcs].
  { unfold ret in H; injection H as _ <-; apply os_same. }
  unfold process_openai_response in H. destruct tcs as [|tc rest].
  { destruct content as [c|]; [destruct (str_eqb c "")|]; unfold ret in H; injection H as _ <-;
      apply os_same. }
  destruct tc.(tc_arguments) as [[| | | | |args]|];
    try (unfold raise in H; injection H as _ <-; apply os_same).
  unfold try_except, bind in H.
  destruct (execute_tool tc.(tc_name) (dict_set "user_id" (VStr (uuid_str u)) args) s)
    as [[r|e] s1] eqn:Ex; unfold ret in H; injection H as _ <-;
    (eapply execute_tool_owner_step; [| apply parse_uuid_uuid_str, Hu | exact Ex];
     rewrite dict_get_set, str_eqb_refl; reflexivity).
Qed.

(** *** Validation errors *)

Ltac close_invalid H Hs :=
  first [ discriminate H
        | injection H as <- <-; simpl in Hs; try discriminate Hs; reflexivity ].

Lemma add_task_invalid u t p d g s m s' :
  add_task u t p d g s = (Raise (ValueError m), s') -> starts_with "INVALID_" m = true -> s' = s.
Proof.
  intros H Hs. unfold add_task, py_uuid, check_title, parse_due_date in H.
  unfold_monad. run H; close_invalid H Hs.
Qed.

Lemma list_tasks_invalid u f s m s' :
  list_tasks u f s = (Raise (ValueError m), s') -> starts_with "INVALID_" m = true -> s' = s.
Proof.
  intros H Hs. unfold list_tasks, py_uuid in H. unfold_monad. run H; close_invalid H Hs.
Qed.

Lemma complete_task_invalid u k s m s' :
  complete_task u k s = (Raise (ValueError m), s') -> starts_with "INVALID_" m = true -> s' = s.
Proof.
  intros H Hs. unfold complete_task, py_uuid, lookup_owned, select_task_by_id, commit_task_update,
    reraise_or_database_error in H. unfold_monad. run H; close_invalid H Hs.
Qed.

Lemma delete_task_invalid u k s m s' :
  delete_task u k s = (Raise (ValueError m), s') -> starts_with "INVALID_" m = true -> s' = s.
Proof.
  intros H Hs. unfold delete_task, py_uuid, lookup_owned, select_task_by_id, delete_task_row,
    reraise_or_database_error in H. unfold_monad. run H; close_invalid H Hs.
Qed.

Lemma update_task_invalid u k nt c p d g s m s' :
  update_task u k nt c p d g s = (Raise (ValueError m), s') -> starts_with "INVALID_" m = true ->
  s' = s.
Proof.
  intros H Hs. unfold update_task, update_task_validate, update_task_apply, py_uuid, check_title,
    parse_due_date, lookup_owned, select_task_by_id, commit_task_update,
    reraise_or_database_error in H. unfold_monad. run H; close_invalid H Hs.
Qed.

(** A tool call that fails validation, with an error whose text starts with
    "INVALID_" (a malformed owner or task id, an empty or too long title, a
    priority outside low/medium/high, an unparsable due date, too long tags),
    has read and written nothing: the database, its access log, the clock and
    the id source are exactly as before the call. *)
Theorem execute_tool_invalid_no_effect (name : string) (args : dict) (s : db) (m : string) (s' : db) :
  execute_tool name args s = (Raise (ValueError m), s') -> starts_with "INVALID_" m = true -> s' = s.
Proof.
  intros H Hs. unfold execute_tool in H.
  destruct (tool_of_name name) as [tl|]; [|injection H as <- <-; simpl in Hs; discriminate Hs].
  destruct (filter _ (required_params tl)) as [|p ps]; [|injection H as <- <-; simpl in Hs; discriminate Hs].
  unfold bind_kwargs, bind, ret, raise in H.
  destruct (dict_mem "session" args); [discriminate H|].
  destruct (find _ args) as [[k v]|]; [discriminate H|].
  set (vs := map _ (tool_params tl)) in H. clearbody vs.
  destruct tl; destruct vs as [|a [|b [|c [|d [|e [|f [|g [|h vs]]]]]]]]; unfold run_tool in H;
    try discriminate H.
  - exact (add_task_invalid _ _ _ _ _ _ _ _ H Hs).
  - exact (list_tasks_invalid _ _ _ _ _ H Hs).
  - exact (complete_task_invalid _ _ _ _ _ H Hs).
  - exact (delete_task_invalid _ _ _ _ _ H Hs).
  - exact (update_task_invalid _ _ _ _ _ _ _ _ _ _ H Hs).
Qed.

(** *** A successful [add_task] *)

Lemma in_valid_priorities_In x : in_valid_priorities (VStr x) = true -> In x valid_priorities.
Proof.
  unfold in_valid_priorities. intros H. apply existsb_exists in H as [y [Hy Hq]].
  apply str_eqb_eq in Hq. subst. exact Hy.
Qed.

(** [add_task] that succeeds has appended exactly one task to the store: a
    new task of the caller, not completed, under the id drawn for it, with
    the title stripped (non-blank, at most 500 characters), a priority among
    low, medium and high, and the tags as given; its reply names that id and
    says "created". *)
Theorem add_task_appends_one_task (su : string) (u : N) (title p d g : value) (s : db) (r : dict)
  (s' : db) :
  parse_uuid su = Some u -> add_task (VStr su) title p d g s = (Ok r, s') ->
  exists t x,
    s'.(tasks) = s.(tasks) ++ [t]
    /\ t.(t_id) = s.(rng) s.(draws) /\ t.(t_user_id) = u /\ t.(t_completed) = false
    /\ title = VStr x /\ t.(t_title) = py_strip x /\ is_blank x = false
    /\ (String.length t.(t_title) <= 500)%nat
    /\ In t.(t_priority) valid_priorities
    /\ ((g = VNull /\ t.(t_tags) = None) \/ (exists y, g = VStr y /\ t.(t_tags) = Some y))
    /\ dict_get "task_id" r = Some (VStr (uuid_str t.(t_id)))
    /\ dict_get "status" r = Some (VStr "created").
Proof.
  intros Hu H. unfold add_task, py_uuid, check_title, parse_due_date in H. rewrite Hu in H.
  unfold_monad. run H; try discriminate H; injection H as <- <-; simpl;
    (eexists; eexists; split; [reflexivity|]); repeat split; simpl; try reflexivity;
    try assumption; try (left; split; reflexivity); try (right; eexists; split; reflexivity);
    try (apply Nat.ltb_ge; assumption).
  all: try (right; left; reflexivity).
  all: match goal with
       | E : truthy (VStr ?x) && negb (in_valid_priorities (VStr ?x)) = false,
         E' : negb (str_eqb ?x "") = true |- _ =>
           apply (in_valid_priorities_In x); simpl in E; rewrite E' in E;
           apply negb_false_iff in E; exact E
       end.
Qed.

(** *** A successful [delete_task] and [list_tasks] *)

Lemma find_remove_task tid ts : find_task tid (remove_task tid ts) = None.
Proof.
  induction ts as [|t ts IH]; simpl; [reflexivity|].
  destruct (N.eqb (t_id t) tid) eqn:E; simpl; [exact IH|]. rewrite E. exact IH.
Qed.

(** [delete_task] that succeeds removed a task of the caller found under the
    given id: the store is the old one without the rows of that id, a lookup
    of the id afterwards finds nothing, and the reply carries the title of
    the deleted task and the status "deleted". *)
Theorem delete_task_removes (su st : string) (u tid : N) (s : db) (r : dict) (s' : db) :
  parse_uuid su = Some u -> parse_uuid st = Some tid ->
  delete_task (VStr su) (VStr st) s = (Ok r, s') ->
  exists t, find_task tid s.(tasks) = Some t /\ t.(t_user_id) = u
    /\ s'.(tasks) = remove_task tid s.(tasks) /\ find_task tid s'.(tasks) = None
    /\ dict_get "title" r = Some (VStr t.(t_title))
    /\ dict_get "status" r = Some (VStr "deleted").
Proof.
  intros Hu Ht H. unfold delete_task, py_uuid, lookup_owned, select_task_by_id, delete_task_row,
    reraise_or_database_error in H. rewrite Hu, Ht in H. unfold_monad. run H; try discriminate H.
  injection H as <- <-. simpl.
  match goal with E : find_task tid _ = Some ?t |- _ =>
    exists t; pose proof (find_task_id _ _ _ E) as Hid end.
  rewrite Hid. repeat split; try assumption; try reflexivity.
  - apply N.eqb_eq. apply negb_false_iff. assumption.
  - apply find_remove_task.
Qed.

(** [list_tasks] that succeeds lists exactly the caller's tasks whose
    completion matches [filter_completed] (all of them when it is [None]),
    each as often as the store holds it, in some order (the rows are a
    permutation of the matching tasks; no order is claimed), gives their
    number as the count, and leaves the tasks of the store as they were. *)
Theorem list_tasks_lists_own_tasks (su : string) (u : N) (fc : value) (s : db) (r : dict)
  (s' : db) :
  parse_uuid su = Some u -> list_tasks (VStr su) fc s = (Ok r, s') ->
  exists rows,
    Permutation rows
      (filter (fun t => N.eqb t.(t_user_id) u
                        && match fc with VBool b => Bool.eqb t.(t_completed) b | _ => true end)
              s.(tasks))
    /\ (forall t, In t rows <-> In t s.(tasks) /\ t.(t_user_id) = u
                               /\ match fc with VBool b => t.(t_completed) = b | _ => True end)
    /\ dict_get "tasks" r = Some (VList (map task_list_item rows))
    /\ dict_get "count" r = Some (VNum (Z.of_nat (length rows)))
    /\ s'.(tasks) = s.(tasks).
Proof.
  intros Hu H. pose proof (list_tasks_tasks _ _ _ _ _ H) as Hts.
  unfold list_tasks, py_uuid in H. rewrite Hu in H. unfold_monad. run H; try discriminate H;
    injection H as <- <-; (eexists; split; [apply Permutation_refl|]); simpl; (split; [|auto]);
    intros t; rewrite filter_In, andb_true_iff, N.eqb_eq; try rewrite Bool.eqb_true_iff;
    rewrite ?andb_true_r; tauto.
Qed.

(** [list_tasks] with a [filter_completed] that is neither [None] nor a
    boolean fails with a [ValueError] whose text starts with
    "DATABASE_ERROR: " (the error of the driver or the database, whatever
    its text, is caught by the tool's [except Exception]) and leaves the
    store's tasks unchanged. *)
Theorem list_tasks_bad_filter (su : string) (u : N) (fc : value) (s : db) :
  parse_uuid su = Some u -> (forall b, fc <> VBool b) -> fc <> VNull ->
  exists msg s', list_tasks (VStr su) fc s = (Raise (ValueError ("DATABASE_ERROR: " ^^ msg)), s')
    /\ s'.(tasks) = s.(tasks).
Proof.
  intros Hu Hb Hn. unfold list_tasks, py_uuid. rewrite Hu. unfold_monad.
  destruct fc; simpl; try (exfalso; first [exact (Hn eq_refl) | eapply Hb; reflexivity]);
    do 2 eexists; split; reflexivity.
Qed.

(** *** Tool calls the orchestrator cannot run *)

Lemma dict_mem_delete_other k p a : p <> k -> dict_mem p (dict_delete k a) = dict_mem p a.
Proof. intros Hp. rewrite !dict_mem_get, dict_get_delete_other by exact Hp. reflexivity. Qed.

Lemma missing_after_forcing tl d v :
  filter (fun p => negb (dict_mem p (dict_set "user_id" v d))) (required_params tl)
  = filter (fun p => negb (str_eqb p "user_id") && negb (dict_mem p d)) (required_params tl).
Proof.
  apply filter_ext. intros p. rewrite dict_mem_set.
  destruct (str_eqb p "user_id") eqn:E; [reflexivity|]. simpl.
  rewrite dict_mem_delete_other; [reflexivity|].
  intros ->. rewrite str_eqb_refl in E. discriminate E.
Qed.

(** A first tool call whose name is none of the five tools is answered with
    "Sorry, I encountered an error: Unknown tool: <name>" and touches
    nothing. *)
Theorem assistant_reply_unknown_tool (content : option string) (name : string)
  (d : dict) (rest : list tool_call) (u : N) (s : db) :
  tool_of_name name = None ->
  assistant_reply (ApiMessage content (mk_tool_call name (Some (VObj d)) :: rest)) u s
  = (Ok ("Sorry, I encountered an error: Unknown tool: " ^^ name), s).
Proof.
  intros Hn. simpl. unfold execute_tool. rewrite Hn. reflexivity.
Qed.

(** A first tool call that lacks required arguments is answered with
    "Sorry, I encountered an error: Missing required parameters: [...]"
    listing the missing ones in the tool's order, never [user_id] (the
    orchestrator always supplies it), and touches nothing. *)
Theorem assistant_reply_missing_params (content : option string) (name : string) (tl : tool)
  (d : dict) (rest : list tool_call) (u : N) (s : db) :
  tool_of_name name = Some tl ->
  filter (fun p => negb (str_eqb p "user_id") && negb (dict_mem p d)) (required_params tl) <> [] ->
  assistant_reply (ApiMessage content (mk_tool_call name (Some (VObj d)) :: rest)) u s
  = (Ok ("Sorry, I encountered an error: Missing required parameters: "
         ^^ py_str_list_repr
              (filter (fun p => negb (str_eqb p "user_id") && negb (dict_mem p d))
                      (required_params tl))), s).
Proof.
  intros Hn Hm. simpl. unfold execute_tool. rewrite Hn, missing_after_forcing.
  destruct (filter _ (required_params tl)) as [|p l]; [contradiction Hm; reflexivity|].
  reflexivity.
Qed.

(** Whatever the reasoning call answered, producing the assistant message
    (running a tool included) never changes the conversations or the
    messages. *)
Theorem assistant_reply_keeps_conversations (response : api_response) (u : N) (s : db)
  (o : outcome string) (s' : db) :
  assistant_reply response u s = (o, s') ->
  s'.(conversations) = s.(conversations) /\ s'.(messages) = s.(messages).
Proof.
  intros H. split.
  - exact (frame_apply conversations _ _ _ _ ltac:(apply frame_assistant_reply; intros; reflexivity) H).
  - exact (frame_apply messages _ _ _ _ ltac:(apply frame_assistant_reply; intros; reflexivity) H).
Qed.

(** *** Conversations *)

(** The conversation [create_conversation] returns can be read back at once
    by its owner. *)
Theorem create_conversation_history (u : N) (s : db) (c : N) (s1 : db) :
  create_conversation u s = (Ok c, s1) ->
  exists h s2, get_conversation_history c u s1 = (Ok (Some h), s2).
Proof.
  intros H. destruct (create_conversation_ok _ _ _ _ H) as [Hown _].
  rewrite (get_conversation_history_owned _ _ _ Hown). do 2 eexists. reflexivity.
Qed.

(** A chat request with a non-empty conversation id that is not 32
    characters long once [UUID] has dropped its prefixes, braces and
    hyphens fails with [ValueError('badly formed hexadecimal UUID string')]
    (a 500) after a rollback, having written nothing: the only trace is the
    rollback. *)
Theorem chat_endpoint_malformed_conversation_id (msg cs : string) (u : N) (s : db) :
  (1 <= String.length msg <= 10000)%nat -> str_eqb cs "" = false ->
  String.length (uuid_hex cs) <> 32%nat ->
  chat_endpoint msg (Some cs) u s
  = (Raise (ValueError "badly formed hexadecimal UUID string"), add_log Rollback s).
Proof.
  intros [H1 H2] He Hl.
  assert (Hp : parse_uuid cs = None)
    by (unfold parse_uuid; apply Nat.eqb_neq in Hl; rewrite Hl; reflexivity).
  unfold chat_endpoint.
  replace (String.length msg <? 1)%nat with false by (symmetry; apply Nat.ltb_ge; exact H1).
  replace (10000 <? String.length msg)%nat with false by (symmetry; apply Nat.ltb_ge; exact H2).
  unfold chat, try_except. unfold bind at 1. rewrite He, Hp. reflexivity.
Qed.

(** A chat turn without a conversation id (or with an empty one) that
    succeeds has added exactly one conversation, owned by the caller, under
    the id drawn for it, and answers with that id. *)
Theorem chat_endpoint_new_conversation (msg : string) (req : option string) (u : N) (s : db)
  (r : chat_response) (s' : db) :
  (req = None \/ req = Some "") -> chat_endpoint msg req u s = (Ok r, s') ->
  exists cv, s'.(conversations) = s.(conversations) ++ [cv]
    /\ cv.(c_id) = s.(rng) s.(draws) /\ cv.(c_user_id) = u
    /\ r.(r_conversation_id) = uuid_str cv.(c_id).
Proof.
  intros Hreq H. unfold chat_endpoint in H.
  destruct (String.length msg <? 1)%nat; [discriminate H|].
  destruct (10000 <? String.length msg)%nat; [discriminate H|].
  unfold try_except in H.
  destruct (chat msg req u s) as [[r0|e] s0] eqn:E;
    [injection H as -> ->|unfold_monad; discriminate H].
  unfold chat in E.
  apply bind_ok_inv in E as [c [s1 [Hc E]]].
  assert (Hc' : create_conversation u s = (Ok c, s1)) by (destruct Hreq as [->| ->]; exact Hc).
  clear Hc. unfold create_conversation in Hc'. unfold_monad. simpl in Hc'.
  injection Hc' as <- <-.
  apply bind_ok_inv in E as [ar [s2 [Hp E]]].
  apply bind_ok_inv in E as [fh [s3 [Hg E]]]. injection E as <- <-.
  destruct (process_message_ok _ _ _ _ _ _ Hp)
    as [hist [s_ctx [s_mid [um [am [_ [_ [_ [_ [_ [_ [Hconv _]]]]]]]]]]]].
  pose proof (frame_apply conversations _ _ _ _
                ltac:(apply frame_get_conversation_history; intros; reflexivity) Hg) as Hg'.
  eexists. split; [|split; [|split]]; [simpl; rewrite Hg', Hconv; reflexivity|reflexivity..].
Qed.

(** *** REST task routes *)

(** [POST /api/v1/tasks] that succeeds has stored one task, as sent: the
    caller owns it, it is not completed, its title is kept verbatim and its
    priority too, whatever it is (no check against low, medium and high),
    an empty priority becoming "medium"; the route answers with the stored
    row. *)
Theorem rest_create_task_stores (d : task_create) (u : N) (s : db) (t : task) (s' : db) :
  rest_create_task d u s = (Ok t, s') ->
  s'.(tasks) = s.(tasks) ++ [t]
  /\ t.(t_id) = s.(rng) s.(draws) /\ t.(t_user_id) = u /\ t.(t_completed) = false
  /\ t.(t_title) = d.(n_title)
  /\ t.(t_priority) = (if str_eqb d.(n_priority) "" then "medium" else d.(n_priority))
  /\ t.(t_due_date) = d.(n_due_date) /\ t.(t_tags) = d.(n_tags).
Proof.
  intros H. unfold rest_create_task, insert_task in H.
  destruct (negb (task_create_valid d)); [discriminate H|].
  unfold_monad. simpl in H.
  match type of H with
  | context [check_task_insert ?x] => destruct (check_task_insert x)
  end; [discriminate H|].
  injection H as <- <-. simpl. repeat split.
Qed.


(** [DELETE /api/v1/tasks/{task_id}] that succeeds removed a task of the
    caller found under that id, and nothing else. *)
Theorem rest_delete_task_removes (tid u : N) (s : db) (v : unit) (s' : db) :
  rest_delete_task tid u s = (Ok v, s') ->
  exists t, find_task tid s.(tasks) = Some t /\ t.(t_user_id) = u
    /\ s'.(tasks) = remove_task tid s.(tasks).
Proof.
  intros H. unfold rest_delete_task, select_task_by_id, delete_task_row in H. unfold_monad.
  run H; try discriminate H. injection H as _ <-. simpl.
  match goal with E : find_task tid _ = Some ?t |- _ =>
    exists t; pose proof (find_task_id _ _ _ E) as Hid end.
  rewrite Hid. repeat split; try assumption.
  apply N.eqb_eq. apply negb_false_iff. assumption.
Qed.

(** [GET /api/v1/tasks], for any ordering of the rows that returns them all:
    the listed tasks are exactly the caller's tasks matching the
    [completed] filter, [count] is their number, and the tasks are left as
    they were. *)
Theorem rest_list_tasks_rows (fc : option bool) (u : N) (s : db) (rows : list task) (n : nat)
  (s' : db) :
  (forall l, Permutation (order_by_created_at_desc l) l) ->
  rest_list_tasks fc u s = (Ok (rows, n), s') ->
  n = length rows
  /\ (forall t, In t rows <-> In t s.(tasks) /\ t.(t_user_id) = u
                             /\ match fc with Some b => t.(t_completed) = b | None => True end)
  /\ s'.(tasks) = s.(tasks).
Proof.
  intros Hperm H. unfold rest_list_tasks in H. unfold_monad. simpl in H.
  injection H as <- <- <-. split; [reflexivity|split; [|reflexivity]].
  intros t. split.
  - intros Hin. apply (Permutation_in _ (Hperm _)) in Hin.
    apply filter_In in Hin as [Hin Hb]. apply andb_true_iff in Hb as [Hu Hc].
    apply N.eqb_eq in Hu. split; [exact Hin|split; [exact Hu|]].
    destruct fc; [apply Bool.eqb_prop; exact Hc|exact I].
  - intros [Hin [Hu Hc]]. apply (Permutation_in _ (Permutation_sym (Hperm _))).
    apply filter_In. split; [exact Hin|]. apply andb_true_iff. split; [apply N.eqb_eq; exact Hu|].
    destruct fc; [subst; apply eqb_reflx|reflexivity].
Qed.

(** *** Replies of a turn *)

Lemma dict_get_forced_other p v d : p <> "user_id" -> dict_get p (dict_set "user_id" v d) = dict_get p d.
Proof.
  intros Hp. rewrite dict_get_set, (str_eqb_neq _ _ Hp), dict_get_delete_other by exact Hp.
  reflexivity.
Qed.

(** A first tool call to [add_task] that changed the tasks is answered with
    "I've added the task '<title>' to your todo list.", the title being the
    one the model gave, stripped. *)
Theorem assistant_reply_add_task (content : option string) (d : dict) (rest : list tool_call)
  (u : N) (s : db) (m : string) (s' : db) :
  assistant_reply (ApiMessage content (mk_tool_call "add_task" (Some (VObj d)) :: rest)) u s
    = (Ok m, s') ->
  s'.(tasks) <> s.(tasks) ->
  exists x, dict_get "title" d = Some (VStr x)
    /\ m = "I've added the task '" ^^ py_strip x ^^ "' to your todo list.".
Proof.
  intros H Hne. simpl in H.
  unfold execute_tool, bind_kwargs, run_tool, add_task, py_uuid, check_title, parse_due_date in H.
  unfold_monad. run H; injection H as <- <-; simpl in Hne; try (contradiction Hne; reflexivity).
  all: match goal with
       | E : match dict_get "title" (dict_set _ _ ?dd) with Some v => v | None => VNull end = VStr ?x
         |- _ =>
           exists x; rewrite dict_get_forced_other in E by discriminate;
           destruct (dict_get "title" dd); [subst; split; reflexivity|discriminate E]
       end.
Qed.

Lemma find_all_false {A} (f : A -> bool) l : (forall x, In x l -> f x = false) -> find f l = None.
Proof.
  induction l as [|x l IH]; simpl; intros H; [reflexivity|].
  rewrite (H x (or_introl eq_refl)). apply IH. intros y Hy. apply H. right. exact Hy.
Qed.

Lemma filter_all_false {A} (f : A -> bool) l : (forall x, In x l -> f x = false) -> filter f l = [].
Proof.
  induction l as [|x l IH]; simpl; intros H; [reflexivity|].
  rewrite (H x (or_introl eq_refl)). apply IH. intros y Hy. apply H. right. exact Hy.
Qed.

(** A first tool call to [list_tasks] whose arguments are among [user_id]
    and [filter_completed] (a boolean or null) is answered with "You don't
    have any tasks yet. You can ask me to add one!" whenever the caller owns
    no task, whatever the other owners have. *)
Theorem assistant_reply_list_no_tasks (content : option string) (d : dict) (rest : list tool_call)
  (u : N) (s : db) :
  (u < 2 ^ 128)%N -> (forall t, In t s.(tasks) -> t.(t_user_id) <> u) ->
  (forall kv, In kv d -> fst kv = "user_id" \/ fst kv = "filter_completed") ->
  match dict_get "filter_completed" d with None | Some VNull | Some (VBool _) => True | _ => False end ->
  exists s', assistant_reply (ApiMessage content (mk_tool_call "list_tasks" (Some (VObj d)) :: rest)) u s
             = (Ok "You don't have any tasks yet. You can ask me to add one!", s').
Proof.
  intros Hu Hown Hkeys Hf. simpl. unfold execute_tool.
  change (tool_of_name "list_tasks") with (Some TListTasks). cbv iota.
  rewrite missing_after_forcing. simpl filter. cbv iota.
  unfold bind_kwargs. rewrite dict_mem_set. simpl str_eqb. cbv iota.
  rewrite dict_mem_delete_other by discriminate.
  replace (dict_mem "session" d) with false.
  2:{ symmetry. apply not_true_iff_false. unfold dict_mem. intros Hs.
      apply existsb_exists in Hs as [kv [Hin Hk]]. apply str_eqb_eq in Hk.
      destruct (Hkeys kv Hin) as [E|E]; rewrite E in Hk; discriminate Hk. }
  rewrite find_set by reflexivity.
  rewrite (find_all_false _ (dict_delete "user_id" d)).
  2:{ intros kv Hin. unfold dict_delete in Hin. apply filter_In in Hin as [Hin _].
      destruct (Hkeys kv Hin) as [E|E]; simpl; rewrite E; reflexivity. }
  cbv iota. cbn [tool_params map].
  rewrite dict_get_set, str_eqb_refl, dict_get_forced_other by discriminate.
  unfold run_tool, list_tasks, py_uuid.
  pose proof (parse_uuid_uuid_str u Hu) as Hp. remember (uuid_str u) as us eqn:Hus. clear Hus.
  destruct (dict_get "filter_completed" d) as [[| |b| | |]|]; try contradiction;
    unfold_monad; simpl; rewrite Hp; simpl;
    rewrite filter_all_false by (intros t Ht; apply andb_false_iff; left;
                                  apply N.eqb_neq, Hown, Ht);
    eexists; reflexivity.
Qed.

(** *** Owners of tasks under the REST routes *)

Lemma rest_create_task_owner_step d u s o s' :
  rest_create_task d u s = (o, s') -> owner_step u s.(tasks) s'.(tasks).
Proof.
  intros H. unfold rest_create_task, insert_task in H. unfold_monad.
  run H; injection H as _ <-; simpl; first [apply os_same | apply os_insert; reflexivity].
Qed.

Lemma rest_update_task_owner_step tid upd u s o s' :
  rest_update_task tid upd u s = (o, s') -> owner_step u s.(tasks) s'.(tasks).
Proof.
  intros H. unfold rest_update_task, select_task_by_id, commit_task_update in H. unfold_monad.
  run H; injection H as _ <-; simpl; close_owner_step.
Qed.

Lemma rest_delete_task_owner_step tid u s o s' :
  rest_delete_task tid u s = (o, s') -> owner_step u s.(tasks) s'.(tasks).
Proof.
  intros H. unfold rest_delete_task, select_task_by_id, delete_task_row in H. unfold_monad.
  run H; injection H as _ <-; simpl; close_owner_step.
Qed.

(** The create, update and delete routes, whatever they answer, leave the
    tasks of every owner other than the authenticated user as they were (ids
    being the table's primary key); listing changes no task at all. *)
Theorem rest_routes_other_owners_tasks (u : N) (s : db) :
  NoDup (map t_id s.(tasks)) ->
  (forall d o s', rest_create_task d u s = (o, s') ->
                  tasks_of_others u s'.(tasks) = tasks_of_others u s.(tasks))
  /\ (forall tid upd o s', rest_update_task tid upd u s = (o, s') ->
                           tasks_of_others u s'.(tasks) = tasks_of_others u s.(tasks))
  /\ (forall tid o s', rest_delete_task tid u s = (o, s') ->
                       tasks_of_others u s'.(tasks) = tasks_of_others u s.(tasks))
  /\ (forall fc o s', rest_list_tasks fc u s = (o, s') -> s'.(tasks) = s.(tasks)).
Proof.
  intros Hnd. split; [|split; [|split]].
  - intros d o s' H. exact (owner_step_others _ _ _ Hnd (rest_create_task_owner_step _ _ _ _ _ H)).
  - intros tid upd o s' H.
    exact (owner_step_others _ _ _ Hnd (rest_update_task_owner_step _ _ _ _ _ _ H)).
  - intros tid o s' H. exact (owner_step_others _ _ _ Hnd (rest_delete_task_owner_step _ _ _ _ _ H)).
  - intros fc o s' H. unfold rest_list_tasks in H. unfold_monad. simpl in H.
    injection H as _ <-. reflexivity.
Qed.

Lemma forced_user_id v d :
  match dict_get "user_id" (dict_set "user_id" v d) with Some w => w | None => VNull end = v.
Proof. rewrite dict_get_set, str_eqb_refl. reflexivity. Qed.

(** A first tool call to [delete_task] that changed the tasks deleted a task
    of the caller, and only it, and is answered with "I've deleted the task
    '<title>'." carrying that task's stored title. *)
Theorem assistant_reply_delete_task (content : option string) (d : dict) (rest : list tool_call)
  (u : N) (s : db) (m : string) (s' : db) :
  (u < 2 ^ 128)%N ->
  assistant_reply (ApiMessage content (mk_tool_call "delete_task" (Some (VObj d)) :: rest)) u s
    = (Ok m, s') ->
  s'.(tasks) <> s.(tasks) ->
  exists t, find_task t.(t_id) s.(tasks) = Some t /\ t.(t_user_id) = u
    /\ s'.(tasks) = remove_task t.(t_id) s.(tasks)
    /\ m = "I've deleted the task '" ^^ t.(t_title) ^^ "'.".
Proof.
  intros Hu H Hne. simpl in H.
  unfold execute_tool, bind_kwargs, run_tool, delete_task, py_uuid, lookup_owned,
    select_task_by_id, delete_task_row, reraise_or_database_error in H.
  unfold_monad. run H; injection H as <- <-; simpl in Hne; try (contradiction Hne; reflexivity).
  rewrite forced_user_id in E2. injection E2 as <-.
  rewrite (parse_uuid_uuid_str u Hu) in E3. injection E3 as <-.
  apply negb_false_iff, N.eqb_eq in E7.
  pose proof (find_task_id _ _ _ E6) as Hid.
  exists t. rewrite Hid. split; [exact E6|split; [exact E7|split; reflexivity]].
Qed.

(** A turn in which the model calls a tool with arguments that are not JSON
    fails with [json.loads]'s [ValueError] (a 500) after a rollback: no tool
    ran and no message was stored, though the new conversation was. *)
Theorem chat_endpoint_malformed_tool_arguments (msg : string) (u : N) (s : db)
  (c0 : option string) (name : string) (rest : list tool_call) :
  (1 <= String.length msg <= 10000)%nat ->
  (forall p, reasoning p = ApiMessage c0 (mk_tool_call name None :: rest)) ->
  exists s', chat_endpoint msg None u s
             = (Raise (ValueError "Expecting value: line 1 column 1 (char 0)"), s')
    /\ s'.(messages) = s.(messages) /\ s'.(tasks) = s.(tasks).
Proof.
  intros [H1 H2] Hr. unfold chat_endpoint.
  replace (String.length msg <? 1)%nat with false by (symmetry; apply Nat.ltb_ge; exact H1).
  replace (10000 <? String.length msg)%nat with false by (symmetry; apply Nat.ltb_ge; exact H2).
  destruct (create_conversation_total u s) as [c [s1 Hc]].
  destruct (create_conversation_ok _ _ _ _ Hc) as [Hown Hm].
  assert (Ht : s1.(tasks) = s.(tasks)).
  { unfold create_conversation in Hc. unfold_monad. simpl in Hc. injection Hc as _ <-. reflexivity. }
  assert (Hp : process_message msg u (Some c) s1
               = (Raise (ValueError "Expecting value: line 1 column 1 (char 0)"),
                  add_log (Select "todo_messages") (add_log (Select "todo_conversations") s1))).
  { unfold process_message. erewrite bind_ok by (apply load_history_owned; exact Hown).
    cbv beta iota zeta. rewrite Hr. reflexivity. }
  assert (Hch : chat msg None u s
                = (Raise (ValueError "Expecting value: line 1 column 1 (char 0)"),
                   add_log (Select "todo_messages") (add_log (Select "todo_conversations") s1))).
  { unfold chat. erewrite bind_ok by exact Hc. apply bind_raise. exact Hp. }
  unfold try_except. rewrite Hch. eexists. split; [reflexivity|]. simpl. split; assumption.
Qed.

(** A listed task with the default priority (or none), no due date and no
    tags is shown by [_format_task_for_display] on two lines: its number
    (from 1), its completion mark and title, then its full id; no details
    line follows. *)
Theorem format_listed_task_plain (i : nat) (t : task) :
  (str_eqb t.(t_priority) "medium" || str_eqb t.(t_priority) "") = true ->
  t.(t_due_date) = None ->
  match t.(t_tags) with None => True | Some g => g = "" end ->
  format_task_for_display i (task_list_item t)
  = nat_str (S i) ^^ ". " ^^ (if t.(t_completed) then "✓" else "○") ^^ " " ^^ t.(t_title)
    ^^ nl ^^ "   (ID: " ^^ uuid_str t.(t_id) ^^ ")".
Proof.
  intros Hp Hd Hg. unfold format_task_for_display, task_list_item. cbn [obj_get dict_get].
  simpl str_eqb. cbv iota. cbn [get_or truthy value_is]. rewrite Hd.
  replace (negb (str_eqb (t_priority t) "") && negb (str_eqb (t_priority t) "medium")) with false
    by (destruct (str_eqb (t_priority t) "medium"), (str_eqb (t_priority t) "");
        first [reflexivity | discriminate Hp]).
  destruct (t_tags t) as [g|]; [subst g|]; reflexivity.
Qed.

End Backend.

(** ** Witnesses and counterexamples *)

(** C1 on one call: the model names owner B in the arguments of
    [complete_task]; the turn of owner A runs exactly as if it had named no
    owner. *)
Lemma tool_call_owner_is_caller_witness :
  dict_delete "user_id" [("user_id", VStr (uuid_str owner_b)); ("task_id", VStr (uuid_str task_a))]
  = dict_delete "user_id" [("task_id", VStr (uuid_str task_a))]
  /\ (dict_get "user_id" (dict_set "user_id" (VStr (uuid_str owner_a))
        [("user_id", VStr (uuid_str owner_b)); ("task_id", VStr (uuid_str task_a))])
      = Some (VStr (uuid_str owner_a))
      /\ process_openai_response sample_fromisoformat sample_isoformat None
           [mk_tool_call "complete_task"
              (Some (VObj [("user_id", VStr (uuid_str owner_b)); ("task_id", VStr (uuid_str task_a))]))]
           owner_a
         = process_openai_response sample_fromisoformat sample_isoformat None
             [mk_tool_call "complete_task" (Some (VObj [("task_id", VStr (uuid_str task_a))]))]
             owner_a).
Proof.
  split; [vm_compute; reflexivity|].
  apply (tool_call_owner_is_caller sample_fromisoformat sample_isoformat).
  vm_compute; reflexivity.
Defined.


(** C6 on the sample store: owner A completes the task "Buy milk" twice. *)
Lemma complete_task_twice_witness :
  parse_uuid (uuid_str owner_a) = Some owner_a /\ parse_uuid (uuid_str task_a) = Some task_a
  /\ exists r1 s1 r2 s2 t1 t2,
    complete_task sample_isoformat (VStr (uuid_str owner_a)) (VStr (uuid_str task_a)) sample_db
      = (Ok r1, s1)
    /\ complete_task sample_isoformat (VStr (uuid_str owner_a)) (VStr (uuid_str task_a)) s1
      = (Ok r2, s2)
    /\ dict_get "status" r1 = Some (VStr "completed") /\ dict_get "completed" r1 = Some (VBool true)
    /\ dict_get "status" r2 = Some (VStr "completed") /\ dict_get "completed" r2 = Some (VBool true)
    /\ find_task task_a s1.(tasks) = Some t1 /\ t1.(t_completed) = true
    /\ find_task task_a s2.(tasks) = Some t2 /\ t2.(t_completed) = true
    /\ t2 = set_updated_at t1 t2.(t_updated_at).
Proof.
  split; [vm_compute; reflexivity|]. split; [vm_compute; reflexivity|].
  apply (complete_task_twice sample_isoformat _ _ owner_a task_a milk);
    vm_compute; reflexivity.
Defined.


(** C10 on the sample store: owner B names owner A's conversation. *)
Lemma chat_conversation_not_found_witness :
  chat_endpoint sample_fromisoformat sample_isoformat (fun l => l) (fun _ => ApiMessage None [])
    "hi" (Some (uuid_str conv_a)) owner_b sample_db
  = (Raise conversation_not_found,
     add_log Rollback (add_log (Select "todo_conversations") sample_db))
  /\ http_status (fst (chat_endpoint sample_fromisoformat sample_isoformat (fun l => l)
                         (fun _ => ApiMessage None []) "hi" (Some (uuid_str conv_a)) owner_b sample_db))
     = 404%Z
  /\ (snd (chat_endpoint sample_fromisoformat sample_isoformat (fun l => l)
             (fun _ => ApiMessage None []) "hi" (Some (uuid_str conv_a)) owner_b sample_db)).(messages)
     = sample_db.(messages).
Proof.
  apply (chat_conversation_not_found sample_fromisoformat sample_isoformat (fun l => l)
           (fun _ => ApiMessage None []) "hi" (uuid_str conv_a) conv_a owner_b sample_db).
  - split; apply Nat.leb_le; reflexivity.
  - vm_compute; reflexivity.
  - intros cv [<-|[]] _; discriminate.
Defined.


(** C2 on the sample store: owner B asks to complete owner A's task, then a
    task id that does not exist. *)
Lemma cross_owner_task_not_found_witness :
  complete_task sample_isoformat (VStr (uuid_str owner_b)) (VStr (uuid_str task_a)) sample_db
    = (Raise (ValueError task_not_found_owner), add_log (Select "todo_tasks") sample_db)
  /\ http_status (fst (rest_delete_task task_a owner_b sample_db)) = 403%Z
  /\ http_status (fst (rest_delete_task absent_task owner_b sample_db)) = 404%Z.
Proof.
  destruct (cross_owner_task_not_found sample_fromisoformat sample_isoformat
              (uuid_str owner_b) (uuid_str task_a) (uuid_str absent_task)
              owner_a owner_b task_a absent_task milk sample_db)
    as [H1 [_ [_ [_ [_ [_ [_ [_ [H9 H10]]]]]]]]];
    try (vm_compute; reflexivity); try discriminate.
  split; [exact H1|]. split; [exact H9|exact H10].
Defined.

(** C2 fails as stated: the failure for another owner's task is told apart
    from the failure for an absent id, by the tool's message and by the REST
    status. *)
Lemma cross_owner_task_distinguishable :
  fst (complete_task sample_isoformat (VStr (uuid_str owner_b)) (VStr (uuid_str task_a)) sample_db)
  <> fst (complete_task sample_isoformat (VStr (uuid_str owner_b)) (VStr (uuid_str absent_task))
            sample_db)
  /\ http_status (fst (rest_update_task task_a (mk_task_update None None None None None) owner_b
                         sample_db)) = 403%Z
  /\ http_status (fst (rest_update_task absent_task (mk_task_update None None None None None) owner_b
                         sample_db)) = 404%Z.
Proof.
  split; [vm_compute; discriminate|]. split; vm_compute; reflexivity.
Qed.


(** C7 on the sample store: owner A renames "Buy milk" and completes it in one
    patch (sending [completed] as the integer 1, which the [Boolean] column
    stores as true); the priority the patch leaves out stays "medium". *)
Lemma update_task_applies_patch_witness :
  exists t',
    find_task task_a
      (snd (update_task sample_fromisoformat sample_isoformat (VStr (uuid_str owner_a))
              (VStr (uuid_str task_a)) (VStr " Buy oat milk ") (VNum 1) VNull VNull VNull
              sample_db)).(tasks) = Some t'
    /\ t'.(t_title) = "Buy oat milk" /\ t'.(t_completed) = true
    /\ t'.(t_priority) = "medium" /\ t'.(t_updated_at) = 0%Z.
Proof.
  destruct (update_task_applies_patch sample_fromisoformat sample_isoformat
              (uuid_str owner_a) (uuid_str task_a) owner_a task_a milk sample_db
              (VStr " Buy oat milk ") (VNum 1) VNull VNull VNull
              (match fst (update_task sample_fromisoformat sample_isoformat (VStr (uuid_str owner_a))
                            (VStr (uuid_str task_a)) (VStr " Buy oat milk ") (VNum 1) VNull
                            VNull VNull sample_db) with Ok r => r | Raise _ => [] end)
              (snd (update_task sample_fromisoformat sample_isoformat (VStr (uuid_str owner_a))
                      (VStr (uuid_str task_a)) (VStr " Buy oat milk ") (VNum 1) VNull VNull
                      VNull sample_db)))
    as [t' [H1 [H2 [H3 [H4 [_ [_ [_ [_ [_ [H10 _]]]]]]]]]]];
    try (vm_compute; reflexivity).
  exists t'; repeat split; [exact H1 | rewrite H2 | rewrite H3 | rewrite H4 | rewrite H10];
    vm_compute; reflexivity.
Defined.


(** C8 on the sample store: the message is appended, and the next history
    read returns it. *)
Lemma save_message_history_round_trip_witness :
  exists h,
    get_conversation_history (fun l => l) conv_a owner_a
      (snd (save_message conv_a "user" "Buy bread" sample_db))
    = (Ok (Some h), add_log (Select "todo_messages") (add_log (Select "todo_conversations")
                       (snd (save_message conv_a "user" "Buy bread" sample_db))))
    /\ In (mk_history_item (uuid_str 100) "user" (py_strip "Buy bread") 0) h.
Proof.
  apply (save_message_history_round_trip (fun l => l) conv_a owner_a "user" "Buy bread"
           sample_db (mk_message 100 conv_a "user" "Buy bread" 0)).
  - intros l; apply Permutation_refl.
  - vm_compute; reflexivity.
  - vm_compute; reflexivity.
Defined.

(** C8 fails as stated: a message saved with content " hi" reads back as
    "hi". *)
Lemma save_message_content_stripped :
  fst (get_conversation_history (fun l => l) conv_a owner_a
         (snd (save_message conv_a "user" " hi" sample_db)))
  = Ok (Some [mk_history_item (uuid_str 100) "user" "hi" 0])
  /\ " hi" <> "hi".
Proof. split; [vm_compute; reflexivity | discriminate]. Qed.


(** C9 on the sample store: a user message then an assistant message,
    read back through a stable merge sort on [created_at]. *)
Lemma conversation_history_order_witness :
  let s := snd (save_message conv_a "assistant" "Done"
                  (snd (save_message conv_a "user" "Hello" sample_db))) in
  let rows := filter (fun m => N.eqb m.(m_conversation_id) conv_a) s.(messages) in
  let h := [mk_history_item (uuid_str 100) "user" "Hello" 0;
            mk_history_item (uuid_str 101) "assistant" "Done" 1] in
  Sorted (fun x y => (h_created_at x <= h_created_at y)%Z) h
  /\ Permutation (map to_history_item rows) h
  /\ (Sorted (fun a b => (m_created_at a < m_created_at b)%Z) rows -> h = map to_history_item rows).
Proof.
  intros s rows h.
  apply (conversation_history_order MessageSort.sort conv_a owner_a s h
           (snd (get_conversation_history MessageSort.sort conv_a owner_a s))).
  - apply MessageSort.Permuted_sort.
  - apply sort_sorted_created_at.
  - vm_compute; reflexivity.
Defined.

(** C9 fails as stated: the clock gives the user message and the assistant
    message the same [created_at], and a database whose [ORDER BY created_at]
    is a legal one (a permutation sorted on [created_at]) returns them in the
    opposite order of insertion. *)
Lemma conversation_history_tie_reordered :
  let s := snd (save_message conv_a "assistant" "Done"
                  (snd (save_message conv_a "user" "Hello" sample_db_frozen_clock))) in
  map m_role s.(messages) = ["user"; "assistant"]
  /\ fst (get_conversation_history (fun l => MessageSort.sort (rev l)) conv_a owner_a s)
     = Ok (Some [mk_history_item (uuid_str 101) "assistant" "Done" 0;
                 mk_history_item (uuid_str 100) "user" "Hello" 0])
  /\ (forall l, Permutation l (MessageSort.sort (rev l)))
  /\ (forall l, Sorted (fun a b => (m_created_at a <= m_created_at b)%Z) (MessageSort.sort (rev l))).
Proof.
  intros s. split; [vm_compute; reflexivity|]. split; [vm_compute; reflexivity|]. split.
  - intros l. eapply Permutation_trans; [apply Permutation_rev | apply MessageSort.Permuted_sort].
  - intros l. apply sort_sorted_created_at.
Qed.


(** C4 on the sample store: owner A asks to complete a task that does not
    exist. *)
Lemma tool_failure_reply_witness :
  assistant_reply sample_fromisoformat sample_isoformat
    (ApiMessage None [mk_tool_call "complete_task"
                        (Some (VObj [("task_id", VStr (uuid_str absent_task))]))]) owner_a sample_db
  = (Ok ("Sorry, I encountered an error: " ^^ task_not_found_absent),
     add_log (Select "todo_tasks") sample_db)
  /\ assistant_reply sample_fromisoformat sample_isoformat (ApiFailure "Connection error.")
       owner_a sample_db
     = (Ok ("I encountered an error processing your request: " ^^ "Connection error."), sample_db).
Proof.
  apply (tool_failure_reply sample_fromisoformat sample_isoformat owner_a "complete_task"
           [("task_id", VStr (uuid_str absent_task))] None [] (ValueError task_not_found_absent)
           "Connection error." sample_db (add_log (Select "todo_tasks") sample_db)).
  vm_compute; reflexivity.
Defined.

(** C4 fails as stated: the assistant message shown for a missing task
    carries the tool's raw error code. *)
Lemma tool_failure_reply_shows_code :
  fst (assistant_reply sample_fromisoformat sample_isoformat
         (ApiMessage None [mk_tool_call "complete_task"
                             (Some (VObj [("task_id", VStr (uuid_str absent_task))]))])
         owner_a sample_db)
  = Ok "Sorry, I encountered an error: TASK_NOT_FOUND: Task does not exist"
  /\ contains "TASK_NOT_FOUND" "Sorry, I encountered an error: TASK_NOT_FOUND: Task does not exist"
     = true.
Proof. split; vm_compute; reflexivity. Qed.


(** C3 on the sample store: a first turn of owner A whose reasoning call
    picks [complete_task] on "Buy milk"; and a turn of three blanks in owner
    A's conversation, which fails with status 500. *)
Lemma chat_turn_appends_user_then_assistant_witness :
  exists um am,
    (snd (chat_endpoint sample_fromisoformat sample_isoformat (fun l => l)
            (fun _ => ApiMessage None [mk_tool_call "complete_task"
                                         (Some (VObj [("task_id", VStr (uuid_str task_a))]))])
            "Please complete Buy milk" None owner_a sample_db)).(messages) = [um; am]
    /\ um.(m_role) = "user" /\ um.(m_content) = "Please complete Buy milk"
    /\ am.(m_role) = "assistant"
    /\ am.(m_content) = "I've marked the task 'Buy milk' as completed."
    /\ http_status (fst (chat_endpoint sample_fromisoformat sample_isoformat (fun l => l)
                          (fun _ => ApiMessage (Some "Hi") []) "   " (Some (uuid_str conv_a))
                          owner_a sample_db)) = 500%Z.
Proof.
  destruct (chat_turn_appends_user_then_assistant sample_fromisoformat sample_isoformat (fun l => l)
              (fun _ => ApiMessage (Some "Hi") []) "   " (Some (uuid_str conv_a)) owner_a sample_db)
    as [_ [_ Hblank]].
  destruct (Hblank ltac:(vm_compute; reflexivity) ltac:(vm_compute; split; repeat constructor)
              ltac:(right; exists conv_a; split; vm_compute; reflexivity)) as [H500 _].
  destruct (chat_turn_appends_user_then_assistant sample_fromisoformat sample_isoformat (fun l => l)
              (fun _ => ApiMessage None [mk_tool_call "complete_task"
                                           (Some (VObj [("task_id", VStr (uuid_str task_a))]))])
              "Please complete Buy milk" None owner_a sample_db) as [Hok _].
  destruct (Hok
    (match fst (chat_endpoint sample_fromisoformat sample_isoformat (fun l => l)
                  (fun _ => ApiMessage None [mk_tool_call "complete_task"
                                               (Some (VObj [("task_id", VStr (uuid_str task_a))]))])
                  "Please complete Buy milk" None owner_a sample_db) with
     | Ok r => r
     | Raise _ => mk_chat_response "" "" "" []
     end)
    (snd (chat_endpoint sample_fromisoformat sample_isoformat (fun l => l)
            (fun _ => ApiMessage None [mk_tool_call "complete_task"
                                         (Some (VObj [("task_id", VStr (uuid_str task_a))]))])
            "Please complete Buy milk" None owner_a sample_db))
    ltac:(vm_compute; reflexivity))
    as [c [hist [s_ctx [s_mid [um [am [_ [_ [_ [M [_ [_ [U2 [U3 [_ [A2 [A3 _]]]]]]]]]]]]]]]]].
  exists um, am. rewrite M, U2, U3, A2, A3. split; [vm_compute; reflexivity|].
  repeat split; try exact H500; vm_compute; reflexivity.
Defined.

(** C3 fails as stated: a turn whose user message is three blanks passes
    request validation and the context load, runs its tool (the task is
    completed and committed), then fails with status 500 and appends no
    message at all. *)
Lemma chat_blank_message_not_stored :
  let res := chat_endpoint sample_fromisoformat sample_isoformat (fun l => l)
               (fun _ => ApiMessage None [mk_tool_call "complete_task"
                                            (Some (VObj [("task_id", VStr (uuid_str task_a))]))])
               "   " (Some (uuid_str conv_a)) owner_a sample_db in
  http_status (fst res) = 500%Z
  /\ (snd res).(messages) = []
  /\ option_map t_completed (find_task task_a (snd res).(tasks)) = Some true.
Proof. vm_compute. repeat split; reflexivity. Qed.


(** C5: [add_task] does not check the length of its tags before persisting,
    while its sibling [update_task] rejects the same tags in validation:
    tags of 501 characters reach the store ([Add], [Commit], then
    [Rollback]) and come back as a storage error, where [update_task] raises
    INVALID_TAGS without touching the store. *)
Lemma add_task_tags_reach_store :
  add_task sample_fromisoformat sample_isoformat (VStr (uuid_str owner_a)) (VStr "Buy bread")
    (VStr "medium") VNull (VStr (string_of_list_ascii (repeat "a"%char 501))) sample_db
  = (Raise (ValueError ("DATABASE_ERROR: " ^^ too_long 500)),
     add_log Rollback (add_log Commit (add_log (Add "todo_tasks")
       (tick_clock (tick_clock (tick_rng sample_db))))))
  /\ update_task sample_fromisoformat sample_isoformat (VStr (uuid_str owner_a))
       (VStr (uuid_str task_a)) VNull VNull VNull VNull
       (VStr (string_of_list_ascii (repeat "a"%char 501))) sample_db
     = (Raise (ValueError "INVALID_TAGS: tags cannot exceed 500 characters"), sample_db).
Proof. split; vm_compute; reflexivity. Qed.



(** ** Further properties on the sample store *)

(** The id of the sample task survives [str] and [UUID]. *)
Lemma uuid_str_round_trip_witness :
  (task_a < 2 ^ 128)%N /\ parse_uuid (uuid_str task_a) = Some task_a.
Proof.
  split; [vm_compute; reflexivity|]. apply uuid_str_round_trip. vm_compute. reflexivity.
Defined.

(** Owner B adds a task through the assistant; owner A's task is untouched. *)
Lemma assistant_reply_other_owners_tasks_witness :
  length (snd (assistant_reply sample_fromisoformat sample_isoformat
                 (ApiMessage None [mk_tool_call "add_task" (Some (VObj [("title", VStr "Call mom")]))])
                 owner_b sample_db)).(tasks) = 2%nat
  /\ tasks_of_others owner_b
       (snd (assistant_reply sample_fromisoformat sample_isoformat
               (ApiMessage None [mk_tool_call "add_task" (Some (VObj [("title", VStr "Call mom")]))])
               owner_b sample_db)).(tasks)
     = tasks_of_others owner_b sample_db.(tasks).
Proof.
  split; [vm_compute; reflexivity|].
  apply (assistant_reply_other_owners_tasks sample_fromisoformat sample_isoformat
           (ApiMessage None [mk_tool_call "add_task" (Some (VObj [("title", VStr "Call mom")]))])
           owner_b sample_db
           (fst (assistant_reply sample_fromisoformat sample_isoformat
                   (ApiMessage None [mk_tool_call "add_task" (Some (VObj [("title", VStr "Call mom")]))])
                   owner_b sample_db))
           (snd (assistant_reply sample_fromisoformat sample_isoformat
                   (ApiMessage None [mk_tool_call "add_task" (Some (VObj [("title", VStr "Call mom")]))])
                   owner_b sample_db))).
  - vm_compute. reflexivity.
  - simpl. constructor; [intros []|constructor].
  - vm_compute. reflexivity.
Defined.

(** [complete_task] with a malformed owner id fails with [INVALID_USER_ID]
    and leaves the store as it was. *)
Lemma execute_tool_invalid_no_effect_witness :
  fst (execute_tool sample_fromisoformat sample_isoformat "complete_task"
         [("user_id", VStr "bad"); ("task_id", VStr (uuid_str task_a))] sample_db)
    = Raise (ValueError invalid_user_id)
  /\ snd (execute_tool sample_fromisoformat sample_isoformat "complete_task"
            [("user_id", VStr "bad"); ("task_id", VStr (uuid_str task_a))] sample_db) = sample_db.
Proof.
  split; [vm_compute; reflexivity|].
  apply (execute_tool_invalid_no_effect sample_fromisoformat sample_isoformat "complete_task"
           [("user_id", VStr "bad"); ("task_id", VStr (uuid_str task_a))] sample_db invalid_user_id).
  - vm_compute. reflexivity.
  - vm_compute. reflexivity.
Defined.

(** Owner A adds "  Call mom " through the tool: one task is appended, its
    title stripped. *)
Lemma add_task_appends_one_task_witness :
  exists t,
    (snd (add_task sample_fromisoformat sample_isoformat (VStr (uuid_str owner_a))
            (VStr "  Call mom ") (VStr "high") VNull (VStr "family") sample_db)).(tasks)
      = sample_db.(tasks) ++ [t]
    /\ t.(t_title) = "Call mom" /\ t.(t_user_id) = owner_a.
Proof.
  destruct (add_task_appends_one_task sample_fromisoformat sample_isoformat (uuid_str owner_a) owner_a
              (VStr "  Call mom ") (VStr "high") VNull (VStr "family") sample_db
              (match fst (add_task sample_fromisoformat sample_isoformat (VStr (uuid_str owner_a))
                            (VStr "  Call mom ") (VStr "high") VNull (VStr "family") sample_db)
               with Ok r => r | Raise _ => [] end)
              (snd (add_task sample_fromisoformat sample_isoformat (VStr (uuid_str owner_a))
                      (VStr "  Call mom ") (VStr "high") VNull (VStr "family") sample_db)))
    as [t [x [Hs [_ [Hu [_ [Hx [Ht _]]]]]]]]; try (vm_compute; reflexivity).
  exists t. injection Hx as <-. split; [exact Hs|]. split; [rewrite Ht; vm_compute; reflexivity|exact Hu].
Defined.

(** Owner A deletes "Buy milk" through the tool. *)
Lemma delete_task_removes_witness :
  (snd (delete_task (VStr (uuid_str owner_a)) (VStr (uuid_str task_a)) sample_db)).(tasks)
    = remove_task task_a sample_db.(tasks)
  /\ find_task task_a (snd (delete_task (VStr (uuid_str owner_a)) (VStr (uuid_str task_a))
                              sample_db)).(tasks) = None.
Proof.
  destruct (delete_task_removes (uuid_str owner_a) (uuid_str task_a) owner_a task_a sample_db
              (match fst (delete_task (VStr (uuid_str owner_a)) (VStr (uuid_str task_a)) sample_db)
               with Ok r => r | Raise _ => [] end)
              (snd (delete_task (VStr (uuid_str owner_a)) (VStr (uuid_str task_a)) sample_db)))
    as [t [_ [_ [H1 [H2 _]]]]]; try (vm_compute; reflexivity).
  split; assumption.
Defined.

(** Owner A lists the open tasks: one. *)
Lemma list_tasks_lists_own_tasks_witness :
  dict_get "count"
    (match fst (list_tasks sample_isoformat (VStr (uuid_str owner_a)) (VBool false) sample_db)
     with Ok r => r | Raise _ => [] end) = Some (VNum 1).
Proof.
  destruct (list_tasks_lists_own_tasks sample_fromisoformat sample_isoformat (uuid_str owner_a) owner_a
              (VBool false) sample_db
              (match fst (list_tasks sample_isoformat (VStr (uuid_str owner_a)) (VBool false) sample_db)
               with Ok r => r | Raise _ => [] end)
              (snd (list_tasks sample_isoformat (VStr (uuid_str owner_a)) (VBool false) sample_db)))
    as [rows [Hr [_ [_ [Hc _]]]]]; [vm_compute; reflexivity | vm_compute; reflexivity |].
  rewrite Hc, (Permutation_length Hr). vm_compute. reflexivity.
Defined.

(** [filter_completed="yes"] is a database error. *)
Lemma list_tasks_bad_filter_witness :
  exists msg s', list_tasks sample_isoformat (VStr (uuid_str owner_a)) (VStr "yes") sample_db
                 = (Raise (ValueError ("DATABASE_ERROR: " ^^ msg)), s')
    /\ s'.(tasks) = sample_db.(tasks).
Proof.
  apply (list_tasks_bad_filter sample_isoformat (uuid_str owner_a) owner_a (VStr "yes") sample_db).
  - vm_compute. reflexivity.
  - intros b. discriminate.
  - discriminate.
Defined.

(** The model calls a tool named [remind_me]. *)
Lemma assistant_reply_unknown_tool_witness :
  assistant_reply sample_fromisoformat sample_isoformat
    (ApiMessage None [mk_tool_call "remind_me" (Some (VObj []))]) owner_a sample_db
  = (Ok ("Sorry, I encountered an error: Unknown tool: " ^^ "remind_me"), sample_db).
Proof.
  apply (assistant_reply_unknown_tool sample_fromisoformat sample_isoformat None "remind_me" [] []
           owner_a sample_db).
  vm_compute. reflexivity.
Defined.

(** The model calls [add_task] without a title. *)
Lemma assistant_reply_missing_params_witness :
  assistant_reply sample_fromisoformat sample_isoformat
    (ApiMessage None [mk_tool_call "add_task" (Some (VObj [("priority", VStr "high")]))]) owner_a
    sample_db
  = (Ok ("Sorry, I encountered an error: Missing required parameters: " ^^ "['title']"), sample_db).
Proof.
  rewrite (assistant_reply_missing_params sample_fromisoformat sample_isoformat None "add_task" TAddTask
             [("priority", VStr "high")] [] owner_a sample_db).
  - vm_compute. reflexivity.
  - vm_compute. reflexivity.
  - vm_compute. intros Hc. discriminate Hc.
Defined.

(** Owner A adds a task through the assistant: conversations and messages
    stay as they were. *)
Lemma assistant_reply_keeps_conversations_witness :
  (snd (assistant_reply sample_fromisoformat sample_isoformat
          (ApiMessage None [mk_tool_call "add_task" (Some (VObj [("title", VStr "Call mom")]))])
          owner_a sample_db)).(conversations) = sample_db.(conversations)
  /\ (snd (assistant_reply sample_fromisoformat sample_isoformat
             (ApiMessage None [mk_tool_call "add_task" (Some (VObj [("title", VStr "Call mom")]))])
             owner_a sample_db)).(messages) = sample_db.(messages).
Proof.
  apply (assistant_reply_keeps_conversations sample_fromisoformat sample_isoformat
           (ApiMessage None [mk_tool_call "add_task" (Some (VObj [("title", VStr "Call mom")]))])
           owner_a sample_db
           (fst (assistant_reply sample_fromisoformat sample_isoformat
                   (ApiMessage None [mk_tool_call "add_task" (Some (VObj [("title", VStr "Call mom")]))])
                   owner_a sample_db))).
  vm_compute. reflexivity.
Defined.

(** Owner B opens a conversation and reads it back. *)
Lemma create_conversation_history_witness :
  exists h s2,
    get_conversation_history (fun l => l)
      (match fst (create_conversation owner_b sample_db) with Ok c => c | Raise _ => 0%N end)
      owner_b (snd (create_conversation owner_b sample_db)) = (Ok (Some h), s2).
Proof.
  apply (create_conversation_history (fun l => l) owner_b sample_db
           (match fst (create_conversation owner_b sample_db) with Ok c => c | Raise _ => 0%N end)
           (snd (create_conversation owner_b sample_db))).
  vm_compute. reflexivity.
Defined.

(** A request naming conversation "not-a-uuid". *)
Lemma chat_endpoint_malformed_conversation_id_witness :
  chat_endpoint sample_fromisoformat sample_isoformat (fun l => l)
    (fun _ => ApiMessage (Some "Hi") []) "hello" (Some "not-a-uuid") owner_a sample_db
  = (Raise (ValueError "badly formed hexadecimal UUID string"), add_log Rollback sample_db).
Proof.
  apply (chat_endpoint_malformed_conversation_id sample_fromisoformat sample_isoformat (fun l => l)
           (fun _ => ApiMessage (Some "Hi") []) "hello" "not-a-uuid" owner_a sample_db).
  - cbn. lia.
  - vm_compute. reflexivity.
  - vm_compute. discriminate.
Defined.

(** Owner B's first message opens a conversation of owner B. *)
Lemma chat_endpoint_new_conversation_witness :
  exists cv,
    (snd (chat_endpoint sample_fromisoformat sample_isoformat (fun l => l)
            (fun _ => ApiMessage (Some "Hi") []) "hello" None owner_b sample_db)).(conversations)
      = sample_db.(conversations) ++ [cv]
    /\ cv.(c_user_id) = owner_b.
Proof.
  destruct (chat_endpoint_new_conversation sample_fromisoformat sample_isoformat (fun l => l)
              (fun _ => ApiMessage (Some "Hi") []) "hello" None owner_b sample_db
              (match fst (chat_endpoint sample_fromisoformat sample_isoformat (fun l => l)
                            (fun _ => ApiMessage (Some "Hi") []) "hello" None owner_b sample_db)
               with Ok r => r | Raise _ => mk_chat_response "" "" "" [] end)
              (snd (chat_endpoint sample_fromisoformat sample_isoformat (fun l => l)
                      (fun _ => ApiMessage (Some "Hi") []) "hello" None owner_b sample_db))
              (or_introl eq_refl))
    as [cv [H1 [_ [H2 _]]]]; [vm_compute; reflexivity|].
  exists cv. split; assumption.
Defined.

(** [POST /api/v1/tasks] with priority "urgent" stores "urgent". *)
Lemma rest_create_task_stores_witness :
  exists t s', rest_create_task (mk_task_create "Call mom" "urgent" None None) owner_a sample_db
               = (Ok t, s') /\ t.(t_priority) = "urgent".
Proof.
  assert (H1 : rest_create_task (mk_task_create "Call mom" "urgent" None None) owner_a sample_db
               = (Ok (match fst (rest_create_task (mk_task_create "Call mom" "urgent" None None)
                                   owner_a sample_db) with
                      | Ok t => t
                      | Raise _ => milk
                      end),
                  snd (rest_create_task (mk_task_create "Call mom" "urgent" None None) owner_a
                         sample_db)))
    by (vm_compute; reflexivity).
  destruct (rest_create_task_stores (mk_task_create "Call mom" "urgent" None None) owner_a sample_db
              _ _ H1) as [_ [_ [_ [_ [_ [Hp _]]]]]].
  do 2 eexists. split; [exact H1|]. rewrite Hp. vm_compute. reflexivity.
Defined.


(** [DELETE /api/v1/tasks/{id}] by owner A. *)
Lemma rest_delete_task_removes_witness :
  (snd (rest_delete_task task_a owner_a sample_db)).(tasks) = remove_task task_a sample_db.(tasks).
Proof.
  destruct (rest_delete_task_removes task_a owner_a sample_db tt (snd (rest_delete_task task_a owner_a sample_db)))
    as [t [_ [_ H]]]; [vm_compute; reflexivity|exact H].
Defined.

(** [GET /api/v1/tasks] by owner A, rows in reverse store order. *)
Lemma rest_list_tasks_rows_witness :
  1%nat = length [milk]
  /\ (forall t, In t [milk] <-> In t sample_db.(tasks) /\ t.(t_user_id) = owner_a /\ True)
  /\ (add_log (Select "todo_tasks") sample_db).(tasks) = sample_db.(tasks).
Proof.
  apply (rest_list_tasks_rows (@rev task) None owner_a sample_db [milk] 1%nat
           (add_log (Select "todo_tasks") sample_db)).
  - intros l. apply Permutation_sym, Permutation_rev.
  - vm_compute. reflexivity.
Defined.

(** Owner A adds "  Call mom " through the assistant. *)
Lemma assistant_reply_add_task_witness :
  exists x,
    dict_get "title" [("title", VStr "  Call mom ")] = Some (VStr x)
    /\ match fst (assistant_reply sample_fromisoformat sample_isoformat
                    (ApiMessage None [mk_tool_call "add_task" (Some (VObj [("title", VStr "  Call mom ")]))])
                    owner_a sample_db) with Ok m => m | Raise _ => "" end
       = "I've added the task '" ^^ py_strip x ^^ "' to your todo list.".
Proof.
  apply (assistant_reply_add_task sample_fromisoformat sample_isoformat None [("title", VStr "  Call mom ")] []
           owner_a sample_db
           (match fst (assistant_reply sample_fromisoformat sample_isoformat
                         (ApiMessage None [mk_tool_call "add_task" (Some (VObj [("title", VStr "  Call mom ")]))])
                         owner_a sample_db) with Ok m => m | Raise _ => "" end)
           (snd (assistant_reply sample_fromisoformat sample_isoformat
                   (ApiMessage None [mk_tool_call "add_task" (Some (VObj [("title", VStr "  Call mom ")]))])
                   owner_a sample_db))).
  - vm_compute. reflexivity.
  - vm_compute. intros Hc. discriminate Hc.
Defined.

(** Owner B, who owns no task, asks for the open ones. *)
Lemma assistant_reply_list_no_tasks_witness :
  exists s', assistant_reply sample_fromisoformat sample_isoformat
               (ApiMessage None [mk_tool_call "list_tasks" (Some (VObj [("filter_completed", VBool false)]))])
               owner_b sample_db
             = (Ok "You don't have any tasks yet. You can ask me to add one!", s').
Proof.
  apply (assistant_reply_list_no_tasks sample_fromisoformat sample_isoformat None
           [("filter_completed", VBool false)] [] owner_b sample_db).
  - vm_compute. reflexivity.
  - intros t [<-|[]]. vm_compute. intros Hc. discriminate Hc.
  - intros kv [<-|[]]. right. reflexivity.
  - exact I.
Defined.

(** Owner B creates a task over REST; owner A's task is untouched. *)
Lemma rest_routes_other_owners_tasks_witness :
  NoDup (map t_id sample_db.(tasks))
  /\ tasks_of_others owner_b
       (snd (rest_create_task (mk_task_create "Call mom" "" None None) owner_b sample_db)).(tasks)
     = tasks_of_others owner_b sample_db.(tasks).
Proof.
  assert (Hnd : NoDup (map t_id sample_db.(tasks))) by (simpl; constructor; [intros []|constructor]).
  split; [exact Hnd|].
  destruct (rest_routes_other_owners_tasks (@rev task) owner_b sample_db Hnd) as [H _].
  apply (H (mk_task_create "Call mom" "" None None)
           (fst (rest_create_task (mk_task_create "Call mom" "" None None) owner_b sample_db))).
  vm_compute. reflexivity.
Defined.

(** Owner A deletes "Buy milk" through the assistant. *)
Lemma assistant_reply_delete_task_witness :
  exists t,
    find_task t.(t_id) sample_db.(tasks) = Some t /\ t.(t_user_id) = owner_a
    /\ (snd (assistant_reply sample_fromisoformat sample_isoformat
               (ApiMessage None [mk_tool_call "delete_task"
                                   (Some (VObj [("task_id", VStr (uuid_str task_a))]))])
               owner_a sample_db)).(tasks) = remove_task t.(t_id) sample_db.(tasks)
    /\ match fst (assistant_reply sample_fromisoformat sample_isoformat
                    (ApiMessage None [mk_tool_call "delete_task"
                                        (Some (VObj [("task_id", VStr (uuid_str task_a))]))])
                    owner_a sample_db) with Ok m => m | Raise _ => "" end
       = "I've deleted the task '" ^^ t.(t_title) ^^ "'.".
Proof.
  apply (assistant_reply_delete_task sample_fromisoformat sample_isoformat None
           [("task_id", VStr (uuid_str task_a))] [] owner_a sample_db
           (match fst (assistant_reply sample_fromisoformat sample_isoformat
                         (ApiMessage None [mk_tool_call "delete_task"
                                             (Some (VObj [("task_id", VStr (uuid_str task_a))]))])
                         owner_a sample_db) with Ok m => m | Raise _ => "" end)
           (snd (assistant_reply sample_fromisoformat sample_isoformat
                   (ApiMessage None [mk_tool_call "delete_task"
                                       (Some (VObj [("task_id", VStr (uuid_str task_a))]))])
                   owner_a sample_db))).
  - vm_compute. reflexivity.
  - vm_compute. reflexivity.
  - vm_compute. intros Hc. discriminate Hc.
Defined.

(** The model answers every prompt with an [add_task] call whose arguments
    are not JSON. *)
Lemma chat_endpoint_malformed_tool_arguments_witness :
  exists s', chat_endpoint sample_fromisoformat sample_isoformat (fun l => l)
               (fun _ => ApiMessage None [mk_tool_call "add_task" None]) "hello" None owner_b sample_db
             = (Raise (ValueError "Expecting value: line 1 column 1 (char 0)"), s')
    /\ s'.(messages) = sample_db.(messages) /\ s'.(tasks) = sample_db.(tasks).
Proof.
  apply (chat_endpoint_malformed_tool_arguments sample_fromisoformat sample_isoformat (fun l => l)
           (fun _ => ApiMessage None [mk_tool_call "add_task" None]) "hello" owner_b sample_db
           None "add_task" []).
  - cbn. lia.
  - intros p. reflexivity.
Defined.

(** "Buy milk" as the first line of a listing. *)
Lemma format_listed_task_plain_witness :
  format_task_for_display 0 (task_list_item sample_isoformat milk)
  = "1. ○ Buy milk" ^^ nl ^^ "   (ID: " ^^ uuid_str task_a ^^ ")".
Proof.
  rewrite (format_listed_task_plain sample_isoformat 0 milk).
  - vm_compute. reflexivity.
  - vm_compute. reflexivity.
  - reflexivity.
  - exact I.
Defined.
